(** * tinyblend: the .blend loader (game/loader.py)

    A shallow embedding of [BlenderFile.parse_header], [BlenderFile._parse_index]
    and [BlenderFile._parse_blocks], with the parts of Python they rely on
    (bytes slicing and splitting, [struct] decoding, a seekable binary file),
    followed by the properties of the header decoder, the schema (index)
    decoder and the block scanner. *)

From Stdlib Require Import Ascii String Strings.Byte.
From Stdlib Require Import ZArith List Bool Lia Sorted.
From coqutil Require Import Byte Word.LittleEndianList.
Import ListNotations.
Local Open Scope Z_scope.

(** ** Python values and exceptions *)

(** The exceptions the loader can raise: its own
    [BlenderFileImportException] (which carries a message), and the
    built-in ones that the calls it makes can raise. *)
Inductive exn : Type :=
| BlenderFileImportException (message : string)
| struct_error
| ValueError
| TypeError
| OSError.

Inductive result (A : Type) : Type :=
| Return (a : A)
| Raise (e : exn).
Arguments Return {A} a.
Arguments Raise {A} e.

Definition bind {A B} (r : result A) (k : A -> result B) : result B :=
  match r with
  | Return a => k a
  | Raise e => Raise e
  end.

Notation "x <- r ;; k" := (bind r (fun x => k))
  (at level 61, r at next level, right associativity).
Notation "' p <- r ;; k" := (bind r (fun x => let p := x in k))
  (at level 61, p pattern, r at next level, right associativity).

(** The four failures of the loader, by the message they are raised with. *)
Definition MalformedHeader : exn := BlenderFileImportException "Bad file header".
Definition MalformedIndex : exn := BlenderFileImportException "Malformed index".
Definition MissingIndex : exn :=
  BlenderFileImportException "Could not find blend file index".
Definition MissingTerminator : exn :=
  BlenderFileImportException "End of the blend file was not found".

(** A bytes literal [b'...']. *)
Definition b (s : string) : list byte := list_byte_of_string s.

Fixpoint bytes_eqb (x y : list byte) : bool :=
  match x, y with
  | [], [] => true
  | c :: x', d :: y' => Byte.eqb c d && bytes_eqb x' y'
  | _, _ => false
  end.

Module Py.

Definition len {A} (l : list A) : Z := Z.of_nat (length l).

(** Index adjustment of a slice bound (step 1): a negative bound counts
    from the end, and both bounds are clamped to [0, len]. *)
Definition adjust (n i : Z) : Z :=
  if i <? 0 then Z.max 0 (i + n) else Z.min i n.

(** [l[start:stop]] *)
Definition slice {A} (l : list A) (start stop : Z) : list A :=
  let lo := adjust (len l) start in
  let hi := adjust (len l) stop in
  firstn (Z.to_nat (hi - lo)) (skipn (Z.to_nat lo) l).

(** [l[start::]] *)
Definition slice_from {A} (l : list A) (start : Z) : list A :=
  skipn (Z.to_nat (adjust (len l) start)) l.

(** [l[:-1]] *)
Definition drop_last {A} (l : list A) : list A := removelast l.

(** [data.split(sep, maxsplit)] for a one-byte separator: at most
    [maxsplit] splits are made, from the left; a negative [maxsplit] puts
    no limit.  The result is never empty. *)
Fixpoint split (sep : byte) (maxsplit : Z) (data : list byte)
  : list (list byte) :=
  match data with
  | [] => [[]]
  | c :: rest =>
      if (maxsplit =? 0) then [data]
      else if Byte.eqb c sep
      then [] :: split sep (if maxsplit <? 0 then maxsplit else maxsplit - 1) rest
      else match split sep maxsplit rest with
           | piece :: pieces => (c :: piece) :: pieces
           | [] => [[c]]
           end
  end.

Definition sum (l : list Z) : Z := fold_right Z.add 0 l.

(** [range(n)] as the number of iterations of a [for] loop over it. *)
Definition range (n : Z) : nat := Z.to_nat n.

(** A binary file opened for reading: its contents and the position of
    the next read. *)
Record file := { contents : list byte; pos : Z }.

(** [handle.read(size)]: the bytes from the position to the end of the
    file, [size] of them at most; all of them when [size] is -1.  The
    position moves past the bytes returned. *)
Definition read (size : Z) (h : file) : result (list byte * file) :=
  if size <? -1 then Raise ValueError
  else
    let rest := skipn (Z.to_nat (pos h)) (contents h) in
    let data := if size =? -1 then rest else firstn (Z.to_nat size) rest in
    Return (data, {| contents := contents h; pos := pos h + len data |}).

(** [handle.seek(offset, whence)] for whence 0 (start), 1 (current) and
    2 (end); returns the new position. *)
Definition seek (offset whence : Z) (h : file) : result (Z * file) :=
  let base := if whence =? 0 then 0
              else if whence =? 1 then pos h
              else len (contents h) in
  if (whence <? 0) || (2 <? whence) then Raise ValueError
  else if base + offset <? 0 then Raise OSError
  else Return (base + offset,
               {| contents := contents h; pos := base + offset |}).

End Py.

(** ** The [struct] module, as far as [NamedStruct] uses it *)

Inductive Endian : Type := Little | Big.
Inductive Arch : Type := X32 | X64.

Module Struct.

(** The integer format characters the loader uses. *)
Inductive code : Type := i | I | Q | h.

Definition calcsize (c : code) : Z :=
  match c with i | I => 4 | Q => 8 | h => 2 end.

Definition signed (c : code) : bool :=
  match c with i | h => true | I | Q => false end.

(** The integer that [bs] holds in byte order [e], read as format [c]
    ([bs] has [calcsize c] bytes). *)
Definition to_int (e : Endian) (c : code) (bs : list byte) : Z :=
  let u := le_combine (match e with Little => bs | Big => rev bs end) in
  let bits := 8 * calcsize c in
  if signed c && (2 ^ (bits - 1) <=? u) then u - 2 ^ bits else u.

End Struct.

(** [Arch.value] and [Endian.value]: the format character of an address,
    and the byte-order prefix (the [Endian] itself here). *)
Definition Arch_value (a : Arch) : Struct.code :=
  match a with X32 => Struct.I | X64 => Struct.Q end.

Module NamedStruct.

(** A [NamedStruct]: the size of its format and the record it builds from
    that many bytes. *)
Record t (A : Type) : Type := { size : Z; names : list byte -> A }.
Arguments size {A} _.
Arguments names {A} _ _.

Definition unpack {A} (s : t A) (data : list byte) : result A :=
  if Py.len data =? size s then Return (names s data) else Raise struct_error.

Definition unpack_from {A} (s : t A) (data : list byte) (offset : Z)
  : result A :=
  if (offset <? 0) && ((0 <? offset + size s) || (offset + Py.len data <? 0))
  then Raise struct_error
  else
    let offset := if offset <? 0 then offset + Py.len data else offset in
    if Py.len data - offset <? size s then Raise struct_error
    else Return (names s (Py.slice data offset (offset + size s))).

Fixpoint chunks {A} (n : nat) (k : nat) (data : list A) : list (list A) :=
  match k with
  | O => []
  | S k' => firstn n data :: chunks n k' (skipn n data)
  end.

Definition iter_unpack {A} (s : t A) (data : list byte) : result (list A) :=
  if (size s =? 0) || negb (Py.len data mod size s =? 0)
  then Raise struct_error
  else Return (map (names s)
                 (chunks (Z.to_nat (size s))
                    (Z.to_nat (Py.len data / size s)) data)).

End NamedStruct.

(** ** [BlenderFile] *)

Module BlenderFile.

Module VersionInfo.
Record t : Type := { major : Z; minor : Z; rev : Z }.
End VersionInfo.

Record BlendFileInfo : Type :=
  { version : VersionInfo.t; arch : Arch; endian : Endian }.

Record BlendStructRef : Type := { name : Z; fields : list (Z * Z) }.

Record BlendIndex : Type :=
  { names : list (list byte);
    types : list (list byte * Z);
    structures : list BlendStructRef }.

(** The record of the [BlendBlockHeader] named struct of
    [_parse_blocks]. *)
Record BlendBlockHeader : Type :=
  { code : list byte; size : Z; addr : Z; sdna : Z; count : Z }.

(** [BlenderFile.VersionInfo] called on the unpacked [version] list: it
    takes three positional arguments. *)
Definition VersionInfo_of (version : list Z) : result VersionInfo.t :=
  match version with
  | [a; b; c] =>
      Return {| VersionInfo.major := a; VersionInfo.minor := b;
                VersionInfo.rev := c |}
  | _ => Raise TypeError
  end.

Definition parse_header (header : list byte)
  : result (option BlendFileInfo) :=
  if negb (Py.len header =? 12)
     || negb (bytes_eqb (Py.slice header 0 7) (b "BLENDER"))
  then Return None
  else
    let arch := Py.slice header 7 8 in
    let endian := Py.slice header 8 9 in
    let version :=
      map (fun x => byte.unsigned x - 48) (Py.slice_from header 9) in
    match (if bytes_eqb arch (b "-") then Some X64
           else if bytes_eqb arch (b "_") then Some X32
           else None) with
    | None => Return None
    | Some arch =>
        match (if bytes_eqb endian (b "v") then Some Little
               else if bytes_eqb endian (b "V") then Some Big
               else None) with
        | None => Return None
        | Some endian =>
            version <- VersionInfo_of version ;;
            Return (Some {| version := version; arch := arch;
                            endian := endian |})
        end
    end.

(** The first lines of [__init__]: the header is the first 12 bytes read
    from the file, and a header that [parse_header] rejects is a
    [Bad file header]. *)
Definition read_header (h : Py.file)
  : result (BlendFileInfo * Py.file) :=
  '(data, h) <- Py.read 12 h ;;
  header <- parse_header data ;;
  match header with
  | None => Raise MalformedHeader
  | Some header => Return (header, h)
  end.

Section WithHeader.

(** [self.header] *)
Variable header : BlendFileInfo.

(** The named structs that [_fmt_strct] gives for the formats ['i'],
    ['h'], ['hh'] and ['4siPii']: the byte order is the header's, and
    [P] is the format character of the header's [arch]. *)
Definition to_int (c : Struct.code) (data : list byte) (at_ : Z) : Z :=
  Struct.to_int (endian header) c
    (Py.slice data at_ (at_ + Struct.calcsize c)).

Definition Int : NamedStruct.t Z :=
  {| NamedStruct.size := Struct.calcsize Struct.i;
     NamedStruct.names := fun data => to_int Struct.i data 0 |}.

Definition Short : NamedStruct.t Z :=
  {| NamedStruct.size := Struct.calcsize Struct.h;
     NamedStruct.names := fun data => to_int Struct.h data 0 |}.

Definition StructField : NamedStruct.t (Z * Z) :=
  {| NamedStruct.size := Struct.calcsize Struct.h + Struct.calcsize Struct.h;
     NamedStruct.names :=
       fun data => (to_int Struct.h data 0, to_int Struct.h data 2) |}.

Definition BlendBlockHeader_struct : NamedStruct.t BlendBlockHeader :=
  let P := Arch_value (arch header) in
  {| NamedStruct.size :=
       4 + Struct.calcsize Struct.i + Struct.calcsize P
       + Struct.calcsize Struct.i + Struct.calcsize Struct.i;
     NamedStruct.names := fun data =>
       {| code := Py.slice data 0 4;
          size := to_int Struct.i data 4;
          addr := to_int P data 8;
          sdna := to_int Struct.i data (8 + Struct.calcsize P);
          count := to_int Struct.i data (12 + Struct.calcsize P) |} |}.

(** *** [_parse_index] *)

(** The local function [align] of [_parse_index], on the value of
    [offset]. *)
Definition align (offset : Z) : Z :=
  let tmp := offset mod 4 in
  offset + (if tmp =? 0 then 0 else 4 - tmp).

(** Lines 154-159.  The names: the count at [offset], the strings after
    it; the offset moves past them and is aligned. *)
Definition read_names (data : list byte) (offset : Z)
  : result (list (list byte) * Z) :=
  name_count <- NamedStruct.unpack_from Int data offset ;;
  let names :=
    Py.drop_last (Py.split x00 name_count (Py.slice_from data (offset + 4))) in
  let offset := offset + (Py.sum (map Py.len names) + Py.len names + 4) in
  Return (names, align offset).

(** Lines 163-167.  The type names: the count after the tag at [offset],
    the strings after it; the offset moves past them and is aligned. *)
Definition read_type_names (data : list byte) (offset : Z)
  : result (list (list byte) * Z * Z) :=
  type_count <- NamedStruct.unpack_from Int data (offset + 4) ;;
  let type_names :=
    Py.drop_last (Py.split x00 type_count (Py.slice_from data (offset + 8))) in
  let offset :=
    offset + (Py.sum (map Py.len type_names) + Py.len type_names + 8) in
  Return (type_names, type_count, align offset).

(** Lines 171-177.  The type lengths, after the tag at [offset], paired
    with the type names; the offset moves past them and is aligned. *)
Definition read_types (data : list byte) (type_names : list (list byte))
  (type_count : Z) (offset : Z) : result (list (list byte * Z) * Z) :=
  let offset := offset + 4 in
  let type_data_length := NamedStruct.size Short * type_count in
  type_sizes <- NamedStruct.iter_unpack Short
                  (Py.slice data offset (offset + type_data_length)) ;;
  let types := combine type_names type_sizes in
  let offset := offset + type_data_length in
  Return (types, align offset).

(** Lines 190-192.  The inner loop: [for _ in range(field_count)]. *)
Fixpoint read_fields (n : nat) (data : list byte) (offset : Z)
  : result (list (Z * Z) * Z) :=
  match n with
  | O => Return ([], offset)
  | S n' =>
      field <- NamedStruct.unpack_from StructField data offset ;;
      '(fields, offset) <- read_fields n' data (offset + 4) ;;
      Return (field :: fields, offset)
  end.

(** Lines 184-194.  The outer loop: [for _ in range(structure_count)]. *)
Fixpoint read_structures (n : nat) (data : list byte) (offset : Z)
  : result (list BlendStructRef * Z) :=
  match n with
  | O => Return ([], offset)
  | S n' =>
      structure_type_index <- NamedStruct.unpack_from Short data offset ;;
      field_count <- NamedStruct.unpack_from Short data (offset + 2) ;;
      '(fields, offset) <-
        read_fields (Py.range field_count) data (offset + 4) ;;
      '(structures, offset) <- read_structures n' data offset ;;
      Return ({| name := structure_type_index; fields := fields |}
                :: structures, offset)
  end.

(** Lines 150-194.  [_parse_index] from the bytes read to the index built,
    with the value of [offset] at the end: the four tag checks and, between
    them, the stages above. *)
Definition parse_index_data (data : list byte) : result (BlendIndex * Z) :=
  if negb (bytes_eqb (Py.slice data 0 8) (b "SDNANAME"))
  then Raise MalformedIndex
  else
    let offset := 8 in
    '(names, offset) <- read_names data offset ;;
    if negb (bytes_eqb (Py.slice data offset (offset + 4)) (b "TYPE"))
    then Raise MalformedIndex
    else
      '(type_names, type_count, offset) <- read_type_names data offset ;;
      if negb (bytes_eqb (Py.slice data offset (offset + 4)) (b "TLEN"))
      then Raise MalformedIndex
      else
        '(types, offset) <- read_types data type_names type_count offset ;;
        if negb (bytes_eqb (Py.slice data offset (offset + 4)) (b "STRC"))
        then Raise MalformedIndex
        else
          let offset := offset + 8 in
          structure_count <- NamedStruct.unpack_from Int data (offset - 4) ;;
          '(structures, offset) <-
            read_structures (Py.range structure_count) data offset ;;
          Return ({| names := names; types := types;
                     structures := structures |}, offset).

(** Lines 149 and 197-199.  The payload is read whole, decoded, and the
    file is put back at [data_offset]. *)
Definition _parse_index (head : BlendBlockHeader) (data_offset : Z)
  (h : Py.file) : result (BlendIndex * Py.file) :=
  '(data, h) <- Py.read (size head) h ;;
  '(index, _) <- parse_index_data data ;;
  '(_, h) <- Py.seek data_offset 0 h ;;
  Return (index, h).

(** *** [_parse_blocks] *)

(** The variables of the loop of [_parse_blocks]. *)
Record locals : Type :=
  { handle : Py.file;
    blend_index : option BlendIndex;
    end_found : bool;
    file_block_heads : list (BlendBlockHeader * Z) }.

Definition with_handle (s : locals) (h : Py.file) : locals :=
  {| handle := h; blend_index := blend_index s;
     end_found := end_found s; file_block_heads := file_block_heads s |}.

(** Lines 220-232.  One iteration of the [while] loop. *)
Definition scan_block (s : locals) : result locals :=
  '(buf, h) <-
    Py.read (NamedStruct.size BlendBlockHeader_struct) (handle s) ;;
  file_block_head <- NamedStruct.unpack BlendBlockHeader_struct buf ;;
  s' <-
    (if bytes_eqb (code file_block_head) (b "DNA1") then
       '(data_offset, h) <- Py.seek 0 1 h ;;
       '(index, h) <- _parse_index file_block_head data_offset h ;;
       Return {| handle := h; blend_index := Some index;
                 end_found := end_found s;
                 file_block_heads := file_block_heads s |}
     else if bytes_eqb (code file_block_head) (b "ENDB") then
       Return {| handle := h; blend_index := blend_index s;
                 end_found := true;
                 file_block_heads := file_block_heads s |}
     else
       '(offset, h) <- Py.seek 0 1 h ;;
       Return {| handle := h; blend_index := blend_index s;
                 end_found := end_found s;
                 file_block_heads :=
                   file_block_heads s ++ [(file_block_head, offset)] |}) ;;
  '(_, h) <- Py.read (size file_block_head) (handle s') ;;
  Return (with_handle s' h).

(** Line 219.  The [while] loop; [None] when [fuel] iterations were not
    enough to leave it. *)
Fixpoint scan_loop (fuel : nat) (end_ : Z) (s : locals)
  : option (result locals) :=
  match Py.seek 0 1 (handle s) with
  | Raise e => Some (Raise e)
  | Return (position, h) =>
      let s := with_handle s h in
      if negb (end_ =? position) && negb (end_found s) then
        match fuel with
        | O => None
        | S fuel' =>
            match scan_block s with
            | Raise e => Some (Raise e)
            | Return s' => scan_loop fuel' end_ s'
            end
        end
      else Some (Return s)
  end.

(** [_parse_blocks], the loop run with more iterations than the file
    has bytes, which is always enough (see [_parse_blocks_total]). *)
Definition _parse_blocks (handle0 : Py.file)
  : option (result (list (BlendBlockHeader * Z) * BlendIndex * Py.file)) :=
  match Py.seek 0 2 handle0 with
  | Raise e => Some (Raise e)
  | Return (end_, handle1) =>
      match Py.seek 12 0 handle1 with
      | Raise e => Some (Raise e)
      | Return (_, handle2) =>
          match scan_loop (S (length (Py.contents handle0))) end_
                  {| handle := handle2; blend_index := None;
                     end_found := false; file_block_heads := [] |} with
          | None => None
          | Some (Raise e) => Some (Raise e)
          | Some (Return s) =>
              match blend_index s with
              | None => Some (Raise MissingIndex)
              | Some blend_index =>
                  if eqb (end_found s) false
                  then Some (Raise MissingTerminator)
                  else Some (Return (file_block_heads s, blend_index,
                                     handle s))
              end
          end
      end
  end.

End WithHeader.

(** *** [__init__]: the file opened at position 0, the header, the
    blocks. *)
Record t : Type :=
  { self_header : BlendFileInfo;
    self_handle : Py.file;
    self_blocks : list (BlendBlockHeader * Z);
    self_index : BlendIndex }.

Definition __init__ (file_contents : list byte) : option (result t) :=
  let h := {| Py.contents := file_contents; Py.pos := 0 |} in
  match read_header h with
  | Raise e => Some (Raise e)
  | Return (header, h) =>
      match _parse_blocks header h with
      | None => None
      | Some (Raise e) => Some (Raise e)
      | Some (Return (blocks, index, h)) =>
          Some (Return {| self_header := header; self_handle := h;
                          self_blocks := blocks; self_index := index |})
      end
  end.

End BlenderFile.

(** ** Writing the format, for the round trips

    The loader only reads.  These functions write what section 4.3 of the
    specification and the block layout describe, with the same [struct]
    formats; they are what the decoders are compared with. *)

Module Encode.

Import BlenderFile.

(** [struct.pack] of one integer. *)
Definition int (e : Endian) (c : Struct.code) (z : Z) : list byte :=
  let bs := le_split (Z.to_nat (Struct.calcsize c)) z in
  match e with Little => bs | Big => rev bs end.

(** A null-terminated string. *)
Definition cstring (s : list byte) : list byte := s ++ [x00].

(** The filler that brings offset [o] to the next multiple of 4:
    nothing if [o mod 4 = 0], and [4 - o mod 4] bytes otherwise. *)
Definition padding (fill : byte) (o : Z) : list byte :=
  if o mod 4 =? 0 then [] else repeat fill (Z.to_nat (4 - o mod 4)).

Definition pad (fill : byte) (data : list byte) : list byte :=
  data ++ padding fill (Py.len data).

Definition field (e : Endian) (f : Z * Z) : list byte :=
  int e Struct.h (fst f) ++ int e Struct.h (snd f).

Definition structure (e : Endian) (s : BlendStructRef) : list byte :=
  int e Struct.h (name s) ++ int e Struct.h (Py.len (fields s))
  ++ concat (map (field e) (fields s)).

(** The payload of the index block, with [tlen] written where the
    ["TLEN"] tag goes. *)
Definition schema_with (tlen : list byte) (e : Endian) (fill : byte)
  (names : list (list byte)) (types : list (list byte * Z))
  (structures : list BlendStructRef) : list byte :=
  let s2 := pad fill (b "SDNANAME" ++ int e Struct.i (Py.len names)
                      ++ concat (map cstring names)) in
  let s3 := pad fill (s2 ++ b "TYPE" ++ int e Struct.i (Py.len types)
                      ++ concat (map cstring (map fst types))) in
  let s4 := pad fill (s3 ++ tlen
                      ++ concat (map (int e Struct.h) (map snd types))) in
  s4 ++ b "STRC" ++ int e Struct.i (Py.len structures)
     ++ concat (map (structure e) structures).

Definition schema := schema_with (b "TLEN").

(** A block: its header in the layout ['4siPii'], then its payload. *)
Definition block_header (header : BlendFileInfo) (h : BlendBlockHeader)
  : list byte :=
  code h ++ int (endian header) Struct.i (size h)
  ++ int (endian header) (Arch_value (arch header)) (addr h)
  ++ int (endian header) Struct.i (sdna h)
  ++ int (endian header) Struct.i (count h).

End Encode.

(** ** Vocabulary of the statements *)

Import BlenderFile.

(** What makes a header malformed: its length, its tag, the byte that
    gives the pointer width or the byte that gives the byte order. *)
Definition malformed_header (header : list byte) : Prop :=
  length header <> 12%nat
  \/ firstn 7 header <> b "BLENDER"
  \/ (nth_error header 7 <> Some "-"%byte /\ nth_error header 7 <> Some "_"%byte)
  \/ (nth_error header 8 <> Some "v"%byte /\ nth_error header 8 <> Some "V"%byte).

Definition arch_of_byte (c : byte) : Arch :=
  if Byte.eqb c "-" then X64 else X32.

Definition endian_of_byte (c : byte) : Endian :=
  if Byte.eqb c "v" then Little else Big.

(** What a format can hold. *)
Definition fits (c : Struct.code) (z : Z) : Prop :=
  if Struct.signed c
  then - 2 ^ (8 * Struct.calcsize c - 1) <= z < 2 ^ (8 * Struct.calcsize c - 1)
  else 0 <= z < 2 ^ (8 * Struct.calcsize c).


(** A name that can be written null-terminated holds no null byte. *)
Definition no_null (s : list byte) : Prop := ~ In x00 s.

Definition field_fits (f : Z * Z) : Prop :=
  fits Struct.h (fst f) /\ fits Struct.h (snd f).

Definition structure_fits (s : BlendStructRef) : Prop :=
  fits Struct.h (name s) /\ fits Struct.h (Py.len (fields s))
  /\ Forall field_fits (fields s).

(** The schemas that the format can hold: names without null bytes, and
    counts, sizes and indices that fit their [struct] formats. *)
Definition encodable (names : list (list byte)) (types : list (list byte * Z))
  (structures : list BlendStructRef) : Prop :=
  Forall no_null names /\ fits Struct.i (Py.len names)
  /\ Forall (fun t => no_null (fst t) /\ fits Struct.h (snd t)) types
  /\ fits Struct.i (Py.len types)
  /\ Forall structure_fits structures
  /\ fits Struct.i (Py.len structures).


(** No dangling index: every type index is below the number of types and
    every name index below the number of names. *)
Definition in_bounds (index : BlendIndex) (s : BlendStructRef) : Prop :=
  name s < Py.len (types index)
  /\ Forall (fun f => fst f < Py.len (types index)
                      /\ snd f < Py.len (names index)) (fields s).

Definition no_dangling (index : BlendIndex) : Prop :=
  Forall (in_bounds index) (structures index).

(** The values of a signed 16-bit field. *)
Definition short_range (z : Z) : Prop := -32768 <= z <= 32767.

Definition stored_as_shorts (s : BlendStructRef) : Prop :=
  short_range (name s)
  /\ Forall (fun f => short_range (fst f) /\ short_range (snd f)) (fields s).

(** A little-endian 64-bit file, as in scenario 3. *)
Definition header_v280 : BlendFileInfo :=
  {| version := {| VersionInfo.major := 2; VersionInfo.minor := 8;
                   VersionInfo.rev := 0 |};
     arch := X64; endian := Little |}.

(** The schema of scenario 3: one name ["ob"], one type ["int"] of size 4,
    one structure of type 0 with the field (0, 0). *)
Definition scenario_structures : list BlendStructRef :=
  [{| name := 0; fields := [(0, 0)] |}].

Definition scenario_index : BlendIndex :=
  {| names := [b "ob"]; types := [(b "int", 4)];
     structures := scenario_structures |}.

Definition scenario_payload : list byte :=
  Encode.schema Little x00 [b "ob"] [(b "int", 4)] scenario_structures.

(** Scenario 4: the same payload with its ["TLEN"] tag overwritten. *)
Definition garbage_payload : list byte :=
  Encode.schema_with (b "XXXX") Little x00 [b "ob"] [(b "int", 4)]
    scenario_structures.

(** A payload whose only structure names type 5, of one type. *)
Definition dangling_payload : list byte :=
  Encode.schema Little x00 [b "ob"] [(b "int", 4)]
    [{| name := 5; fields := [(0, 0)] |}].


(** *** The block stream as it lies on disk *)

(** The bytes that a read of [size] bytes at [offset] returns (all that
    follow when [size] is -1). *)
Definition bytes_at (contents : list byte) (offset size : Z) : list byte :=
  let rest := skipn (Z.to_nat offset) contents in
  if size =? -1 then rest else firstn (Z.to_nat size) rest.

(** How the sequence of blocks ends: with the ["ENDB"] block, at the end
    of the file, in a header cut short by the end of the file, at a block
    whose size no read accepts (below -1); [Unexplored] when [fuel] blocks
    were listed and more follow. *)
Inductive stream_end : Type :=
| AtTerminator | AtEnd | Truncated | BadSize | Unexplored.

(** The blocks from [position] on, each with the offset of its payload, up
    to and including the first ["ENDB"] block: a block starts where the
    payload of the one before ends. *)
Fixpoint blocks_on_disk (header : BlendFileInfo) (contents : list byte)
  (fuel : nat) (position : Z) : list (BlendBlockHeader * Z) * stream_end :=
  if position =? Py.len contents then ([], AtEnd)
  else
    match fuel with
    | O => ([], Unexplored)
    | S fuel' =>
        let hsize := NamedStruct.size (BlendBlockHeader_struct header) in
        let buf := bytes_at contents position hsize in
        if Py.len buf =? hsize then
          let head := NamedStruct.names (BlendBlockHeader_struct header) buf in
          let offset := position + hsize in
          if size head <? -1 then ([], BadSize)
          else if bytes_eqb (code head) (b "ENDB")
               then ([(head, offset)], AtTerminator)
               else
                 let (w, ending) :=
                   blocks_on_disk header contents fuel'
                     (offset + Py.len (bytes_at contents offset (size head))) in
                 ((head, offset) :: w, ending)
        else ([], Truncated)
    end.

Definition tagged (tag : string) (blk : BlendBlockHeader * Z) : bool :=
  bytes_eqb (code (fst blk)) (b tag).

(** A block that is neither the index nor the terminator. *)
Definition data_block (blk : BlendBlockHeader * Z) : bool :=
  negb (tagged "DNA1" blk) && negb (tagged "ENDB" blk).

(** The payload of an index block is accepted by the schema decoder. *)
Definition decodable (header : BlendFileInfo) (contents : list byte)
  (blk : BlendBlockHeader * Z) : Prop :=
  tagged "DNA1" blk = true ->
  exists index o,
    parse_index_data header (bytes_at contents (snd blk) (size (fst blk)))
    = Return (index, o).

(** The index that the scanner holds after the blocks [w], from the index
    [current]: the one of the last ["DNA1"] block. *)
Fixpoint decode_schemas (header : BlendFileInfo) (contents : list byte)
  (w : list (BlendBlockHeader * Z)) (current : option BlendIndex)
  : result (option BlendIndex) :=
  match w with
  | [] => Return current
  | blk :: w' =>
      if tagged "DNA1" blk then
        '(index, _) <- parse_index_data header
                         (bytes_at contents (snd blk) (size (fst blk))) ;;
        decode_schemas header contents w' (Some index)
      else decode_schemas header contents w' current
  end.

(** The file of scenario 3: the header, a data block, the index block
    (with two bytes after the schema in its payload), the terminator. *)
Definition block (tag : string) (payload : list byte) : list byte :=
  Encode.block_header header_v280
    {| code := b tag; size := Py.len payload; addr := 77; sdna := 1;
       count := 1 |} ++ payload.

Definition scenario_file : list byte :=
  b "BLENDER-v280" ++ block "DATA" (b "hello")
  ++ block "DNA1" (scenario_payload ++ b "..") ++ block "ENDB" [].



Definition opened (file_contents : list byte) : Py.file :=
  {| Py.contents := file_contents; Py.pos := 0 |}.

(** What the loop of [_parse_blocks] returns from the state [s], when the
    blocks ahead are [w] and end in [ending]; [final] is the position it
    stops at. *)
Definition scanned (header : BlendFileInfo) (s : locals)
  (w : list (BlendBlockHeader * Z)) (ending : stream_end) (final : Z)
  : option (result locals) :=
  match decode_schemas header (Py.contents (handle s)) w (blend_index s) with
  | Raise e => Some (Raise e)
  | Return index =>
      let s' found :=
        {| handle := {| Py.contents := Py.contents (handle s);
                        Py.pos := final |};
           blend_index := index; end_found := found;
           file_block_heads := file_block_heads s ++ filter data_block w |} in
      match ending with
      | Unexplored => None
      | Truncated => Some (Raise struct_error)
      | BadSize => Some (Raise ValueError)
      | AtEnd => Some (Return (s' false))
      | AtTerminator => Some (Return (s' true))
      end
  end.

(** Blocks in the order of their payload offsets. *)
Definition by_offset (x y : BlendBlockHeader * Z) : Prop := snd x < snd y.

(** The header of block [blk] is what lies just before its payload
    offset. *)
Definition header_before (header : BlendFileInfo) (contents : list byte)
  (blk : BlendBlockHeader * Z) : Prop :=
  let hsize := NamedStruct.size (BlendBlockHeader_struct header) in
  NamedStruct.unpack (BlendBlockHeader_struct header)
    (bytes_at contents (snd blk - hsize) hsize) = Return (fst blk).

(** The blocks of [scenario_file], with the offsets of their payloads. *)
Definition scenario_block (tag : string) (n offset : Z)
  : BlendBlockHeader * Z :=
  ({| code := b tag; size := n; addr := 77; sdna := 1; count := 1 |}, offset).

Definition scenario_blocks : list (BlendBlockHeader * Z) :=
  [scenario_block "DATA" 5 36; scenario_block "DNA1" 54 65;
   scenario_block "ENDB" 0 143].

(** The state of the scan of [scenario_file] when it comes to the index
    block, at position 41. *)
Definition before_index : locals :=
  {| handle := {| Py.contents := scenario_file; Py.pos := 41 |};
     blend_index := None; end_found := false;
     file_block_heads := [scenario_block "DATA" 5 36] |}.

(** *** More files, for the properties of the whole loader *)

(** A file that ends three bytes into a block header. *)
Definition cut_file : list byte :=
  b "BLENDER-v280" ++ block "DATA" (b "hello") ++ b "END".

(** A file whose only block announces a payload of -2 bytes. *)
Definition negative_size_file : list byte :=
  b "BLENDER-v280"
  ++ Encode.block_header header_v280
       {| code := b "DATA"; size := -2; addr := 77; sdna := 1; count := 1 |}.

(** Scenario 4 as a file: the index block holds [garbage_payload]. *)
Definition garbage_file : list byte :=
  b "BLENDER-v280" ++ block "DNA1" garbage_payload ++ block "ENDB" [].

(** A second schema, and a file with two index blocks. *)
Definition other_index : BlendIndex :=
  {| names := [b "me"]; types := [(b "char", 1)]; structures := [] |}.

Definition other_payload : list byte :=
  Encode.schema Little x00 [b "me"] [(b "char", 1)] [].

Definition two_index_file : list byte :=
  b "BLENDER-v280" ++ block "DNA1" scenario_payload
  ++ block "DNA1" other_payload ++ block "ENDB" [].



(** *** The payload of the index block as section 4.3 lays it out

    The offsets at which section 4.3 expects the four tags, and the
    integers stored in the payload, read off the bytes alone: these
    definitions follow the words of the section and use none of the
    functions of the decoder; the decoder is compared with them. *)

Module Section43.

(** The number that [bs] holds, least significant byte first. *)
Fixpoint base256 (bs : list byte) : Z :=
  match bs with
  | [] => 0
  | c :: bs' => byte.unsigned c + 256 * base256 bs'
  end.

(** The signed integer of [width] bytes stored at offset [o] of the
    payload, in byte order [e] (two's complement); none when these bytes
    are not all inside the payload. *)
Definition integer_at (e : Endian) (width : Z) (data : list byte) (o : Z)
  : option Z :=
  if (0 <=? o) && (o + width <=? Py.len data) then
    let bs := firstn (Z.to_nat width) (skipn (Z.to_nat o) data) in
    let u := base256 (match e with Little => bs | Big => rev bs end) in
    Some (if 2 ^ (8 * width - 1) <=? u then u - 2 ^ (8 * width) else u)
  else None.

(** The number of bytes that [count] null-terminated strings take, with
    their terminators, at the start of [data]; none when [data] holds
    fewer than [count] terminated strings. *)
Fixpoint strings_length (count : nat) (data : list byte) {struct data}
  : option Z :=
  match count with
  | O => Some 0
  | S count' =>
      match data with
      | [] => None
      | c :: rest =>
          option_map Z.succ
            (strings_length (if Byte.eqb c x00 then count' else count) rest)
      end
  end.

(** "Align o up to the next multiple of 4." *)
Definition next_multiple_of_4 (o : Z) : Z := 4 * ((o + 3) / 4).

(** Steps 2 and 3: a 32-bit count at [o], that many null-terminated
    strings after it, and the offset past them, aligned.  The count and
    the offset reached; none when the count is not in the payload, is
    negative, or the strings are not all there. *)
Definition past_strings (e : Endian) (data : list byte) (o : Z)
  : option (Z * Z) :=
  match integer_at e 4 data o with
  | None => None
  | Some count =>
      if count <? 0 then None
      else
        match strings_length (Z.to_nat count)
                (skipn (Z.to_nat (o + 4)) data) with
        | None => None
        | Some n => Some (count, next_multiple_of_4 (o + 4 + n))
        end
  end.

(** Step 2: the names start at offset 8, and ["TYPE"] is expected after
    them. *)
Definition type_tag_offset (e : Endian) (data : list byte) : option Z :=
  option_map snd (past_strings e data 8).

(** Step 3: the type count follows the ["TYPE"] tag, and ["TLEN"] is
    expected after the type names.  The type count and the offset. *)
Definition tlen_tag_offset (e : Endian) (data : list byte)
  : option (Z * Z) :=
  match type_tag_offset e data with
  | None => None
  | Some o => past_strings e data (o + 4)
  end.

(** Step 4: one 16-bit size per type follows the ["TLEN"] tag, and
    ["STRC"] is expected after them; none when the sizes are not all in
    the payload. *)
Definition strc_tag_offset (e : Endian) (data : list byte) : option Z :=
  match tlen_tag_offset e data with
  | None => None
  | Some (type_count, o) =>
      if o + 4 + type_count * 2 <=? Py.len data
      then Some (next_multiple_of_4 (o + 4 + type_count * 2))
      else None
  end.



(** Step 5: the fields of a structure are stored from offset [o] on, a
    16-bit type index and a 16-bit name index each. *)
Fixpoint fields_stored (e : Endian) (data : list byte) (o : Z)
  (fs : list (Z * Z)) : Prop :=
  match fs with
  | [] => True
  | f :: fs' =>
      integer_at e 2 data o = Some (fst f)
      /\ integer_at e 2 data (o + 2) = Some (snd f)
      /\ fields_stored e data (o + 4) fs'
  end.

(** Step 5: the structures are stored from offset [o] on, one after the
    other: a 16-bit type index, a 16-bit field count, the fields. *)
Fixpoint structures_stored (e : Endian) (data : list byte) (o : Z)
  (ss : list BlendStructRef) : Prop :=
  match ss with
  | [] => True
  | s :: ss' =>
      integer_at e 2 data o = Some (name s)
      /\ (exists k, integer_at e 2 data (o + 2) = Some k
                    /\ Py.len (fields s) = Z.max 0 k)
      /\ fields_stored e data (o + 4) (fields s)
      /\ structures_stored e data (o + 4 + 4 * Py.len (fields s)) ss'
  end.

(** The bytes that the structures take. *)
Definition structures_size (ss : list BlendStructRef) : Z :=
  Py.sum (map (fun s => 4 + 4 * Py.len (fields s)) ss).

End Section43.


(** *** Block headers that the layout can hold *)

(** A four-byte tag, and integers that fit their fields. *)
Definition head_fits (header : BlendFileInfo) (h : BlendBlockHeader) : Prop :=
  Py.len (code h) = 4
  /\ fits Struct.i (size h)
  /\ fits (Arch_value (arch header)) (addr h)
  /\ fits Struct.i (sdna h)
  /\ fits Struct.i (count h).

(** *** Writing a whole file *)

Definition arch_byte (a : Arch) : byte :=
  match a with X64 => "-" | X32 => "_" end.

Definition endian_byte (e : Endian) : byte :=
  match e with Little => "v" | Big => "V" end.

(** The twelve bytes of the file header: the tag, the pointer width, the
    byte order, and each version component as the byte 48 above it. *)
Definition header_bytes (info : BlendFileInfo) : list byte :=
  b "BLENDER"
  ++ [arch_byte (arch info); endian_byte (endian info);
      byte.of_Z (VersionInfo.major (version info) + 48);
      byte.of_Z (VersionInfo.minor (version info) + 48);
      byte.of_Z (VersionInfo.rev (version info) + 48)].

(** The version components that one byte each can carry. *)
Definition version_fits (v : VersionInfo.t) : Prop :=
  -48 <= VersionInfo.major v <= 207
  /\ -48 <= VersionInfo.minor v <= 207
  /\ -48 <= VersionInfo.rev v <= 207.

(** A block: its header, then its payload. *)
Definition block_bytes (header : BlendFileInfo)
  (blk : BlendBlockHeader * list byte) : list byte :=
  Encode.block_header header (fst blk) ++ snd blk.

Definition stream_bytes (header : BlendFileInfo)
  (blocks : list (BlendBlockHeader * list byte)) : list byte :=
  concat (map (block_bytes header) blocks).

(** Where the payloads of [blocks] lie when the first block starts at
    position [p]. *)
Fixpoint layout (header : BlendFileInfo) (p : Z)
  (blocks : list (BlendBlockHeader * list byte))
  : list (BlendBlockHeader * Z) :=
  match blocks with
  | [] => []
  | blk :: rest =>
      let offset := p + NamedStruct.size (BlendBlockHeader_struct header) in
      (fst blk, offset) :: layout header (offset + Py.len (snd blk)) rest
  end.

(** A block whose header fits the layout and gives the size of its
    payload. *)
Definition block_fits (header : BlendFileInfo)
  (blk : BlendBlockHeader * list byte) : Prop :=
  head_fits header (fst blk) /\ size (fst blk) = Py.len (snd blk).

(** A block that is neither the index nor the terminator. *)
Definition plain_block (header : BlendFileInfo)
  (blk : BlendBlockHeader * list byte) : Prop :=
  block_fits header blk
  /\ code (fst blk) <> b "DNA1" /\ code (fst blk) <> b "ENDB".

(** A written file with one data block before the index block and one
    after it, and bytes after the terminator. *)
Definition data_head (tag : string) (n : Z) : BlendBlockHeader :=
  {| code := b tag; size := n; addr := 77; sdna := 1; count := 1 |}.

Definition written_file : list byte :=
  header_bytes header_v280
  ++ stream_bytes header_v280
       ([(data_head "DATA" 5, b "hello")]
          ++ (data_head "DNA1" 52, scenario_payload)
          :: [(data_head "REND" 3, b "abc")]
          ++ [(data_head "ENDB" 0, [])])
  ++ b "trailing bytes".

(** *** Format strings *)

(** [Endian.value] and [Arch.value], as the strings they are. *)
Definition Endian_string (e : Endian) : string :=
  match e with Little => "<" | Big => ">" end.

Definition Arch_string (a : Arch) : string :=
  match a with X32 => "I" | X64 => "Q" end.

(** [s.replace(old, new)] for an [old] of one character. *)
Fixpoint str_replace (old : Ascii.ascii) (new : string) (s : string) : string :=
  match s with
  | EmptyString => EmptyString
  | String c s' =>
      if Ascii.eqb c old then String.append new (str_replace old new s')
      else String c (str_replace old new s')
  end.

(** Lines 124-129: [BlenderFile._fmt_strct]. *)
Definition _fmt_strct (header : BlendFileInfo) (fmt : string) : string :=
  let head := header in
  String.append (Endian_string (endian head))
    (str_replace "P"%char (Arch_string (arch head)) fmt).

Fixpoint has_char (c : Ascii.ascii) (s : string) : bool :=
  match s with
  | EmptyString => false
  | String d s' => Ascii.eqb d c || has_char c s'
  end.

(** ** Properties of the Python primitives *)

Lemma Return_inj {A} (x y : A) : Return x = Return y -> x = y.
Proof. congruence. Qed.

Section BytesFacts.

Lemma bytes_eqb_spec (x y : list byte) :
  BoolSpec (x = y) (x <> y) (bytes_eqb x y).
Proof.
  revert y; induction x as [|c x IH]; intros [|d y]; simpl;
    try (constructor; congruence).
  destruct (Byte.eqb c d) eqn:E; simpl.
  - apply byte_dec_bl in E; subst d.
    destruct (IH y); constructor; congruence.
  - apply eqb_false in E. constructor; congruence.
Qed.

Lemma bytes_eqb_refl (x : list byte) : bytes_eqb x x = true.
Proof. destruct (bytes_eqb_spec x x); congruence. Qed.

Lemma bytes_eqb_neq (x y : list byte) : x <> y -> bytes_eqb x y = false.
Proof. destruct (bytes_eqb_spec x y); congruence. Qed.

Lemma byte_eqb_neq (c d : byte) : c <> d -> Byte.eqb c d = false.
Proof.
  intros H. destruct (Byte.eqb c d) eqn:E; [|reflexivity].
  apply byte_dec_bl in E. contradiction.
Qed.

End BytesFacts.

(** ** The header decoder *)

Lemma parse_header_length (header : list byte) :
  length header <> 12%nat -> parse_header header = Return None.
Proof.
  intros H. unfold parse_header, Py.len.
  destruct (Z.of_nat (length header) =? 12) eqn:E; [|reflexivity].
  apply Z.eqb_eq in E. lia.
Qed.

(** [parse_header] on any twelve bytes. *)
Lemma parse_header_12 (c0 c1 c2 c3 c4 c5 c6 a e x y z : byte) :
  parse_header [c0; c1; c2; c3; c4; c5; c6; a; e; x; y; z] =
  if bytes_eqb [c0; c1; c2; c3; c4; c5; c6] (b "BLENDER")
     && (Byte.eqb a "-" || Byte.eqb a "_")
     && (Byte.eqb e "v" || Byte.eqb e "V")
  then Return (Some {| version :=
                         {| VersionInfo.major := byte.unsigned x - 48;
                            VersionInfo.minor := byte.unsigned y - 48;
                            VersionInfo.rev := byte.unsigned z - 48 |};
                       arch := arch_of_byte a;
                       endian := endian_of_byte e |})
  else Return None.
Proof.
  unfold parse_header, arch_of_byte, endian_of_byte.
  change (Py.len [c0; c1; c2; c3; c4; c5; c6; a; e; x; y; z] =? 12) with true.
  change (Py.slice [c0; c1; c2; c3; c4; c5; c6; a; e; x; y; z] 0 7)
    with [c0; c1; c2; c3; c4; c5; c6].
  change (Py.slice [c0; c1; c2; c3; c4; c5; c6; a; e; x; y; z] 7 8) with [a].
  change (Py.slice [c0; c1; c2; c3; c4; c5; c6; a; e; x; y; z] 8 9) with [e].
  change (Py.slice_from [c0; c1; c2; c3; c4; c5; c6; a; e; x; y; z] 9)
    with [x; y; z].
  destruct (bytes_eqb [c0; c1; c2; c3; c4; c5; c6] (b "BLENDER")); simpl;
    [|reflexivity].
  destruct (Byte.eqb a "-"), (Byte.eqb a "_"), (Byte.eqb e "v"),
    (Byte.eqb e "V"); reflexivity.
Qed.

(** C7 (scenarios 1 and 2): [b"BLENDER-v280"] is version (2,8,0), 64-bit
    pointers, little-endian; [b"BLENDER_V279"] is version (2,7,9), 32-bit
    pointers, big-endian. *)
Theorem parse_header_scenarios :
  parse_header (b "BLENDER-v280") =
    Return (Some {| version := {| VersionInfo.major := 2;
                                  VersionInfo.minor := 8;
                                  VersionInfo.rev := 0 |};
                    arch := X64; endian := Little |})
  /\ parse_header (b "BLENDER_V279") =
    Return (Some {| version := {| VersionInfo.major := 2;
                                  VersionInfo.minor := 7;
                                  VersionInfo.rev := 9 |};
                    arch := X32; endian := Big |}).
Proof. split; reflexivity. Qed.

Lemma malformed_header_12 (c0 c1 c2 c3 c4 c5 c6 a e x y z : byte) :
  malformed_header [c0; c1; c2; c3; c4; c5; c6; a; e; x; y; z] <->
  bytes_eqb [c0; c1; c2; c3; c4; c5; c6] (b "BLENDER")
  && (Byte.eqb a "-" || Byte.eqb a "_")
  && (Byte.eqb e "v" || Byte.eqb e "V") = false.
Proof.
  unfold malformed_header; simpl firstn; simpl nth_error; simpl length.
  destruct (bytes_eqb_spec [c0; c1; c2; c3; c4; c5; c6] (b "BLENDER")) as [Ht|Ht];
    simpl; [|tauto].
  destruct (Decidable.Byte.eqb_spec a "-"), (Decidable.Byte.eqb_spec a "_"),
    (Decidable.Byte.eqb_spec e "v"), (Decidable.Byte.eqb_spec e "V");
    simpl; subst;
    (split; [intros [Hm|[Hm|[[Hm Hm']|[Hm Hm']]]]; congruence
            | intros Hm; try discriminate Hm;
              first [ right; right; left; split; congruence
                    | right; right; right; split; congruence ]]).
Qed.

Lemma read_at_start (file_contents : list byte) (n : Z) :
  0 <= n ->
  Py.read n {| Py.contents := file_contents; Py.pos := 0 |} =
  Return (firstn (Z.to_nat n) file_contents,
          {| Py.contents := file_contents;
             Py.pos := Py.len (firstn (Z.to_nat n) file_contents) |}).
Proof.
  intros Hn. unfold Py.read; simpl.
  destruct (n <? -1) eqn:E1; [apply Z.ltb_lt in E1; lia|].
  destruct (n =? -1) eqn:E2; [apply Z.eqb_eq in E2; lia|].
  reflexivity.
Qed.

Lemma read_at (before data after : list byte) (n : Z) :
  n = Py.len data ->
  Py.read n {| Py.contents := before ++ data ++ after;
               Py.pos := Py.len before |}
  = Return (data, {| Py.contents := before ++ data ++ after;
                     Py.pos := Py.len before + Py.len data |}).
Proof.
  intros ->. unfold Py.read. cbn [Py.contents Py.pos].
  assert (0 <= Py.len data) by (unfold Py.len; lia).
  destruct (Z.ltb_spec (Py.len data) (-1)); [lia|].
  destruct (Z.eqb_spec (Py.len data) (-1)); [lia|].
  assert (E : firstn (Z.to_nat (Py.len data))
                (skipn (Z.to_nat (Py.len before)) (before ++ data ++ after))
              = data).
  { unfold Py.len. rewrite !Nat2Z.id.
    now rewrite List.skipn_app_r, List.firstn_app_l. }
  rewrite E. reflexivity.
Qed.

Ltac twelve header :=
  let H := fresh "Hlen" in
  destruct (Nat.eq_dec (length header) 12) as [H|H];
  [ do 13 (destruct header as [|? header]; try discriminate H); clear H | ].

(** C8: an input of a length other than 12, or without the tag
    ["BLENDER"], or with an unknown pointer-width byte, or with an unknown
    byte-order byte, is rejected: [parse_header] returns [None], which
    [__init__] turns into [Bad file header]; every other input is decoded
    into a [BlendFileInfo]. *)
Theorem header_decoder_malformed :
  (forall header : list byte,
      (malformed_header header -> parse_header header = Return None)
      /\ (~ malformed_header header ->
          exists info, parse_header header = Return (Some info)))
  /\ (forall file_contents : list byte,
         let h := {| Py.contents := file_contents; Py.pos := 0 |} in
         (malformed_header (firstn 12 file_contents) ->
          read_header h = Raise MalformedHeader
          /\ __init__ file_contents = Some (Raise MalformedHeader))
         /\ (~ malformed_header (firstn 12 file_contents) ->
             exists info,
               read_header h =
               Return (info, {| Py.contents := file_contents; Py.pos := 12 |}))).
Proof.
  assert (P : forall header : list byte,
             (malformed_header header -> parse_header header = Return None)
             /\ (~ malformed_header header ->
                 exists info, parse_header header = Return (Some info))).
  { intros header. twelve header.
    - rewrite parse_header_12, malformed_header_12.
      split.
      + intros ->. reflexivity.
      + intros H. apply not_false_is_true in H. rewrite H. eauto.
    - split.
      + intros _. now apply parse_header_length.
      + intros H. exfalso. apply H. now left. }
  split; [exact P|].
  intros file_contents h.
  assert (R : Py.read 12 h =
              Return (firstn 12 file_contents,
                      {| Py.contents := file_contents;
                         Py.pos := Py.len (firstn 12 file_contents) |})).
  { unfold h. now rewrite read_at_start by lia. }
  destruct (P (firstn 12 file_contents)) as [Pbad Pgood].
  split.
  - intros Hbad. specialize (Pbad Hbad).
    assert (Hr : read_header h = Raise MalformedHeader).
    { unfold read_header. rewrite R. cbn [bind]. rewrite Pbad. reflexivity. }
    split; [exact Hr|].
    unfold __init__. fold h. rewrite Hr. reflexivity.
  - intros Hgood. destruct (Pgood Hgood) as [info Hinfo].
    exists info. unfold read_header. rewrite R. cbn [bind]. rewrite Hinfo.
    cbn [bind].
    assert (L : length (firstn 12 file_contents) = 12%nat).
    { destruct (Nat.eq_dec (length (firstn 12 file_contents)) 12) as [E|E];
        [exact E|].
      exfalso. apply Hgood. now left. }
    unfold Py.len. rewrite L. reflexivity.
Qed.

Lemma header_decoder_malformed_witness :
  parse_header (b "BLENDER-x280") = Return None
  /\ (exists info, parse_header (b "BLENDER_v281") = Return (Some info))
  /\ __init__ (b "BLENDER") = Some (Raise MalformedHeader).
Proof.
  split; [|split].
  - apply (proj1 header_decoder_malformed (b "BLENDER-x280")).
    right; right; right. split; discriminate.
  - apply (proj1 header_decoder_malformed (b "BLENDER_v281")).
    intros [H|[H|[[_ H]|[H _]]]]; apply H; reflexivity.
  - apply (proj2 header_decoder_malformed (b "BLENDER")).
    left. discriminate.
Defined.

(** C10: [parse_header] returns for every input, a [BlendFileInfo] or
    [None], and raises nothing.  The three version bytes are not checked to
    be digits: twelve bytes with the tag, a known pointer-width byte and a
    known byte-order byte are accepted whatever the last three are, and
    each version component is the byte's value minus 48 ([b"/:A"] gives
    -1, 10 and 17). *)
Theorem parse_header_total :
  (forall header : list byte, exists r, parse_header header = Return r)
  /\ (forall a e x y z : byte,
         (a = "-"%byte \/ a = "_"%byte) ->
         (e = "v"%byte \/ e = "V"%byte) ->
         parse_header (b "BLENDER" ++ [a; e; x; y; z]) =
         Return (Some {| version :=
                           {| VersionInfo.major := byte.unsigned x - 48;
                              VersionInfo.minor := byte.unsigned y - 48;
                              VersionInfo.rev := byte.unsigned z - 48 |};
                         arch := arch_of_byte a;
                         endian := endian_of_byte e |}))
  /\ parse_header (b "BLENDER-v/:A") =
     Return (Some {| version := {| VersionInfo.major := -1;
                                   VersionInfo.minor := 10;
                                   VersionInfo.rev := 17 |};
                     arch := X64; endian := Little |}).
Proof.
  split; [|split].
  - intros header. twelve header.
    + rewrite parse_header_12.
      match goal with |- context [if ?c then _ else _] => destruct c end; eauto.
    + rewrite parse_header_length by assumption. eauto.
  - intros a e x y z Ha He.
    change (b "BLENDER" ++ [a; e; x; y; z])
      with ["B"; "L"; "E"; "N"; "D"; "E"; "R"; a; e; x; y; z]%byte.
    rewrite parse_header_12.
    destruct Ha as [-> | ->], He as [-> | ->]; reflexivity.
  - reflexivity.
Qed.

Lemma parse_header_total_witness :
  parse_header (b "BLENDER" ++ ["_"; "V"; "x"; "9"; " "]%byte) =
  Return (Some {| version := {| VersionInfo.major := 72;
                                VersionInfo.minor := 9;
                                VersionInfo.rev := -16 |};
                  arch := X32; endian := Big |}).
Proof.
  apply (proj1 (proj2 parse_header_total) "_" "V" "x" "9" " ")%byte.
  - right; reflexivity.
  - right; reflexivity.
Defined.

(** ** Slices, splits and structs over concatenations *)

Section PyFacts.

Context {A : Type}.
Implicit Types l pre mid post : list A.

Lemma len_app l1 l2 : Py.len (l1 ++ l2) = Py.len l1 + Py.len l2.
Proof. unfold Py.len. rewrite length_app. lia. Qed.

Lemma len_nonneg l : 0 <= Py.len l.
Proof. unfold Py.len. lia. Qed.

Lemma adjust_nonneg n i : 0 <= i -> Py.adjust n i = Z.min i n.
Proof.
  intros H. unfold Py.adjust.
  destruct (i <? 0) eqn:E; [apply Z.ltb_lt in E; lia | reflexivity].
Qed.

Lemma slice_app_mid pre mid post :
  Py.slice (pre ++ mid ++ post) (Py.len pre) (Py.len pre + Py.len mid) = mid.
Proof.
  unfold Py.slice.
  rewrite !adjust_nonneg by (pose proof (len_nonneg pre);
                             pose proof (len_nonneg mid); lia).
  rewrite !len_app.
  pose proof (len_nonneg pre); pose proof (len_nonneg mid);
    pose proof (len_nonneg post).
  rewrite !Z.min_l by lia.
  replace (Py.len pre + Py.len mid - Py.len pre) with (Py.len mid) by lia.
  unfold Py.len. rewrite !Nat2Z.id.
  rewrite List.skipn_app_r by reflexivity.
  now rewrite List.firstn_app_l by reflexivity.
Qed.

Lemma slice_at pre mid post (data : list A) (start stop : Z) :
  data = pre ++ mid ++ post ->
  start = Py.len pre -> stop = start + Py.len mid ->
  Py.slice data start stop = mid.
Proof. intros -> -> ->. apply slice_app_mid. Qed.

Lemma slice_whole l : Py.slice l 0 (Py.len l) = l.
Proof.
  pose proof (slice_app_mid [] l []) as H.
  rewrite app_nil_r in H. exact H.
Qed.

Lemma slice_from_app pre post :
  Py.slice_from (pre ++ post) (Py.len pre) = post.
Proof.
  unfold Py.slice_from.
  rewrite adjust_nonneg by apply len_nonneg.
  rewrite len_app. pose proof (len_nonneg post).
  rewrite Z.min_l by lia.
  unfold Py.len. rewrite Nat2Z.id.
  now rewrite List.skipn_app_r.
Qed.

Lemma slice_from_at pre post (data : list A) (start : Z) :
  data = pre ++ post -> start = Py.len pre ->
  Py.slice_from data start = post.
Proof. intros -> ->. apply slice_from_app. Qed.

Lemma range_len l : Py.range (Py.len l) = length l.
Proof. unfold Py.range, Py.len. apply Nat2Z.id. Qed.

Lemma drop_last_snoc l (x : A) : Py.drop_last (l ++ [x]) = l.
Proof. apply removelast_last. Qed.

End PyFacts.

Section StructFacts.

Lemma unpack_from_at {A} (s : NamedStruct.t A) (pre mid post data : list byte)
  (offset : Z) :
  data = pre ++ mid ++ post -> offset = Py.len pre ->
  Py.len mid = NamedStruct.size s ->
  NamedStruct.unpack_from s data offset = Return (NamedStruct.names s mid).
Proof.
  intros -> -> Hsize. unfold NamedStruct.unpack_from.
  pose proof (len_nonneg pre) as Hpre.
  pose proof (len_nonneg post) as Hpost.
  destruct (Py.len pre <? 0) eqn:E; [apply Z.ltb_lt in E; lia|].
  cbn [andb]. cbv beta iota zeta.
  rewrite <- Hsize, slice_app_mid.
  destruct (Z.ltb_spec (Py.len (pre ++ mid ++ post) - Py.len pre) (Py.len mid))
    as [L|L]; [|reflexivity].
  rewrite !len_app in L. lia.
Qed.

Lemma int_length e c z : Py.len (Encode.int e c z) = Struct.calcsize c.
Proof.
  unfold Encode.int, Py.len.
  destruct e; rewrite ?length_rev, length_le_split; destruct c; reflexivity.
Qed.

Lemma to_int_int e c z :
  fits c z -> Struct.to_int e c (Encode.int e c z) = z.
Proof.
  intros Hz. unfold Struct.to_int, Encode.int.
  assert (E : le_combine
                match e with
                | Little =>
                    match e with
                    | Little => le_split (Z.to_nat (Struct.calcsize c)) z
                    | Big => rev (le_split (Z.to_nat (Struct.calcsize c)) z)
                    end
                | Big =>
                    rev match e with
                      | Little => le_split (Z.to_nat (Struct.calcsize c)) z
                      | Big => rev (le_split (Z.to_nat (Struct.calcsize c)) z)
                      end
                end = z mod 2 ^ (8 * Struct.calcsize c)).
  { destruct e; rewrite ?rev_involutive, le_combine_split; f_equal; f_equal;
      destruct c; reflexivity. }
  rewrite E. clear E. unfold fits in Hz.
  destruct c; cbn in Hz |- *;
    try (rewrite Z.mod_small by lia; reflexivity);
    match goal with
    | |- context [?m <=? ?x mod ?n] =>
        destruct (Z.leb_spec m (x mod n)) as [L|L]
    end;
    Z.div_mod_to_equations; lia.
Qed.

End StructFacts.

(** ** Null-terminated strings *)

Section Strings.

Lemma split_piece (n tail : list byte) (m : Z) :
  no_null n -> 0 < m ->
  Py.split x00 m (n ++ x00 :: tail) = n :: Py.split x00 (m - 1) tail.
Proof.
  intros Hn Hm. induction n as [|c n IH]; cbn [app Py.split].
  - destruct (Z.eqb_spec m 0); [lia|]. cbn.
    destruct (Z.ltb_spec m 0); [lia|]. reflexivity.
  - destruct (Z.eqb_spec m 0); [lia|].
    rewrite byte_eqb_neq by (intros ->; apply Hn; now left).
    rewrite IH by (intros H; apply Hn; now right). reflexivity.
Qed.

Lemma split_0 (data : list byte) : Py.split x00 0 data = [data].
Proof. destruct data; reflexivity. Qed.

Lemma split_cstrings (names : list (list byte)) (rest : list byte) :
  Forall no_null names ->
  Py.split x00 (Py.len names) (concat (map Encode.cstring names) ++ rest)
  = names ++ [rest].
Proof.
  induction 1 as [|n names Hn Hnames IH]; cbn [map concat app].
  - apply split_0.
  - unfold Encode.cstring at 1. rewrite <- !app_assoc. cbn [app].
    rewrite split_piece; [|assumption|unfold Py.len; cbn [length]; lia].
    replace (Py.len (n :: names) - 1) with (Py.len names)
      by (unfold Py.len; cbn [length]; lia).
    now rewrite IH.
Qed.

Lemma cstrings_length (names : list (list byte)) :
  Py.len (concat (map Encode.cstring names))
  = Py.sum (map Py.len names) + Py.len names.
Proof.
  induction names as [|n names IH]; [reflexivity|].
  cbn [map concat Py.sum fold_right]. fold (Py.sum (map Py.len names)).
  unfold Encode.cstring at 1. rewrite !len_app, IH.
  unfold Py.len; cbn [length]; lia.
Qed.

Lemma names_decoded (names : list (list byte)) (pre rest data : list byte)
  (start : Z) :
  Forall no_null names ->
  data = pre ++ concat (map Encode.cstring names) ++ rest ->
  start = Py.len pre ->
  Py.drop_last (Py.split x00 (Py.len names) (Py.slice_from data start))
  = names.
Proof.
  intros Hn -> ->.
  now rewrite slice_from_app, split_cstrings, drop_last_snoc.
Qed.

End Strings.

(** ** Alignment *)

Section Alignment.

Lemma align_multiple (o : Z) : align o mod 4 = 0.
Proof.
  unfold align. destruct (Z.eqb_spec (o mod 4) 0) as [E|E].
  - now rewrite Z.add_0_r.
  - pose proof (Z.mod_pos_bound o 4 ltac:(lia)).
    Z.div_mod_to_equations. lia.
Qed.

Lemma align_steps (o : Z) :
  (o mod 4 <> 0 -> align o = o + (4 - o mod 4))
  /\ (o mod 4 = 0 -> align o = o).
Proof.
  unfold align. destruct (Z.eqb_spec (o mod 4) 0); split; intros; lia.
Qed.

Lemma pad_length (fill : byte) (data : list byte) :
  Py.len (Encode.pad fill data) = align (Py.len data).
Proof.
  unfold Encode.pad, Encode.padding, align. rewrite len_app.
  destruct (Z.eqb_spec (Py.len data mod 4) 0); [reflexivity|].
  unfold Py.len at 2. rewrite repeat_length.
  pose proof (Z.mod_pos_bound (Py.len data) 4 ltac:(lia)). lia.
Qed.

End Alignment.

(** ** Decoding what was encoded *)

Section Decode.

Variable header : BlendFileInfo.
Let e := endian header.

Lemma Int_at (z : Z) (pre post data : list byte) (offset : Z) :
  fits Struct.i z ->
  data = pre ++ Encode.int e Struct.i z ++ post -> offset = Py.len pre ->
  NamedStruct.unpack_from (Int header) data offset = Return z.
Proof.
  intros Hz Hd Ho.
  rewrite (unpack_from_at _ pre (Encode.int e Struct.i z) post) by
    (try assumption; apply int_length).
  cbn [NamedStruct.names Int]. unfold to_int.
  rewrite <- (int_length e Struct.i z) at 1. cbn [Z.add].
  rewrite slice_whole. f_equal. now apply to_int_int.
Qed.

Lemma Short_at (z : Z) (pre post data : list byte) (offset : Z) :
  fits Struct.h z ->
  data = pre ++ Encode.int e Struct.h z ++ post -> offset = Py.len pre ->
  NamedStruct.unpack_from (Short header) data offset = Return z.
Proof.
  intros Hz Hd Ho.
  rewrite (unpack_from_at _ pre (Encode.int e Struct.h z) post) by
    (try assumption; apply int_length).
  cbn [NamedStruct.names Short]. unfold to_int.
  rewrite <- (int_length e Struct.h z) at 1. cbn [Z.add].
  rewrite slice_whole. f_equal. now apply to_int_int.
Qed.

Lemma StructField_names (f : Z * Z) :
  field_fits f ->
  NamedStruct.names (StructField header) (Encode.field e f) = f.
Proof.
  intros [H1 H2]. destruct f as [t n]. cbn [fst snd] in *.
  cbn [NamedStruct.names StructField]. unfold to_int, Encode.field.
  cbn [fst snd]. f_equal.
  - rewrite (slice_at [] (Encode.int e Struct.h t) (Encode.int e Struct.h n));
      [now apply to_int_int|reflexivity|reflexivity|].
    now rewrite int_length.
  - rewrite (slice_at (Encode.int e Struct.h t) (Encode.int e Struct.h n) []);
      [now apply to_int_int|now rewrite app_nil_r| |].
    + now rewrite int_length.
    + now rewrite int_length.
Qed.

Lemma field_length (f : Z * Z) : Py.len (Encode.field e f) = 4.
Proof. unfold Encode.field. now rewrite len_app, !int_length. Qed.

Lemma fields_length (fs : list (Z * Z)) :
  Py.len (concat (map (Encode.field e) fs)) = 4 * Py.len fs.
Proof.
  induction fs as [|f fs IH]; [reflexivity|].
  cbn [map concat]. rewrite len_app, field_length, IH.
  unfold Py.len; cbn [length]; lia.
Qed.

Lemma read_fields_encoded (fs : list (Z * Z)) :
  Forall field_fits fs ->
  forall (pre post data : list byte) (offset : Z),
    data = pre ++ concat (map (Encode.field e) fs) ++ post ->
    offset = Py.len pre ->
    read_fields header (length fs) data offset
    = Return (fs, offset + 4 * Py.len fs).
Proof.
  induction 1 as [|f fs Hf Hfs IH]; intros pre post data offset Hd Ho.
  - cbn. now rewrite Z.add_0_r.
  - cbn [length read_fields map concat] in *.
    rewrite <- app_assoc in Hd.
    rewrite (unpack_from_at _ pre (Encode.field e f)
               (concat (map (Encode.field e) fs) ++ post))
      by (try assumption; apply field_length).
    cbn [bind]. rewrite StructField_names by assumption.
    rewrite (IH (pre ++ Encode.field e f) post data (offset + 4)).
    + cbn [bind]. f_equal. f_equal. unfold Py.len; cbn [length]; lia.
    + now rewrite <- app_assoc.
    + rewrite len_app, field_length. lia.
Qed.

Lemma structure_length (s : BlendStructRef) :
  Py.len (Encode.structure e s) = 4 + 4 * Py.len (fields s).
Proof.
  unfold Encode.structure. rewrite !len_app, !int_length, fields_length.
  cbn [Struct.calcsize]. lia.
Qed.

Lemma read_structures_encoded (ss : list BlendStructRef) :
  Forall structure_fits ss ->
  forall (pre post data : list byte) (offset : Z),
    data = pre ++ concat (map (Encode.structure e) ss) ++ post ->
    offset = Py.len pre ->
    read_structures header (length ss) data offset
    = Return (ss, offset + Py.len (concat (map (Encode.structure e) ss))).
Proof.
  induction 1 as [|s ss Hs Hss IH]; intros pre post data offset Hd Ho.
  - cbn. now rewrite Z.add_0_r.
  - cbn [length read_structures map concat] in *.
    destruct Hs as (Hname & Hcount & Hfields).
    unfold Encode.structure at 1 in Hd. rewrite <- !app_assoc in Hd.
    rewrite (Short_at (name s) pre
               (Encode.int e Struct.h (Py.len (fields s))
                ++ concat (map (Encode.field e) (fields s))
                ++ concat (map (Encode.structure e) ss) ++ post))
      by assumption.
    cbn [bind].
    rewrite (Short_at (Py.len (fields s))
               (pre ++ Encode.int e Struct.h (name s))
               (concat (map (Encode.field e) (fields s))
                ++ concat (map (Encode.structure e) ss) ++ post));
      [|assumption|now rewrite <- app_assoc
       |rewrite len_app, int_length; cbn; lia].
    cbn [bind]. rewrite range_len.
    rewrite (read_fields_encoded (fields s) Hfields
               (pre ++ Encode.int e Struct.h (name s)
                ++ Encode.int e Struct.h (Py.len (fields s)))
               (concat (map (Encode.structure e) ss) ++ post) data);
      [|now rewrite <- !app_assoc
       |rewrite !len_app, !int_length; cbn; lia].
    cbn [bind].
    rewrite (IH (pre ++ Encode.structure e s) post data).
    + cbn [bind]. destruct s as [nm fs]; cbn [name fields].
      f_equal. f_equal.
      rewrite len_app, structure_length; cbn [fields]. lia.
    + unfold Encode.structure. now rewrite <- !app_assoc.
    + rewrite len_app, structure_length. lia.
Qed.

Lemma chunks_encoded (zs : list Z) :
  NamedStruct.chunks 2 (length zs) (concat (map (Encode.int e Struct.h) zs))
  = map (Encode.int e Struct.h) zs.
Proof.
  induction zs as [|z zs IH]; [reflexivity|].
  cbn [length NamedStruct.chunks map concat].
  assert (L : length (Encode.int e Struct.h z) = 2%nat).
  { pose proof (int_length e Struct.h z) as H. unfold Py.len in H.
    cbn in H. lia. }
  rewrite List.firstn_app_l, List.skipn_app_r by (symmetry; exact L).
  now rewrite IH.
Qed.

Lemma shorts_length (zs : list Z) :
  Py.len (concat (map (Encode.int e Struct.h) zs)) = 2 * Py.len zs.
Proof.
  induction zs as [|z zs IH]; [reflexivity|].
  cbn [map concat]. rewrite len_app, int_length, IH.
  unfold Py.len; cbn [length Struct.calcsize]; lia.
Qed.

Lemma iter_unpack_encoded (zs : list Z) :
  Forall (fits Struct.h) zs ->
  NamedStruct.iter_unpack (Short header)
    (concat (map (Encode.int e Struct.h) zs)) = Return zs.
Proof.
  intros Hz. unfold NamedStruct.iter_unpack.
  cbn [NamedStruct.size Short Struct.calcsize].
  rewrite shorts_length.
  change (2 =? 0) with false. cbn [orb].
  replace (2 * Py.len zs mod 2) with 0
    by (rewrite Z.mul_comm, Z.mod_mul; lia).
  cbn [Z.eqb negb].
  replace (Z.to_nat (2 * Py.len zs / 2)) with (length zs)
    by (rewrite Z.mul_comm, Z.div_mul by lia; unfold Py.len; lia).
  change (Z.to_nat 2) with 2%nat.
  rewrite chunks_encoded, map_map. f_equal.
  induction Hz as [|z zs Hz Hzs IH]; [reflexivity|].
  cbn [map]. rewrite IH. f_equal.
  cbn [NamedStruct.names Short]. unfold to_int.
  rewrite <- (int_length e Struct.h z) at 1. cbn [Z.add].
  rewrite slice_whole. now apply to_int_int.
Qed.

End Decode.

(** ** The schema decoder on an encoded schema *)

Ltac lens :=
  rewrite ?len_app, ?int_length, ?cstrings_length, ?shorts_length;
  change (Py.len (b "TYPE")) with 4;
  change (Py.len (b "STRC")) with 4;
  change (Py.len (b "SDNANAME")) with 8;
  cbn [Struct.calcsize]; try lia.

Section RoundTrip.

Variable header : BlendFileInfo.
Local Abbreviation e := (endian header).

Lemma read_names_at (names : list (list byte)) (pre rest data : list byte)
  (offset : Z) :
  Forall no_null names -> fits Struct.i (Py.len names) ->
  data = pre ++ Encode.int e Struct.i (Py.len names)
             ++ concat (map Encode.cstring names) ++ rest ->
  offset = Py.len pre ->
  read_names header data offset =
  Return (names,
          align (Py.len (pre ++ Encode.int e Struct.i (Py.len names)
                             ++ concat (map Encode.cstring names)))).
Proof.
  intros Hn Hc Hd Ho. unfold read_names.
  rewrite (Int_at header (Py.len names) pre
             (concat (map Encode.cstring names) ++ rest)) by assumption.
  cbn [bind].
  rewrite (names_decoded names
             (pre ++ Encode.int e Struct.i (Py.len names)) rest);
    [|assumption|now rewrite <- app_assoc
     |lens].
  f_equal. f_equal. f_equal.
  lens.
Qed.

Lemma read_type_names_at (names : list (list byte))
  (pre rest data : list byte) (offset : Z) :
  Forall no_null names -> fits Struct.i (Py.len names) ->
  data = pre ++ b "TYPE" ++ Encode.int e Struct.i (Py.len names)
             ++ concat (map Encode.cstring names) ++ rest ->
  offset = Py.len pre ->
  read_type_names header data offset =
  Return (names, Py.len names,
          align (Py.len (pre ++ b "TYPE"
                             ++ Encode.int e Struct.i (Py.len names)
                             ++ concat (map Encode.cstring names)))).
Proof.
  intros Hn Hc Hd Ho. unfold read_type_names.
  rewrite (Int_at header (Py.len names) (pre ++ b "TYPE")
             (concat (map Encode.cstring names) ++ rest));
    [|assumption|now rewrite <- app_assoc|lens].
  cbn [bind].
  rewrite (names_decoded names
             (pre ++ b "TYPE" ++ Encode.int e Struct.i (Py.len names)) rest);
    [|assumption|now rewrite <- !app_assoc
     |lens].
  f_equal. f_equal. f_equal.
  lens.
Qed.

Lemma read_types_at (type_names : list (list byte)) (sizes : list Z)
  (tag pre rest data : list byte) (offset : Z) :
  Forall (fits Struct.h) sizes -> Py.len tag = 4 ->
  data = pre ++ tag ++ concat (map (Encode.int e Struct.h) sizes) ++ rest ->
  offset = Py.len pre ->
  read_types header data type_names (Py.len sizes) offset =
  Return (combine type_names sizes,
          align (Py.len (pre ++ tag
                             ++ concat (map (Encode.int e Struct.h) sizes)))).
Proof.
  intros Hz Ht Hd Ho. unfold read_types.
  cbn [NamedStruct.size Short Struct.calcsize].
  rewrite (slice_at (pre ++ tag)
             (concat (map (Encode.int e Struct.h) sizes)) rest);
    [|now rewrite <- app_assoc|lens
     |lens].
  rewrite iter_unpack_encoded by assumption. cbn [bind].
  f_equal. f_equal. f_equal.
  lens.
Qed.

Lemma combine_fst_snd {A B} (l : list (A * B)) :
  combine (map fst l) (map snd l) = l.
Proof.
  induction l as [|[x y] l IH]; [reflexivity|]. cbn. now rewrite IH.
Qed.

Lemma len_map {A B} (f : A -> B) (l : list A) : Py.len (map f l) = Py.len l.
Proof. unfold Py.len. now rewrite length_map. Qed.

(** The decoder on an encoded schema, whatever stands where the
    ["TLEN"] tag goes and whatever follows the payload. *)
Lemma parse_index_encoded (tlen : list byte) (fill : byte)
  (names : list (list byte)) (types : list (list byte * Z))
  (structures : list BlendStructRef) (extra : list byte) :
  encodable names types structures -> Py.len tlen = 4 ->
  parse_index_data header
    (Encode.schema_with tlen e fill names types structures ++ extra)
  = if bytes_eqb tlen (b "TLEN")
    then Return ({| names := names; types := types;
                    structures := structures |},
                 Py.len (Encode.schema_with tlen e fill names types
                           structures))
    else Raise MalformedIndex.
Proof.
  intros (Hn & Hnc & Ht & Htc & Hs & Hsc) Htl.
  assert (Htn : Forall no_null (map fst types)).
  { apply Forall_map. eapply Forall_impl; [|exact Ht]. now intros t [H _]. }
  assert (Hts : Forall (fits Struct.h) (map snd types)).
  { apply Forall_map. eapply Forall_impl; [|exact Ht]. now intros t [_ H]. }
  unfold Encode.schema_with.
  set (s1 := b "SDNANAME" ++ Encode.int e Struct.i (Py.len names)
             ++ concat (map Encode.cstring names)).
  set (s2 := Encode.pad fill s1).
  set (t1 := s2 ++ b "TYPE" ++ Encode.int e Struct.i (Py.len types)
             ++ concat (map Encode.cstring (map fst types))).
  set (s3 := Encode.pad fill t1).
  set (l1 := s3 ++ tlen ++ concat (map (Encode.int e Struct.h) (map snd types))).
  set (s4 := Encode.pad fill l1).
  set (ss := concat (map (Encode.structure e) structures)).
  set (data := (s4 ++ b "STRC" ++ Encode.int e Struct.i (Py.len structures)
                ++ ss) ++ extra).
  unfold parse_index_data.
  (* SDNANAME *)
  rewrite (slice_at [] (b "SDNANAME")
             (Encode.int e Struct.i (Py.len names)
              ++ concat (map Encode.cstring names)
              ++ Encode.padding fill (Py.len s1)
              ++ b "TYPE" ++ Encode.int e Struct.i (Py.len types)
              ++ concat (map Encode.cstring (map fst types))
              ++ Encode.padding fill (Py.len t1)
              ++ tlen ++ concat (map (Encode.int e Struct.h) (map snd types))
              ++ Encode.padding fill (Py.len l1)
              ++ b "STRC" ++ Encode.int e Struct.i (Py.len structures)
              ++ ss ++ extra));
    [|subst data s4 l1 s3 t1 s2 s1; unfold Encode.pad;
      rewrite <- ?app_assoc; reflexivity|reflexivity|reflexivity].
  rewrite bytes_eqb_refl. cbn [negb].
  (* names *)
  rewrite (read_names_at names (b "SDNANAME")
             (Encode.padding fill (Py.len s1)
              ++ b "TYPE" ++ Encode.int e Struct.i (Py.len types)
              ++ concat (map Encode.cstring (map fst types))
              ++ Encode.padding fill (Py.len t1)
              ++ tlen ++ concat (map (Encode.int e Struct.h) (map snd types))
              ++ Encode.padding fill (Py.len l1)
              ++ b "STRC" ++ Encode.int e Struct.i (Py.len structures)
              ++ ss ++ extra));
    [|assumption|assumption
     |subst data s4 l1 s3 t1 s2 s1; unfold Encode.pad;
      rewrite <- ?app_assoc; reflexivity|reflexivity].
  cbn [bind]. fold s1. rewrite <- (pad_length fill s1). fold s2.
  (* TYPE *)
  rewrite (slice_at s2 (b "TYPE")
             (Encode.int e Struct.i (Py.len types)
              ++ concat (map Encode.cstring (map fst types))
              ++ Encode.padding fill (Py.len t1)
              ++ tlen ++ concat (map (Encode.int e Struct.h) (map snd types))
              ++ Encode.padding fill (Py.len l1)
              ++ b "STRC" ++ Encode.int e Struct.i (Py.len structures)
              ++ ss ++ extra));
    [|subst data s4 l1 s3 t1; unfold Encode.pad;
      rewrite <- ?app_assoc; reflexivity|reflexivity|reflexivity].
  rewrite bytes_eqb_refl. cbn [negb].
  rewrite (read_type_names_at (map fst types) s2
             (Encode.padding fill (Py.len t1)
              ++ tlen ++ concat (map (Encode.int e Struct.h) (map snd types))
              ++ Encode.padding fill (Py.len l1)
              ++ b "STRC" ++ Encode.int e Struct.i (Py.len structures)
              ++ ss ++ extra));
    [|assumption|now rewrite len_map
     |rewrite len_map; subst data s4 l1 s3 t1; unfold Encode.pad;
      rewrite <- ?app_assoc; reflexivity|reflexivity].
  cbn [bind]. rewrite !len_map. fold t1.
  rewrite <- (pad_length fill t1). fold s3.
  (* TLEN *)
  rewrite (slice_at s3 tlen
             (concat (map (Encode.int e Struct.h) (map snd types))
              ++ Encode.padding fill (Py.len l1)
              ++ b "STRC" ++ Encode.int e Struct.i (Py.len structures)
              ++ ss ++ extra));
    [|subst data s4 l1; unfold Encode.pad;
      rewrite <- ?app_assoc; reflexivity|reflexivity|lia].
  destruct (bytes_eqb tlen (b "TLEN")); cbn [negb]; [|reflexivity].
  replace (read_types header data (map fst types) (Py.len types) (Py.len s3))
    with (read_types header data (map fst types) (Py.len (map snd types))
            (Py.len s3)) by now rewrite len_map.
  rewrite (read_types_at (map fst types) (map snd types) tlen s3
             (Encode.padding fill (Py.len l1)
              ++ b "STRC" ++ Encode.int e Struct.i (Py.len structures)
              ++ ss ++ extra));
    [|assumption|assumption
     |subst data s4 l1; unfold Encode.pad;
      rewrite <- ?app_assoc; reflexivity|reflexivity].
  cbn [bind]. rewrite combine_fst_snd. fold l1.
  rewrite <- (pad_length fill l1). fold s4.
  (* STRC *)
  rewrite (slice_at s4 (b "STRC")
             (Encode.int e Struct.i (Py.len structures) ++ ss ++ extra));
    [|subst data; rewrite <- ?app_assoc; reflexivity|reflexivity|reflexivity].
  rewrite bytes_eqb_refl. cbn [negb].
  rewrite (Int_at header (Py.len structures) (s4 ++ b "STRC") (ss ++ extra));
    [|assumption|subst data; rewrite <- ?app_assoc; reflexivity
     |lens].
  cbn [bind]. rewrite range_len.
  rewrite (read_structures_encoded header structures Hs
             (s4 ++ b "STRC" ++ Encode.int e Struct.i (Py.len structures))
             extra data);
    [|subst data ss; rewrite <- ?app_assoc; reflexivity
     |lens].
  cbn [bind]. f_equal. f_equal.
  fold ss. lens.
Qed.

End RoundTrip.

(** ** The schema decoder *)

(** C1: a schema that the format can hold, written as section 4.3
    describes and decoded by [_parse_index], comes back as it was: the same
    names, the same (type name, size) pairs and the same structures, in
    the same order.  This holds for the bytes alone and for the block read
    from a file, whatever surrounds the payload there. *)
Theorem schema_round_trip (header : BlendFileInfo) (fill : byte)
  (names : list (list byte)) (types : list (list byte * Z))
  (structures : list BlendStructRef) :
  encodable names types structures ->
  let payload := Encode.schema (endian header) fill names types structures in
  let index := {| names := names; types := types; structures := structures |} in
  parse_index_data header payload = Return (index, Py.len payload)
  /\ forall (before after : list byte) (head : BlendBlockHeader),
      size head = Py.len payload ->
      _parse_index header head (Py.len before)
        {| Py.contents := before ++ payload ++ after;
           Py.pos := Py.len before |}
      = Return (index, {| Py.contents := before ++ payload ++ after;
                          Py.pos := Py.len before |}).
Proof.
  intros Henc payload index.
  assert (P : parse_index_data header payload = Return (index, Py.len payload)).
  { pose proof (parse_index_encoded header (b "TLEN") fill names types
                  structures [] Henc eq_refl) as H.
    rewrite app_nil_r in H. exact H. }
  split; [exact P|].
  intros before after head Hsize.
  unfold _parse_index.
  rewrite (read_at before payload after) by (rewrite Hsize; reflexivity).
  cbn [bind]. rewrite P. cbn [bind].
  unfold Py.seek. cbn.
  pose proof (len_nonneg before).
  destruct (Z.ltb_spec (Py.len before) 0); [lia|]. reflexivity.
Qed.

Ltac encodable_by_computation :=
  unfold encodable, structure_fits, field_fits, fits, no_null; cbn;
  repeat match goal with
         | |- _ /\ _ => split
         | |- Forall _ _ => constructor
         | |- ~ _ => intros H; repeat destruct H as [H|H]; try discriminate H;
                     try contradiction
         end; cbn; lia.

Lemma scenario_encodable :
  encodable [b "ob"] [(b "int", 4)] scenario_structures.
Proof. unfold scenario_structures. encodable_by_computation. Qed.

Lemma schema_round_trip_witness :
  parse_index_data header_v280 scenario_payload = Return (scenario_index, 52).
Proof.
  exact (proj1 (schema_round_trip header_v280 x00 [b "ob"] [(b "int", 4)]
                  scenario_structures scenario_encodable)).
Defined.

(** *** What the stages can raise, and where they leave the offset *)

Section Stages.

Variable header : BlendFileInfo.








Lemma read_names_aligned data offset names o :
  read_names header data offset = Return (names, o) -> o mod 4 = 0.
Proof.
  unfold read_names.
  destruct (NamedStruct.unpack_from _ _ _); cbn [bind]; [|discriminate].
  intros [= _ <-]. apply align_multiple.
Qed.

Lemma read_type_names_aligned data offset names count o :
  read_type_names header data offset = Return (names, count, o) ->
  o mod 4 = 0.
Proof.
  unfold read_type_names.
  destruct (NamedStruct.unpack_from _ _ _); cbn [bind]; [|discriminate].
  intros [= _ _ <-]. apply align_multiple.
Qed.

Lemma read_types_aligned data type_names type_count offset types o :
  read_types header data type_names type_count offset = Return (types, o) ->
  o mod 4 = 0.
Proof.
  unfold read_types.
  destruct (NamedStruct.iter_unpack _ _); cbn [bind]; [|discriminate].
  intros [= _ <-]. apply align_multiple.
Qed.

End Stages.

(** C9: in every run of the schema decoder that returns an index, the
    offset is a multiple of 4 after the names, after the type names and
    after the type lengths; [align] adds [4 - offset mod 4] to the offset
    when [offset mod 4] is not 0, and nothing otherwise. *)
Theorem offsets_aligned (header : BlendFileInfo) :
  (forall (data : list byte) (index : BlendIndex) (o : Z),
      parse_index_data header data = Return (index, o) ->
      exists names o2 type_names type_count o3 types o4,
        read_names header data 8 = Return (names, o2) /\ o2 mod 4 = 0
        /\ read_type_names header data o2
           = Return (type_names, type_count, o3) /\ o3 mod 4 = 0
        /\ read_types header data type_names type_count o3
           = Return (types, o4) /\ o4 mod 4 = 0)
  /\ (forall o : Z,
         (o mod 4 <> 0 -> align o = o + (4 - o mod 4))
         /\ (o mod 4 = 0 -> align o = o)).
Proof.
  split; [|exact align_steps].
  intros data index o. unfold parse_index_data.
  destruct (negb _); [discriminate|].
  destruct (read_names header data 8) as [[names o2]|e1] eqn:E1; cbn [bind];
    [|discriminate].
  destruct (negb _); [discriminate|].
  destruct (read_type_names header data o2) as [[[tn tc] o3]|e2] eqn:E2;
    cbn [bind]; [|discriminate].
  destruct (negb _); [discriminate|].
  destruct (read_types header data tn tc o3) as [[tys o4]|e3] eqn:E3;
    cbn [bind]; [|discriminate].
  intros _. exists names, o2, tn, tc, o3, tys, o4.
  repeat split;
    first [ reflexivity | assumption
          | eapply read_names_aligned; eassumption
          | eapply read_type_names_aligned; eassumption
          | eapply read_types_aligned; eassumption ].
Qed.

Lemma offsets_aligned_witness :
  exists names o2 type_names type_count o3 types o4,
    read_names header_v280 scenario_payload 8 = Return (names, o2)
    /\ o2 mod 4 = 0
    /\ read_type_names header_v280 scenario_payload o2
       = Return (type_names, type_count, o3) /\ o3 mod 4 = 0
    /\ read_types header_v280 scenario_payload type_names type_count o3
       = Return (types, o4) /\ o4 mod 4 = 0.
Proof.
  apply (proj1 (offsets_aligned header_v280) scenario_payload scenario_index 52).
  vm_compute. reflexivity.
Defined.

(** *** The indices of the structures *)

Section Shorts.

Variable header : BlendFileInfo.

Lemma slice_length_le {A} (l : list A) (start stop : Z) :
  0 <= start -> 0 <= stop ->
  Py.len (Py.slice l start stop) <= Z.max 0 (stop - start).
Proof.
  intros H1 H2. unfold Py.slice. rewrite !adjust_nonneg by assumption.
  unfold Py.len. rewrite length_firstn. lia.
Qed.

Lemma to_int_short (data : list byte) (at_ : Z) :
  0 <= at_ -> short_range (to_int header Struct.h data at_).
Proof.
  intros Hat. unfold to_int, Struct.to_int, short_range.
  cbn [Struct.calcsize Struct.signed andb].
  set (bs := Py.slice data at_ (at_ + 2)).
  assert (L : Py.len bs <= 2).
  { pose proof (slice_length_le data at_ (at_ + 2)). subst bs. lia. }
  set (u := le_combine match endian header with
              | Little => bs
              | Big => rev bs
              end).
  assert (U : 0 <= u < 65536).
  { subst u. unfold Py.len in L.
    destruct (endian header).
    - pose proof (le_combine_bound bs) as B.
      assert (2 ^ (8 * Z.of_nat (length bs)) <= 2 ^ 16)
        by (apply Z.pow_le_mono_r; lia).
      change (2 ^ 16) with 65536 in *. lia.
    - pose proof (le_combine_bound (rev bs)) as B.
      rewrite length_rev in B.
      assert (2 ^ (8 * Z.of_nat (length bs)) <= 2 ^ 16)
        by (apply Z.pow_le_mono_r; lia).
      change (2 ^ 16) with 65536 in *. lia. }
  change (2 ^ (8 * 2 - 1)) with 32768. change (2 ^ (8 * 2)) with 65536.
  destruct (Z.leb_spec 32768 u); lia.
Qed.

Lemma Short_range data offset v :
  NamedStruct.unpack_from (Short header) data offset = Return v ->
  short_range v.
Proof.
  unfold NamedStruct.unpack_from.
  repeat match goal with
         | |- context [if ?c then _ else _] => destruct c
         end; try discriminate.
  all: intros [= <-]; cbn [NamedStruct.names Short]; apply to_int_short; lia.
Qed.

Lemma StructField_range data offset f :
  NamedStruct.unpack_from (StructField header) data offset = Return f ->
  short_range (fst f) /\ short_range (snd f).
Proof.
  unfold NamedStruct.unpack_from.
  repeat match goal with
         | |- context [if ?c then _ else _] => destruct c
         end; try discriminate.
  all: intros [= <-]; cbn [NamedStruct.names StructField fst snd];
    split; apply to_int_short; lia.
Qed.

Lemma read_fields_range n : forall data offset fs o,
  read_fields header n data offset = Return (fs, o) ->
  Forall (fun f => short_range (fst f) /\ short_range (snd f)) fs.
Proof.
  induction n as [|n IH]; intros data offset fs o; cbn [read_fields].
  - intros [= <- _]. constructor.
  - destruct (NamedStruct.unpack_from _ _ _) as [f|] eqn:E; cbn [bind];
      [|discriminate].
    destruct (read_fields header n data (offset + 4)) as [[fs' o']|] eqn:E2;
      cbn [bind]; [|discriminate].
    intros [= <- _]. constructor.
    + eapply StructField_range, E.
    + eapply IH, E2.
Qed.

Lemma read_structures_range n : forall data offset ss o,
  read_structures header n data offset = Return (ss, o) ->
  Forall stored_as_shorts ss.
Proof.
  induction n as [|n IH]; intros data offset ss o; cbn [read_structures].
  - intros [= <- _]. constructor.
  - destruct (NamedStruct.unpack_from (Short header) data offset)
      as [ti|] eqn:E1; cbn [bind]; [|discriminate].
    destruct (NamedStruct.unpack_from (Short header) data (offset + 2))
      as [fc|] eqn:E2; cbn [bind]; [|discriminate].
    destruct (read_fields _ _ _ _) as [[fs o1]|] eqn:E3; cbn [bind];
      [|discriminate].
    destruct (read_structures header n data o1) as [[ss' o2]|] eqn:E4;
      cbn [bind]; [|discriminate].
    intros [= <- _]. constructor.
    + split; cbn [name fields].
      * eapply Short_range, E1.
      * eapply read_fields_range, E3.
    + eapply IH, E4.
Qed.

End Shorts.

(** C6 as stated fails: the decoder checks no index.  The payload below is
    decoded into a structure of type 5 when there is one type only. *)
Lemma dangling_index_returned :
  exists index o,
    parse_index_data header_v280 dangling_payload = Return (index, o)
    /\ Py.len (types index) = 1
    /\ (exists s, In s (structures index) /\ name s = 5)
    /\ ~ no_dangling index.
Proof.
  exists {| names := [b "ob"]; types := [(b "int", 4)];
            structures := [{| name := 5; fields := [(0, 0)] |}] |}, 52.
  split; [vm_compute; reflexivity|].
  split; [reflexivity|].
  split; [eexists; split; [left; reflexivity|reflexivity]|].
  intros H. inversion H as [|s ss [Hname _] _]; subst.
  cbn in Hname. lia.
Qed.

(** ** The file handle *)

Section Handle.

Lemma read_bytes_at (h : Py.file) (n : Z) :
  -1 <= n ->
  Py.read n h =
  Return (bytes_at (Py.contents h) (Py.pos h) n,
          {| Py.contents := Py.contents h;
             Py.pos := Py.pos h + Py.len (bytes_at (Py.contents h) (Py.pos h) n) |}).
Proof.
  intros Hn. unfold Py.read, bytes_at.
  destruct (Z.ltb_spec n (-1)); [lia|]. reflexivity.
Qed.

Lemma read_bad_size (h : Py.file) (n : Z) :
  n < -1 -> Py.read n h = Raise ValueError.
Proof.
  intros Hn. unfold Py.read.
  destruct (Z.ltb_spec n (-1)); [reflexivity|lia].
Qed.

Lemma tell (h : Py.file) :
  0 <= Py.pos h -> Py.seek 0 1 h = Return (Py.pos h, h).
Proof.
  intros Hp. unfold Py.seek. cbn.
  destruct (Z.ltb_spec (Py.pos h + 0) 0); [lia|].
  rewrite Z.add_0_r. destruct h; reflexivity.
Qed.

Lemma seek_set (h : Py.file) (p : Z) :
  0 <= p ->
  Py.seek p 0 h = Return (p, {| Py.contents := Py.contents h; Py.pos := p |}).
Proof.
  intros Hp. unfold Py.seek. cbn.
  destruct (Z.ltb_spec p 0); [lia|]. reflexivity.
Qed.

Lemma seek_end (h : Py.file) :
  Py.seek 0 2 h =
  Return (Py.len (Py.contents h),
          {| Py.contents := Py.contents h;
             Py.pos := Py.len (Py.contents h) |}).
Proof.
  unfold Py.seek. cbn. rewrite Z.add_0_r.
  pose proof (len_nonneg (Py.contents h)).
  destruct (Z.ltb_spec (Py.len (Py.contents h)) 0); [lia|]. reflexivity.
Qed.

Lemma bytes_at_full (contents : list byte) (offset n : Z) :
  0 <= offset -> 0 <= n -> offset + n <= Py.len contents ->
  Py.len (bytes_at contents offset n) = n.
Proof.
  intros Ho Hn Hl. unfold bytes_at, Py.len in *.
  destruct (Z.eqb_spec n (-1)); [lia|].
  rewrite length_firstn, length_skipn. lia.
Qed.

Lemma hsize_bounds (header : BlendFileInfo) :
  20 <= NamedStruct.size (BlendBlockHeader_struct header) <= 24.
Proof. unfold BlendBlockHeader_struct. destruct (arch header); cbn; lia. Qed.

End Handle.

(** ** Unfolding the list of blocks *)

Section Unfold.

Variable header : BlendFileInfo.
Variable contents : list byte.

Local Abbreviation hsize := (NamedStruct.size (BlendBlockHeader_struct header)).

Lemma blocks_on_disk_O (p : Z) :
  blocks_on_disk header contents O p =
  if p =? Py.len contents then ([], AtEnd) else ([], Unexplored).
Proof. reflexivity. Qed.

Lemma blocks_on_disk_S (fuel : nat) (p : Z) :
  blocks_on_disk header contents (S fuel) p =
  if p =? Py.len contents then ([], AtEnd)
  else if Py.len (bytes_at contents p hsize) =? hsize then
    if size (NamedStruct.names (BlendBlockHeader_struct header)
               (bytes_at contents p hsize)) <? -1
    then ([], BadSize)
    else if bytes_eqb
              (code (NamedStruct.names (BlendBlockHeader_struct header)
                       (bytes_at contents p hsize))) (b "ENDB")
    then ([(NamedStruct.names (BlendBlockHeader_struct header)
              (bytes_at contents p hsize), p + hsize)], AtTerminator)
    else
      let (w, ending) :=
        blocks_on_disk header contents fuel
          (p + hsize
           + Py.len (bytes_at contents (p + hsize)
                       (size (NamedStruct.names
                                (BlendBlockHeader_struct header)
                                (bytes_at contents p hsize))))) in
      ((NamedStruct.names (BlendBlockHeader_struct header)
          (bytes_at contents p hsize), p + hsize) :: w, ending)
  else ([], Truncated).
Proof. reflexivity. Qed.

End Unfold.

(** ** One iteration of the scan *)

Section OneBlock.

Variable header : BlendFileInfo.
Variable s : locals.
Hypothesis position_nonneg : 0 <= Py.pos (handle s).

Local Abbreviation contents := (Py.contents (handle s)).
Local Abbreviation position := (Py.pos (handle s)).
Local Abbreviation hsize := (NamedStruct.size (BlendBlockHeader_struct header)).
Local Abbreviation buf := (bytes_at contents position hsize).
Local Abbreviation head := (NamedStruct.names (BlendBlockHeader_struct header) buf).
Local Abbreviation offset := (position + hsize).
Local Abbreviation payload := (bytes_at contents offset (size head)).
Local Abbreviation after :=
  ({| Py.contents := contents; Py.pos := offset + Py.len payload |}).

Lemma scan_block_truncated :
  Py.len buf <> hsize -> scan_block header s = Raise struct_error.
Proof.
  intros Hb. unfold scan_block.
  pose proof (hsize_bounds header).
  rewrite read_bytes_at by lia. cbn [bind].
  unfold NamedStruct.unpack.
  destruct (Z.eqb_spec (Py.len buf) hsize); [contradiction|reflexivity].
Qed.

Lemma scan_block_header :
  Py.len buf = hsize ->
  scan_block header s =
  (s' <-
     (if bytes_eqb (code head) (b "DNA1") then
        '(index, h) <-
          _parse_index header head offset
            {| Py.contents := contents; Py.pos := offset |} ;;
        Return {| handle := h; blend_index := Some index;
                  end_found := end_found s;
                  file_block_heads := file_block_heads s |}
      else if bytes_eqb (code head) (b "ENDB") then
        Return {| handle := {| Py.contents := contents; Py.pos := offset |};
                  blend_index := blend_index s; end_found := true;
                  file_block_heads := file_block_heads s |}
      else
        Return {| handle := {| Py.contents := contents; Py.pos := offset |};
                  blend_index := blend_index s; end_found := end_found s;
                  file_block_heads :=
                    file_block_heads s ++ [(head, offset)] |}) ;;
   '(_, h) <- Py.read (size head) (handle s') ;;
   Return (with_handle s' h)).
Proof.
  intros Hb. unfold scan_block.
  pose proof (hsize_bounds header).
  rewrite read_bytes_at by lia. cbn [bind].
  unfold NamedStruct.unpack.
  destruct (Z.eqb_spec (Py.len buf) hsize); [|contradiction].
  cbn [bind]. rewrite Hb.
  rewrite tell by (cbn [Py.pos]; lia). cbn [bind Py.pos].
  reflexivity.
Qed.

Lemma scan_block_bad_size :
  Py.len buf = hsize -> size head < -1 ->
  scan_block header s = Raise ValueError.
Proof.
  intros Hb Hs. rewrite scan_block_header by assumption.
  destruct (bytes_eqb (code head) (b "DNA1")).
  - unfold _parse_index. rewrite read_bad_size by assumption. reflexivity.
  - destruct (bytes_eqb (code head) (b "ENDB")); cbn [bind handle];
      rewrite read_bad_size by assumption; reflexivity.
Qed.

Lemma parse_index_at :
  -1 <= size head ->
  _parse_index header head offset
    {| Py.contents := contents; Py.pos := offset |}
  = ('(index, _) <- parse_index_data header payload ;;
     Return (index, {| Py.contents := contents; Py.pos := offset |})).
Proof.
  intros Hs. unfold _parse_index.
  pose proof (hsize_bounds header).
  rewrite read_bytes_at by assumption. cbn [bind Py.contents Py.pos].
  destruct (parse_index_data header payload) as [[index o]|e]; cbn [bind];
    [|reflexivity].
  rewrite seek_set by lia. reflexivity.
Qed.

Lemma scan_block_index :
  Py.len buf = hsize -> -1 <= size head ->
  bytes_eqb (code head) (b "DNA1") = true ->
  scan_block header s =
  ('(index, _) <- parse_index_data header payload ;;
   Return {| handle := after; blend_index := Some index;
             end_found := end_found s;
             file_block_heads := file_block_heads s |}).
Proof.
  intros Hb Hs Hc. rewrite scan_block_header by assumption.
  rewrite Hc, parse_index_at by assumption.
  destruct (parse_index_data header payload) as [[index o]|e]; cbn [bind];
    [|reflexivity].
  cbn [handle]. rewrite read_bytes_at by assumption. reflexivity.
Qed.

Lemma scan_block_terminator :
  Py.len buf = hsize -> -1 <= size head ->
  bytes_eqb (code head) (b "DNA1") = false ->
  bytes_eqb (code head) (b "ENDB") = true ->
  scan_block header s =
  Return {| handle := after; blend_index := blend_index s;
            end_found := true;
            file_block_heads := file_block_heads s |}.
Proof.
  intros Hb Hs Hc He. rewrite scan_block_header by assumption.
  rewrite Hc, He. cbn [bind handle].
  rewrite read_bytes_at by assumption. reflexivity.
Qed.

Lemma scan_block_data :
  Py.len buf = hsize -> -1 <= size head ->
  bytes_eqb (code head) (b "DNA1") = false ->
  bytes_eqb (code head) (b "ENDB") = false ->
  scan_block header s =
  Return {| handle := after; blend_index := blend_index s;
            end_found := end_found s;
            file_block_heads := file_block_heads s ++ [(head, offset)] |}.
Proof.
  intros Hb Hs Hc He. rewrite scan_block_header by assumption.
  rewrite Hc, He. cbn [bind handle].
  rewrite read_bytes_at by assumption. reflexivity.
Qed.

End OneBlock.

(** ** The scan and the blocks on disk *)

Section Scan.

Variable header : BlendFileInfo.

Local Abbreviation hsize := (NamedStruct.size (BlendBlockHeader_struct header)).

Lemma with_handle_same (s : locals) : with_handle s (handle s) = s.
Proof. destruct s; reflexivity. Qed.

Lemma scan_loop_found (fuel : nat) (end_ : Z) (s : locals) :
  0 <= Py.pos (handle s) -> end_found s = true ->
  scan_loop header fuel end_ s = Some (Return s).
Proof.
  intros Hp Hf. destruct fuel; cbn [scan_loop];
    rewrite tell, with_handle_same, Hf, andb_false_r by assumption;
    reflexivity.
Qed.

Lemma scan_loop_at_end (fuel : nat) (s : locals) :
  0 <= Py.pos (handle s) ->
  Py.pos (handle s) = Py.len (Py.contents (handle s)) ->
  scan_loop header fuel (Py.len (Py.contents (handle s))) s = Some (Return s).
Proof.
  intros Hp He. destruct fuel; cbn [scan_loop];
    rewrite tell, with_handle_same, <- He, Z.eqb_refl by assumption;
    reflexivity.
Qed.

Lemma scan_loop_step (fuel : nat) (s : locals) :
  0 <= Py.pos (handle s) -> end_found s = false ->
  Py.pos (handle s) <> Py.len (Py.contents (handle s)) ->
  scan_loop header (S fuel) (Py.len (Py.contents (handle s))) s =
  match scan_block header s with
  | Raise e => Some (Raise e)
  | Return s' => scan_loop header fuel (Py.len (Py.contents (handle s))) s'
  end.
Proof.
  intros Hp Hf Hne. cbn [scan_loop].
  rewrite tell, with_handle_same, Hf by assumption.
  destruct (Z.eqb_spec (Py.len (Py.contents (handle s))) (Py.pos (handle s)));
    [congruence|reflexivity].
Qed.

Lemma scan_loop_blocks (fuel : nat) : forall s : locals,
  0 <= Py.pos (handle s) -> end_found s = false ->
  exists final,
    scan_loop header fuel (Py.len (Py.contents (handle s))) s =
    scanned header s
      (fst (blocks_on_disk header (Py.contents (handle s)) fuel
              (Py.pos (handle s))))
      (snd (blocks_on_disk header (Py.contents (handle s)) fuel
              (Py.pos (handle s))))
      final.
Proof.
  induction fuel as [|fuel IH]; intros s Hp Hf.
  - rewrite blocks_on_disk_O.
    destruct (Z.eqb_spec (Py.pos (handle s)) (Py.len (Py.contents (handle s))))
      as [E|E].
    + exists (Py.pos (handle s)). rewrite scan_loop_at_end by assumption.
      unfold scanned. cbn [fst snd decode_schemas filter].
      rewrite app_nil_r. destruct s as [[c p] bi ef hs]. cbn in *.
      now subst ef.
    + exists 0. cbn [scan_loop].
      rewrite tell, with_handle_same, Hf by assumption.
      destruct (Z.eqb_spec (Py.len (Py.contents (handle s)))
                  (Py.pos (handle s))); [congruence|reflexivity].
  - rewrite blocks_on_disk_S.
    destruct (Z.eqb_spec (Py.pos (handle s)) (Py.len (Py.contents (handle s))))
      as [E|E].
    { exists (Py.pos (handle s)). rewrite scan_loop_at_end by assumption.
      unfold scanned. cbn [fst snd decode_schemas filter].
      rewrite app_nil_r. destruct s as [[c p] bi ef hs]. cbn in *.
      now subst ef. }
    rewrite scan_loop_step by assumption.
    set (buf := bytes_at (Py.contents (handle s)) (Py.pos (handle s)) hsize).
    set (head := NamedStruct.names (BlendBlockHeader_struct header) buf).
    set (offset := Py.pos (handle s) + hsize).
    set (payload := bytes_at (Py.contents (handle s)) offset (size head)).
    pose proof (hsize_bounds header) as Hh.
    destruct (Z.eqb_spec (Py.len buf) hsize) as [Hb|Hb].
    2:{ exists 0. rewrite scan_block_truncated by assumption. reflexivity. }
    destruct (Z.ltb_spec (size head) (-1)) as [Hs|Hs].
    { exists 0. rewrite scan_block_bad_size by assumption. reflexivity. }
    destruct (bytes_eqb_spec (code head) (b "DNA1")) as [Hc|Hc].
    + (* the index block *)
      assert (He : bytes_eqb (code head) (b "ENDB") = false)
        by (rewrite Hc; reflexivity).
      assert (Ht : tagged "DNA1" (head, offset) = true)
        by (unfold tagged; cbn [fst]; rewrite Hc; reflexivity).
      assert (Hd : data_block (head, offset) = false)
        by (unfold data_block; rewrite Ht; reflexivity).
      rewrite He.
      rewrite scan_block_index
        by (fold buf head; first [assumption | rewrite Hc; reflexivity]).
      fold buf head offset payload.
      destruct (blocks_on_disk header (Py.contents (handle s)) fuel
                  (offset + Py.len payload)) as [w ending] eqn:Ew.
      unfold scanned. cbn [fst snd decode_schemas filter].
      rewrite Ht, Hd. fold payload.
      destruct (parse_index_data header payload) as [[index o]|e];
        cbn [bind]; [|exists 0; reflexivity].
      match goal with
      | |- context [scan_loop header fuel _ ?s'] =>
          destruct (IH s') as [final Hfinal];
          [cbn [handle Py.pos]; pose proof (len_nonneg payload); lia
          | exact Hf | exists final]
      end.
      cbn [handle Py.contents Py.pos] in Hfinal. rewrite Hfinal, Ew.
      reflexivity.
    + destruct (bytes_eqb_spec (code head) (b "ENDB")) as [He|He].
      * (* the terminator *)
        assert (Ht : tagged "DNA1" (head, offset) = false)
          by (unfold tagged; cbn [fst]; now apply bytes_eqb_neq).
        assert (Hd : data_block (head, offset) = false)
          by (unfold data_block, tagged; cbn [fst];
              rewrite (bytes_eqb_neq _ _ Hc), He; reflexivity).
        exists (offset + Py.len payload).
        rewrite scan_block_terminator
          by (fold buf head;
              first [ assumption | now apply bytes_eqb_neq
                    | rewrite He; reflexivity ]).
        fold buf head offset payload.
        rewrite scan_loop_found
          by (cbn [handle Py.pos end_found]; try reflexivity;
              pose proof (len_nonneg payload); lia).
        unfold scanned. cbn [fst snd decode_schemas filter].
        rewrite Ht, Hd. cbn [handle Py.contents blend_index file_block_heads].
        now rewrite app_nil_r.
      * (* any other block *)
        assert (Ht : tagged "DNA1" (head, offset) = false)
          by (unfold tagged; cbn [fst]; now apply bytes_eqb_neq).
        assert (Hd : data_block (head, offset) = true)
          by (unfold data_block, tagged; cbn [fst];
              rewrite (bytes_eqb_neq _ _ Hc), (bytes_eqb_neq _ _ He);
              reflexivity).
        rewrite scan_block_data
          by (fold buf head; first [assumption | now apply bytes_eqb_neq]).
        fold buf head offset payload.
        destruct (blocks_on_disk header (Py.contents (handle s)) fuel
                    (offset + Py.len payload)) as [w ending] eqn:Ew.
        match goal with
        | |- context [scan_loop header fuel _ ?s'] =>
            destruct (IH s') as [final Hfinal];
            [cbn [handle Py.pos]; pose proof (len_nonneg payload); lia
          | exact Hf | exists final]
        end.
        cbn [handle Py.contents Py.pos] in Hfinal. rewrite Hfinal, Ew.
        unfold scanned. cbn [fst snd handle Py.contents blend_index
                               file_block_heads filter decode_schemas].
        rewrite Ht, Hd. rewrite <- app_assoc. reflexivity.
Qed.

End Scan.

(** ** The blocks on disk *)

(** An equation between pairs, taken apart without computing in its
    components. *)
Ltac unpair :=
  let H := fresh in
  intros H; apply pair_equal_spec in H; destruct H as [<- <-].

Section Blocks.

Variable header : BlendFileInfo.
Variable contents : list byte.

Local Abbreviation hsize := (NamedStruct.size (BlendBlockHeader_struct header)).

(** Every listed block has its header just before its payload, and
    lies beyond the position the list starts from. *)
Lemma blocks_from (fuel : nat) : forall p w ending,
  blocks_on_disk header contents fuel p = (w, ending) ->
  Forall (fun blk => p + hsize <= snd blk
                     /\ header_before header contents blk) w.
Proof.
  induction fuel as [|fuel IH]; intros p w ending;
    rewrite ?blocks_on_disk_O, ?blocks_on_disk_S.
  - destruct (p =? Py.len contents); unpair; constructor.
  - destruct (p =? Py.len contents); [unpair; constructor|].
    set (buf := bytes_at contents p hsize).
    set (head := NamedStruct.names (BlendBlockHeader_struct header) buf).
    destruct (Z.eqb_spec (Py.len buf) hsize) as [Hb|Hb];
      [|unpair; constructor].
    destruct (size head <? -1); [unpair; constructor|].
    assert (Hh : header_before header contents (head, p + hsize)).
    { unfold header_before. cbn [fst snd].
      replace (p + hsize - hsize) with p by lia. fold buf.
      unfold NamedStruct.unpack. rewrite Hb, Z.eqb_refl. reflexivity. }
    destruct (bytes_eqb (code head) (b "ENDB")).
    + unpair. constructor; [|constructor].
      split; [unfold snd; lia|exact Hh].
    + destruct (blocks_on_disk header contents fuel _) as [w' e'] eqn:Ew.
      unpair. constructor.
      * split; [unfold snd; lia|exact Hh].
      * apply IH in Ew. eapply Forall_impl; [|exact Ew].
        intros blk [H1 H2]. split; [|exact H2].
        pose proof (hsize_bounds header).
        pose proof (len_nonneg (bytes_at contents (p + hsize) (size head))).
        lia.
Qed.

Lemma blocks_sorted (fuel : nat) : forall p w ending,
  blocks_on_disk header contents fuel p = (w, ending) ->
  StronglySorted by_offset w.
Proof.
  induction fuel as [|fuel IH]; intros p w ending;
    rewrite ?blocks_on_disk_O, ?blocks_on_disk_S.
  - destruct (p =? Py.len contents); unpair; constructor.
  - destruct (p =? Py.len contents); [unpair; constructor|].
    destruct (_ =? hsize); [|unpair; constructor].
    destruct (_ <? -1); [unpair; constructor|].
    destruct (bytes_eqb _ (b "ENDB")).
    + unpair. repeat constructor.
    + destruct (blocks_on_disk header contents fuel _) as [w' e'] eqn:Ew.
      unpair. constructor; [eapply IH, Ew|].
      apply blocks_from in Ew. eapply Forall_impl; [|exact Ew].
      intros blk [H1 _]. unfold by_offset, snd at 1.
      pose proof (hsize_bounds header).
      match goal with
      | H : context [Py.len ?l] |- _ => pose proof (len_nonneg l)
      end.
      lia.
Qed.

(** The list stops at the first terminator. *)
Lemma blocks_terminator (fuel : nat) : forall p w ending,
  blocks_on_disk header contents fuel p = (w, ending) ->
  (ending = AtTerminator ->
   exists w' blk, w = w' ++ [blk] /\ tagged "ENDB" blk = true
                  /\ Forall (fun x => tagged "ENDB" x = false) w')
  /\ (ending <> AtTerminator -> Forall (fun x => tagged "ENDB" x = false) w).
Proof.
  induction fuel as [|fuel IH]; intros p w ending;
    rewrite ?blocks_on_disk_O, ?blocks_on_disk_S.
  - destruct (p =? Py.len contents); unpair;
      (split; [discriminate|constructor]).
  - destruct (p =? Py.len contents);
      [unpair; split; [discriminate|constructor]|].
    destruct (_ =? hsize);
      [|unpair; split; [discriminate|constructor]].
    destruct (_ <? -1);
      [unpair; split; [discriminate|constructor]|].
    destruct (bytes_eqb _ (b "ENDB")) eqn:He.
    + unpair. split; [|congruence].
      intros _. eexists [], _. split; [reflexivity|]. split; [exact He|].
      constructor.
    + destruct (blocks_on_disk header contents fuel _) as [w' e'] eqn:Ew.
      unpair. destruct (IH _ _ _ Ew) as [IH1 IH2]. split.
      * intros Ht. destruct (IH1 Ht) as (w0 & blk & -> & Hb & Hw).
        eexists (_ :: w0), blk. split; [reflexivity|]. split; [exact Hb|].
        constructor; [exact He|exact Hw].
      * intros Ht. constructor; [exact He|exact (IH2 Ht)].
Qed.

(** A walk with more fuel than the file has bytes is complete. *)
Lemma blocks_explored (fuel : nat) : forall p,
  Z.max 0 (Py.len contents - p) < Z.of_nat fuel ->
  snd (blocks_on_disk header contents fuel p) <> Unexplored.
Proof.
  induction fuel as [|fuel IH]; intros p Hf; [lia|].
  rewrite blocks_on_disk_S.
  destruct (Z.eqb_spec p (Py.len contents)); [discriminate|].
  set (buf := bytes_at contents p hsize).
  destruct (Z.eqb_spec (Py.len buf) hsize) as [Hb|Hb]; [|discriminate].
  destruct (_ <? -1); [discriminate|].
  destruct (bytes_eqb _ (b "ENDB")); [discriminate|].
  match goal with
  | |- context [blocks_on_disk header contents fuel ?p'] =>
      specialize (IH p');
      destruct (blocks_on_disk header contents fuel p') as [w' e']
  end.
  cbn [snd] in *. apply IH.
  pose proof (hsize_bounds header).
  match goal with
  | |- context [Py.len (bytes_at ?c ?o ?n)] =>
      pose proof (len_nonneg (bytes_at c o n))
  end.
  assert (p + hsize <= Py.len contents \/ (p < 0 /\ hsize <= Py.len contents)).
  { subst buf. unfold bytes_at, Py.len in Hb |- *.
    destruct (hsize =? -1); rewrite ?length_firstn, length_skipn in Hb; lia. }
  lia.
Qed.

Lemma sorted_filter (f : BlendBlockHeader * Z -> bool) w :
  StronglySorted by_offset w -> StronglySorted by_offset (filter f w).
Proof.
  induction 1 as [|blk w Hw IH Hb]; cbn [filter]; [constructor|].
  destruct (f blk); [|exact IH].
  constructor; [exact IH|].
  apply Forall_forall. intros x Hx. apply filter_In in Hx.
  rewrite Forall_forall in Hb. now apply Hb.
Qed.

Lemma sorted_NoDup w : StronglySorted by_offset w -> NoDup w.
Proof.
  induction 1 as [|blk w Hw IH Hb]; constructor; [|exact IH].
  intros Hin. rewrite Forall_forall in Hb. specialize (Hb _ Hin).
  unfold by_offset in Hb. lia.
Qed.

End Blocks.

(** ** [_parse_blocks] from the blocks on disk *)

Section ParseBlocks.

Variable header : BlendFileInfo.
Variable h : Py.file.

Local Abbreviation contents := (Py.contents h).
Local Abbreviation fuel := (S (length (Py.contents h))).

Lemma decode_schemas_none (w : list (BlendBlockHeader * Z))
  (current : option BlendIndex) :
  Forall (fun x => tagged "DNA1" x = false) w ->
  decode_schemas header contents w current = Return current.
Proof.
  induction 1 as [|blk w Hb Hw IH]; cbn [decode_schemas]; [reflexivity|].
  now rewrite Hb.
Qed.


Lemma parse_blocks_scanned (w : list (BlendBlockHeader * Z))
  (ending : stream_end) :
  blocks_on_disk header contents fuel 12 = (w, ending) ->
  exists final,
    _parse_blocks header h =
    match scanned header
            {| handle := {| Py.contents := contents; Py.pos := 12 |};
               blend_index := None; end_found := false;
               file_block_heads := [] |} w ending final with
    | None => None
    | Some (Raise e) => Some (Raise e)
    | Some (Return s) =>
        match blend_index s with
        | None => Some (Raise MissingIndex)
        | Some index =>
            if eqb (end_found s) false then Some (Raise MissingTerminator)
            else Some (Return (file_block_heads s, index, handle s))
        end
    end.
Proof.
  intros Hw. unfold _parse_blocks.
  rewrite seek_end. rewrite seek_set by lia. cbn [Py.contents].
  destruct (scan_loop_blocks header fuel
              {| handle := {| Py.contents := contents; Py.pos := 12 |};
                 blend_index := None; end_found := false;
                 file_block_heads := [] |}) as [final Hfinal];
    [cbn [handle Py.pos]; lia | reflexivity |].
  cbn [handle Py.contents Py.pos] in Hfinal.
  exists final. rewrite Hfinal, Hw. reflexivity.
Qed.

(** The loop always comes to an end. *)
Lemma _parse_blocks_total : _parse_blocks header h <> None.
Proof.
  destruct (blocks_on_disk header contents fuel 12) as [w ending] eqn:Hw.
  destruct (parse_blocks_scanned w ending Hw) as [final ->].
  pose proof (blocks_explored header contents fuel 12) as He.
  rewrite Hw in He. cbn [snd] in He.
  assert (ending <> Unexplored).
  { apply He. pose proof (len_nonneg contents). unfold Py.len in *. lia. }
  unfold scanned.
  destruct (decode_schemas header _ w _) as [index|e]; [|discriminate].
  cbn [handle blend_index end_found file_block_heads].
  destruct ending; try congruence; try discriminate;
    destruct index; discriminate.
Qed.

Lemma parse_blocks_returned (w : list (BlendBlockHeader * Z))
  (ending : stream_end) dir index h' :
  blocks_on_disk header contents fuel 12 = (w, ending) ->
  _parse_blocks header h = Some (Return (dir, index, h')) ->
  ending = AtTerminator /\ dir = filter data_block w
  /\ decode_schemas header contents w None = Return (Some index).
Proof.
  intros Hw. destruct (parse_blocks_scanned w ending Hw) as [final ->].
  unfold scanned. cbn [handle blend_index Py.contents file_block_heads].
  destruct (decode_schemas header contents w None) as [idx|e];
    [|discriminate].
  destruct ending; try discriminate;
    cbn [blend_index end_found file_block_heads handle];
    destruct idx as [idx|]; try discriminate.
  cbn. intros [= <- <- _]. auto.
Qed.

End ParseBlocks.

(** ** The block scanner *)

Lemma data_block_codes (blk : BlendBlockHeader * Z) :
  data_block blk = true ->
  code (fst blk) <> b "DNA1" /\ code (fst blk) <> b "ENDB".
Proof.
  unfold data_block, tagged. intros H. apply andb_prop in H as [H1 H2].
  destruct (bytes_eqb_spec (code (fst blk)) (b "DNA1")); [discriminate|].
  destruct (bytes_eqb_spec (code (fst blk)) (b "ENDB")); [discriminate|].
  now split.
Qed.

(** C2: when the scan succeeds, the directory is the list of the blocks on
    disk up to the terminator without those tagged ["DNA1"] or ["ENDB"]:
    none of these two is in it, every other block is in it, once, in the
    order of the file, with the offset at which its payload starts (its
    header is what lies just before that offset). *)
Theorem directory_of_blocks (header : BlendFileInfo) (h : Py.file)
  (w : list (BlendBlockHeader * Z)) (ending : stream_end)
  (dir : list (BlendBlockHeader * Z)) (index : BlendIndex) (h' : Py.file) :
  blocks_on_disk header (Py.contents h) (S (length (Py.contents h))) 12
  = (w, ending) ->
  _parse_blocks header h = Some (Return (dir, index, h')) ->
  dir = filter data_block w
  /\ Forall (fun blk => code (fst blk) <> b "DNA1"
                        /\ code (fst blk) <> b "ENDB") dir
  /\ (forall blk, In blk w -> code (fst blk) <> b "DNA1" ->
                  code (fst blk) <> b "ENDB" -> In blk dir)
  /\ NoDup dir
  /\ StronglySorted by_offset dir
  /\ Forall (header_before header (Py.contents h)) dir.
Proof.
  intros Hw Hr.
  destruct (parse_blocks_returned header h w ending dir index h' Hw Hr)
    as (_ & -> & _).
  pose proof (blocks_sorted header _ _ _ _ _ Hw) as Hs.
  pose proof (blocks_from header _ _ _ _ _ Hw) as Hf.
  assert (Hsd : StronglySorted by_offset (filter data_block w))
    by now apply sorted_filter.
  repeat split.
  - apply Forall_forall. intros blk Hin. apply filter_In in Hin as [_ Hd].
    now apply data_block_codes.
  - intros blk Hin H1 H2. apply filter_In. split; [exact Hin|].
    unfold data_block, tagged.
    now rewrite (bytes_eqb_neq _ _ H1), (bytes_eqb_neq _ _ H2).
  - now apply sorted_NoDup.
  - exact Hsd.
  - apply Forall_forall. intros blk Hin. apply filter_In in Hin as [Hin _].
    rewrite Forall_forall in Hf. now apply Hf.
Qed.

Lemma directory_of_blocks_witness :
  [scenario_block "DATA" 5 36] = filter data_block scenario_blocks
  /\ Forall (fun blk => code (fst blk) <> b "DNA1"
                        /\ code (fst blk) <> b "ENDB")
       [scenario_block "DATA" 5 36]
  /\ (forall blk, In blk scenario_blocks -> code (fst blk) <> b "DNA1" ->
                  code (fst blk) <> b "ENDB" ->
                  In blk [scenario_block "DATA" 5 36])
  /\ NoDup [scenario_block "DATA" 5 36]
  /\ StronglySorted by_offset [scenario_block "DATA" 5 36]
  /\ Forall (header_before header_v280 scenario_file)
       [scenario_block "DATA" 5 36].
Proof.
  apply (directory_of_blocks header_v280 (opened scenario_file)
           scenario_blocks AtTerminator [scenario_block "DATA" 5 36]
           scenario_index
           {| Py.contents := scenario_file; Py.pos := 143 |}).
  - vm_compute. reflexivity.
  - vm_compute. reflexivity.
Defined.

(** C4: after an iteration that decoded an index block, the position is
    the offset of the block's payload plus the bytes of payload the file
    holds, whatever offset the decoder reached inside the payload
    ([consumed] below): the decoder hands the file back at the start of the
    payload and the scanner reads [size] bytes from there.  So the next
    block header is read at the payload offset plus [size]: that is the
    position whenever the payload is whole, and whenever the position is
    not the end of the file. *)
Theorem schema_block_resume (header : BlendFileInfo) (s s' : locals)
  (head : BlendBlockHeader) :
  0 <= Py.pos (handle s) ->
  NamedStruct.unpack (BlendBlockHeader_struct header)
    (bytes_at (Py.contents (handle s)) (Py.pos (handle s))
       (NamedStruct.size (BlendBlockHeader_struct header))) = Return head ->
  code head = b "DNA1" ->
  scan_block header s = Return s' ->
  let contents := Py.contents (handle s) in
  let offset :=
    Py.pos (handle s) + NamedStruct.size (BlendBlockHeader_struct header) in
  let payload := bytes_at contents offset (size head) in
  (exists index consumed,
      parse_index_data header payload = Return (index, consumed)
      /\ blend_index s' = Some index
      /\ _parse_index header head offset
           {| Py.contents := contents; Py.pos := offset |}
         = Return (index, {| Py.contents := contents; Py.pos := offset |}))
  /\ Py.contents (handle s') = contents
  /\ Py.pos (handle s') = offset + Py.len payload
  /\ (0 <= size head -> offset + size head <= Py.len contents ->
      Py.pos (handle s') = offset + size head)
  /\ (Py.pos (handle s') <> Py.len contents ->
      Py.pos (handle s') = offset + size head).
Proof.
  intros Hp Hu Hc Hs contents offset payload.
  pose proof (hsize_bounds header) as Hh.
  unfold NamedStruct.unpack in Hu.
  destruct (Z.eqb_spec
              (Py.len (bytes_at (Py.contents (handle s)) (Py.pos (handle s))
                         (NamedStruct.size (BlendBlockHeader_struct header))))
              (NamedStruct.size (BlendBlockHeader_struct header)))
    as [Hb|Hb]; [|discriminate].
  apply Return_inj in Hu.
  assert (Hsize : -1 <= size head).
  { destruct (Z.lt_ge_cases (size head) (-1)) as [L|L]; [|lia].
    rewrite scan_block_bad_size in Hs; [discriminate|assumption..|].
    now rewrite Hu. }
  rewrite scan_block_index in Hs;
    [|assumption..|now rewrite Hu|rewrite Hu, Hc; reflexivity].
  rewrite Hu in Hs. fold contents offset payload in Hs.
  assert (Hi : _parse_index header head offset
                 {| Py.contents := contents; Py.pos := offset |}
               = ('(index, _) <- parse_index_data header payload ;;
                  Return (index,
                          {| Py.contents := contents; Py.pos := offset |}))).
  { pose proof (parse_index_at header s Hp) as H.
    rewrite Hu in H. now apply H. }
  destruct (parse_index_data header payload) as [[index consumed]|e];
    cbn [bind] in Hs, Hi; [|discriminate].
  injection Hs as <-. cbn [handle blend_index Py.contents Py.pos].
  assert (Hoff : 0 <= offset <= Py.len contents).
  { subst offset contents. unfold bytes_at, Py.len in Hb |- *.
    destruct (_ =? -1); rewrite ?length_firstn, length_skipn in Hb; lia. }
  split; [exists index, consumed; auto|].
  split; [reflexivity|]. split; [reflexivity|]. split.
  - intros H0 Hl. f_equal. subst payload offset contents.
    apply bytes_at_full; lia.
  - intros Hne. f_equal.
    subst payload offset contents. unfold bytes_at, Py.len in Hne, Hoff |- *.
    destruct (Z.eqb_spec (size head) (-1)).
    + rewrite length_skipn in Hne. lia.
    + rewrite length_firstn, length_skipn in Hne |- *. lia.
Qed.

Lemma schema_block_resume_witness :
  (exists index consumed,
      parse_index_data header_v280 (bytes_at scenario_file 65 54)
      = Return (index, consumed) /\ consumed = 52)
  /\ Py.pos (handle {| handle := {| Py.contents := scenario_file;
                                    Py.pos := 119 |};
                      blend_index := Some scenario_index;
                      end_found := false;
                      file_block_heads := [scenario_block "DATA" 5 36] |})
     = 65 + 54.
Proof.
  pose proof (schema_block_resume header_v280 before_index
                {| handle := {| Py.contents := scenario_file; Py.pos := 119 |};
                   blend_index := Some scenario_index;
                   end_found := false;
                   file_block_heads := [scenario_block "DATA" 5 36] |}
                (fst (scenario_block "DNA1" 54 65))) as H.
  cbv zeta in H.
  destruct H as ((index & consumed & Hi & _) & _ & _ & Hfull & _).
  - vm_compute. discriminate.
  - vm_compute. reflexivity.
  - reflexivity.
  - vm_compute. reflexivity.
  - split.
    + exists index, consumed. split; [exact Hi|].
      vm_compute in Hi. now injection Hi.
    + apply Hfull; vm_compute; discriminate.
Defined.

(** ** More on the scan: termination, and the exceptions it lets through *)

Section ScanErrors.

Variable header : BlendFileInfo.
Variable contents : list byte.

Lemma decode_schemas_ok (w : list (BlendBlockHeader * Z)) :
  Forall (decodable header contents) w ->
  forall current,
    exists index, decode_schemas header contents w current = Return index.
Proof.
  induction 1 as [|blk w Hb Hw IH]; intros current; cbn [decode_schemas].
  - eauto.
  - destruct (tagged "DNA1" blk) eqn:Ht; [|apply IH].
    destruct (Hb Ht) as (index & o & ->). cbn [bind]. apply IH.
Qed.

Lemma decode_schemas_raise (w1 w2 : list (BlendBlockHeader * Z))
  (blk : BlendBlockHeader * Z) (e : exn) :
  Forall (decodable header contents) w1 ->
  tagged "DNA1" blk = true ->
  parse_index_data header (bytes_at contents (snd blk) (size (fst blk)))
  = Raise e ->
  forall current,
    decode_schemas header contents (w1 ++ blk :: w2) current = Raise e.
Proof.
  intros Hw Ht He.
  induction Hw as [|x w1 Hx Hw IH]; intros current;
    cbn [app decode_schemas].
  - now rewrite Ht, He.
  - destruct (tagged "DNA1" x) eqn:Hxt; [|apply IH].
    destruct (Hx Hxt) as (index & o & ->). cbn [bind]. apply IH.
Qed.

Lemma decode_schemas_last (w1 w2 : list (BlendBlockHeader * Z))
  (blk : BlendBlockHeader * Z) :
  tagged "DNA1" blk = true ->
  Forall (fun x => tagged "DNA1" x = false) w2 ->
  forall current r,
    decode_schemas header contents (w1 ++ blk :: w2) current = Return r ->
    exists index o,
      parse_index_data header (bytes_at contents (snd blk) (size (fst blk)))
      = Return (index, o)
      /\ r = Some index.
Proof.
  intros Ht Hw2.
  induction w1 as [|x w1 IH]; intros current r; cbn [app decode_schemas].
  - rewrite Ht.
    destruct (parse_index_data header
                (bytes_at contents (snd blk) (size (fst blk))))
      as [[index o]|e]; cbn [bind]; [|discriminate].
    rewrite (decode_schemas_none header
               {| Py.contents := contents; Py.pos := 0 |} w2) by assumption.
    intros [= <-]. eauto.
  - destruct (tagged "DNA1" x).
    + destruct (parse_index_data header
                  (bytes_at contents (snd x) (size (fst x))))
        as [[index o]|e]; cbn [bind]; [apply IH|discriminate].
    + apply IH.
Qed.

End ScanErrors.

(** ** Where the scan ends *)

Section ScanOutcome.

Variable header : BlendFileInfo.
Variable contents : list byte.




End ScanOutcome.




(** X1: the loop of [_parse_blocks] always comes to an end, so
    [_parse_blocks] and [__init__] return or raise on every file: each
    iteration moves the position forward by a block header at least, and
    the position never passes the end of the file. *)
Theorem loader_terminates :
  (forall (header : BlendFileInfo) (h : Py.file),
      _parse_blocks header h <> None)
  /\ (forall file_contents : list byte, __init__ file_contents <> None).
Proof.
  split; [exact _parse_blocks_total|].
  intros file_contents. unfold __init__.
  destruct (read_header _) as [[header h]|e]; [|discriminate].
  pose proof (_parse_blocks_total header h) as H.
  destruct (_parse_blocks header h) as [[[[dir index] h']|e]|];
    [discriminate|discriminate|contradiction].
Qed.

(** X2: when the file ends inside a block header (and the index blocks
    before it are decoded), [_parse_blocks] raises [struct.error], the
    exception of [BlendBlockHeader.unpack]: neither of its own two
    errors. *)
Theorem cut_header_struct_error (header : BlendFileInfo) (h : Py.file)
  (w : list (BlendBlockHeader * Z)) :
  blocks_on_disk header (Py.contents h) (S (length (Py.contents h))) 12
  = (w, Truncated) ->
  Forall (decodable header (Py.contents h)) w ->
  _parse_blocks header h = Some (Raise struct_error).
Proof.
  intros Hw Hd.
  destruct (parse_blocks_scanned header h w Truncated Hw) as [final ->].
  unfold scanned. cbn [handle blend_index Py.contents].
  destruct (decode_schemas_ok header (Py.contents h) w Hd None) as [index ->].
  reflexivity.
Qed.

Lemma cut_header_struct_error_witness :
  _parse_blocks header_v280 (opened cut_file) = Some (Raise struct_error).
Proof.
  apply (cut_header_struct_error header_v280 (opened cut_file)
           [scenario_block "DATA" 5 36]).
  - vm_compute. reflexivity.
  - constructor; [intros H; discriminate H|constructor].
Defined.

(** X3: when a block header holds a size below -1 (and the index blocks
    before it are decoded), [_parse_blocks] raises [ValueError], the
    exception of [handle.read] for such a size. *)
Theorem negative_size_value_error (header : BlendFileInfo) (h : Py.file)
  (w : list (BlendBlockHeader * Z)) :
  blocks_on_disk header (Py.contents h) (S (length (Py.contents h))) 12
  = (w, BadSize) ->
  Forall (decodable header (Py.contents h)) w ->
  _parse_blocks header h = Some (Raise ValueError).
Proof.
  intros Hw Hd.
  destruct (parse_blocks_scanned header h w BadSize Hw) as [final ->].
  unfold scanned. cbn [handle blend_index Py.contents].
  destruct (decode_schemas_ok header (Py.contents h) w Hd None) as [index ->].
  reflexivity.
Qed.

Lemma negative_size_value_error_witness :
  _parse_blocks header_v280 (opened negative_size_file)
  = Some (Raise ValueError).
Proof.
  apply (negative_size_value_error header_v280 (opened negative_size_file) []).
  - vm_compute. reflexivity.
  - constructor.
Defined.

(** X4: the exception of the first index block that the schema decoder
    rejects is the exception of [_parse_blocks], whatever follows that
    block in the file; a [Malformed index] in particular. *)
Theorem index_error_propagates (header : BlendFileInfo) (h : Py.file)
  (w1 w2 : list (BlendBlockHeader * Z)) (blk : BlendBlockHeader * Z)
  (ending : stream_end) (e : exn) :
  blocks_on_disk header (Py.contents h) (S (length (Py.contents h))) 12
  = (w1 ++ blk :: w2, ending) ->
  Forall (decodable header (Py.contents h)) w1 ->
  tagged "DNA1" blk = true ->
  parse_index_data header
    (bytes_at (Py.contents h) (snd blk) (size (fst blk))) = Raise e ->
  _parse_blocks header h = Some (Raise e).
Proof.
  intros Hw Hd Ht He.
  destruct (parse_blocks_scanned header h _ ending Hw) as [final ->].
  unfold scanned. cbn [handle blend_index Py.contents].
  now rewrite (decode_schemas_raise header (Py.contents h) w1 w2 blk e).
Qed.

Lemma index_error_propagates_witness :
  _parse_blocks header_v280 (opened garbage_file) = Some (Raise MalformedIndex).
Proof.
  apply (index_error_propagates header_v280 (opened garbage_file) []
           [scenario_block "ENDB" 0 112] (scenario_block "DNA1" 52 36)
           AtTerminator).
  - vm_compute. reflexivity.
  - constructor.
  - reflexivity.
  - vm_compute. reflexivity.
Defined.

(** X5: when a file holds several ["DNA1"] blocks, the index that
    [_parse_blocks] returns is the one of the last of them. *)
Theorem last_index_block_wins (header : BlendFileInfo) (h : Py.file)
  (w1 w2 : list (BlendBlockHeader * Z)) (blk : BlendBlockHeader * Z)
  (ending : stream_end) (dir : list (BlendBlockHeader * Z))
  (index : BlendIndex) (h' : Py.file) :
  blocks_on_disk header (Py.contents h) (S (length (Py.contents h))) 12
  = (w1 ++ blk :: w2, ending) ->
  tagged "DNA1" blk = true ->
  Forall (fun x => tagged "DNA1" x = false) w2 ->
  _parse_blocks header h = Some (Return (dir, index, h')) ->
  exists o,
    parse_index_data header
      (bytes_at (Py.contents h) (snd blk) (size (fst blk)))
    = Return (index, o).
Proof.
  intros Hw Ht Hw2 Hr.
  destruct (parse_blocks_returned header h _ ending dir index h' Hw Hr)
    as (_ & _ & Hd).
  destruct (decode_schemas_last header (Py.contents h) w1 w2 blk Ht Hw2 _ _ Hd)
    as (index' & o & Hp & [= <-]).
  eauto.
Qed.

Lemma last_index_block_wins_witness :
  exists o,
    parse_index_data header_v280 (bytes_at two_index_file 112 48)
    = Return (other_index, o).
Proof.
  apply (last_index_block_wins header_v280 (opened two_index_file)
           [scenario_block "DNA1" 52 36] [scenario_block "ENDB" 0 184]
           (scenario_block "DNA1" 48 112) AtTerminator []
           other_index {| Py.contents := two_index_file; Py.pos := 184 |}).
  - vm_compute. reflexivity.
  - reflexivity.
  - repeat constructor.
  - vm_compute. reflexivity.
Defined.

(** ** [NamedStruct]: windows and records *)

Section Windows.

Context {A : Type}.
Variable s : NamedStruct.t A.
Hypothesis size_positive : 0 < NamedStruct.size s.

Lemma slice_window (data : list byte) (offset : Z) :
  0 <= offset ->
  Py.slice data offset (offset + NamedStruct.size s)
  = firstn (Z.to_nat (NamedStruct.size s)) (skipn (Z.to_nat offset) data).
Proof.
  intros Ho. unfold Py.slice. rewrite !adjust_nonneg by lia.
  unfold Py.len.
  destruct (Z.le_gt_cases (offset + NamedStruct.size s)
              (Z.of_nat (length data))) as [L|L].
  - rewrite !Z.min_l by lia. f_equal. lia.
  - rewrite (Z.min_r (offset + NamedStruct.size s)) by lia.
    destruct (Z.le_gt_cases offset (Z.of_nat (length data))) as [M|M].
    + rewrite Z.min_l by lia.
      rewrite !firstn_all2; [reflexivity| |]; rewrite length_skipn; lia.
    + rewrite Z.min_r by lia.
      rewrite !(skipn_all2 data) by lia. now rewrite !firstn_nil.
Qed.

Lemma chunks_nth (n k : nat) : forall (data : list byte) (j : nat),
  (j < k)%nat ->
  nth_error (NamedStruct.chunks n k data) j
  = Some (firstn n (skipn (j * n) data)).
Proof.
  induction k as [|k IH]; intros data j Hj; [lia|].
  cbn [NamedStruct.chunks]. destruct j as [|j]; [reflexivity|].
  cbn [nth_error]. rewrite IH by lia. rewrite skipn_skipn.
  do 3 f_equal. lia.
Qed.

Lemma chunks_length (n k : nat) (data : list byte) :
  length (NamedStruct.chunks n k data) = k.
Proof.
  revert data. induction k as [|k IH]; intros data; cbn; [|rewrite IH];
    reflexivity.
Qed.

End Windows.

(** X6: [unpack_from] at an offset that is not negative is [unpack] of
    the slice of the struct's size at that offset: it raises
    [struct.error] exactly when fewer than [size] bytes are left there,
    and what it returns depends on these bytes only. *)
Theorem unpack_from_is_unpack_of_slice {A} (s : NamedStruct.t A)
  (data : list byte) (offset : Z) :
  0 < NamedStruct.size s -> 0 <= offset ->
  NamedStruct.unpack_from s data offset
  = NamedStruct.unpack s (Py.slice data offset (offset + NamedStruct.size s))
  /\ (NamedStruct.unpack_from s data offset = Raise struct_error
      <-> Py.len data < offset + NamedStruct.size s).
Proof.
  intros Hs Ho. unfold NamedStruct.unpack_from, NamedStruct.unpack.
  destruct (Z.ltb_spec offset 0); [lia|]. cbn [andb].
  rewrite slice_window by assumption.
  unfold Py.len. rewrite length_firstn, length_skipn.
  destruct (Z.ltb_spec (Z.of_nat (length data) - offset) (NamedStruct.size s))
    as [L|L].
  - split; [|split; [lia|reflexivity]].
    destruct (Z.eqb_spec
                (Z.of_nat (Nat.min (Z.to_nat (NamedStruct.size s))
                             (length data - Z.to_nat offset)))
                (NamedStruct.size s)); [lia|reflexivity].
  - split; [|split; [discriminate|lia]].
    destruct (Z.eqb_spec
                (Z.of_nat (Nat.min (Z.to_nat (NamedStruct.size s))
                             (length data - Z.to_nat offset)))
                (NamedStruct.size s)); [reflexivity|lia].
Qed.

Lemma unpack_from_is_unpack_of_slice_witness :
  NamedStruct.unpack_from (Int header_v280) scenario_payload 8
  = NamedStruct.unpack (Int header_v280) (Py.slice scenario_payload 8 (8 + 4))
  /\ (NamedStruct.unpack_from (Int header_v280) scenario_payload 8
      = Raise struct_error <-> Py.len scenario_payload < 8 + 4).
Proof.
  apply (unpack_from_is_unpack_of_slice (Int header_v280) scenario_payload 8).
  - reflexivity.
  - discriminate.
Defined.

Lemma iter_unpack_spec {A} (s : NamedStruct.t A) (data : list byte) :
  0 < NamedStruct.size s ->
  (NamedStruct.iter_unpack s data = Raise struct_error
   <-> Py.len data mod NamedStruct.size s <> 0)
  /\ (forall records,
         NamedStruct.iter_unpack s data = Return records ->
         Py.len records * NamedStruct.size s = Py.len data
         /\ forall (k : nat) (record : A),
             nth_error records k = Some record ->
             NamedStruct.unpack_from s data (Z.of_nat k * NamedStruct.size s)
             = Return record).
Proof.
  intros Hs. unfold NamedStruct.iter_unpack.
  destruct (Z.eqb_spec (NamedStruct.size s) 0); [lia|]. cbn [orb].
  destruct (Z.eqb_spec (Py.len data mod NamedStruct.size s) 0) as [E|E];
    cbn [negb].
  2:{ split; [tauto|discriminate]. }
  split; [split; [discriminate|contradiction]|].
  intros records Hr. apply Return_inj in Hr. subst records.
  assert (Hlen : Py.len data / NamedStruct.size s * NamedStruct.size s
                 = Py.len data).
  { pose proof (Z.div_mod (Py.len data) (NamedStruct.size s)). lia. }
  pose proof (len_nonneg data) as Hd.
  assert (Hq : 0 <= Py.len data / NamedStruct.size s)
    by (apply Z.div_pos; lia).
  split.
  - unfold Py.len at 1. rewrite length_map, chunks_length. lia.
  - intros k record Hk.
    rewrite nth_error_map in Hk.
    destruct (nth_error _ k) as [chunk|] eqn:Hc; cbn [option_map] in Hk;
      [|discriminate].
    assert (record = NamedStruct.names s chunk) by congruence. subst record.
    assert (Hlt : (k < Z.to_nat (Py.len data / NamedStruct.size s))%nat).
    { rewrite <- (chunks_length (Z.to_nat (NamedStruct.size s))
                    (Z.to_nat (Py.len data / NamedStruct.size s)) data).
      apply nth_error_Some. congruence. }
    rewrite chunks_nth in Hc by assumption.
    assert (chunk = firstn (Z.to_nat (NamedStruct.size s))
                      (skipn (k * Z.to_nat (NamedStruct.size s)) data))
      by congruence.
    subst chunk.
    unfold NamedStruct.unpack_from.
    destruct (Z.ltb_spec (Z.of_nat k * NamedStruct.size s) 0); [lia|].
    cbn [andb].
    destruct (Z.ltb_spec
                (Py.len data - Z.of_nat k * NamedStruct.size s)
                (NamedStruct.size s)); [nia|].
    rewrite slice_window by lia. do 4 f_equal. nia.
Qed.

(** X7: [iter_unpack] raises [struct.error] exactly when the length of
    the data is not a multiple of the struct's size; otherwise it returns
    one record for every [size] bytes, and the record of rank [k] is what
    [unpack_from] returns at offset [k * size]. *)
Theorem iter_unpack_records {A} (s : NamedStruct.t A) (data : list byte) :
  0 < NamedStruct.size s ->
  (NamedStruct.iter_unpack s data = Raise struct_error
   <-> Py.len data mod NamedStruct.size s <> 0)
  /\ (forall records,
         NamedStruct.iter_unpack s data = Return records ->
         Py.len records * NamedStruct.size s = Py.len data
         /\ forall (k : nat) (record : A),
             nth_error records k = Some record ->
             NamedStruct.unpack_from s data (Z.of_nat k * NamedStruct.size s)
             = Return record).
Proof. exact (iter_unpack_spec s data). Qed.

Lemma iter_unpack_records_witness :
  NamedStruct.iter_unpack (Short header_v280) (b "abc") = Raise struct_error
  <-> Py.len (b "abc") mod NamedStruct.size (Short header_v280) <> 0.
Proof.
  apply (iter_unpack_records (Short header_v280) (b "abc")).
  reflexivity.
Defined.

(** ** Block headers: decoding and encoding *)

Section Integers.

Lemma le_split_wrap (n : nat) (z k : Z) :
  le_split n (z + k * 2 ^ (Z.of_nat n * 8)) = le_split n z.
Proof.
  apply le_combine_inj; [now rewrite !length_le_split|].
  rewrite !le_combine_split. apply Z.mod_add.
  apply Z.pow_nonzero; lia.
Qed.

Lemma int_of_to_int (e : Endian) (c : Struct.code) (bs : list byte) :
  Py.len bs = Struct.calcsize c ->
  Encode.int e c (Struct.to_int e c bs) = bs.
Proof.
  intros Hl. unfold Encode.int, Struct.to_int.
  set (bs' := match e with Little => bs | Big => rev bs end).
  assert (Hn : length bs' = Z.to_nat (Struct.calcsize c)).
  { subst bs'. unfold Py.len in Hl. destruct e; rewrite ?length_rev; lia. }
  assert (Hs : le_split (Z.to_nat (Struct.calcsize c))
                 (if Struct.signed c
                     && (2 ^ (8 * Struct.calcsize c - 1) <=? le_combine bs')
                  then le_combine bs' - 2 ^ (8 * Struct.calcsize c)
                  else le_combine bs') = bs').
  { rewrite <- Hn.
    destruct (Struct.signed c && _).
    - replace (le_combine bs' - 2 ^ (8 * Struct.calcsize c))
        with (le_combine bs' + (-1) * 2 ^ (Z.of_nat (length bs') * 8)).
      + rewrite le_split_wrap. apply split_le_combine.
      + rewrite Hn. replace (Z.of_nat (Z.to_nat (Struct.calcsize c)) * 8)
          with (8 * Struct.calcsize c) by (destruct c; reflexivity).
        lia.
    - apply split_le_combine. }
  rewrite Hs. subst bs'. destruct e; [reflexivity|apply rev_involutive].
Qed.

Lemma firstn_plus {A} (a c : nat) : forall l : list A,
  firstn (a + c) l = firstn a l ++ firstn c (skipn a l).
Proof.
  induction a as [|a IH]; intros l; [reflexivity|].
  destruct l as [|x l]; cbn [Nat.add firstn skipn app].
  - now rewrite firstn_nil.
  - now rewrite IH.
Qed.

Lemma slice_join {A} (l : list A) (lo mid hi : Z) :
  0 <= lo <= mid -> mid <= hi ->
  Py.slice l lo mid ++ Py.slice l mid hi = Py.slice l lo hi.
Proof.
  intros H1 H2. unfold Py.slice. rewrite !adjust_nonneg by lia.
  set (n := Py.len l).
  assert (0 <= n) by apply len_nonneg.
  replace (Z.to_nat (Z.min hi n - Z.min lo n))
    with (Z.to_nat (Z.min mid n - Z.min lo n)
          + Z.to_nat (Z.min hi n - Z.min mid n))%nat by lia.
  rewrite firstn_plus. f_equal. rewrite skipn_skipn. do 2 f_equal. lia.
Qed.

Lemma slice_len {A} (l : list A) (lo hi : Z) :
  0 <= lo <= hi -> hi <= Py.len l -> Py.len (Py.slice l lo hi) = hi - lo.
Proof.
  intros H1 H2. unfold Py.slice. rewrite !adjust_nonneg by lia.
  unfold Py.len in *. rewrite length_firstn, length_skipn. lia.
Qed.

End Integers.

Lemma block_header_length (header : BlendFileInfo) (h : BlendBlockHeader) :
  Py.len (code h) = 4 ->
  Py.len (Encode.block_header header h)
  = NamedStruct.size (BlendBlockHeader_struct header).
Proof.
  intros Hc. unfold Encode.block_header, BlendBlockHeader_struct.
  rewrite !len_app, !int_length, Hc. cbn [NamedStruct.size]. lia.
Qed.

Lemma unpack_block_header (header : BlendFileInfo) (h : BlendBlockHeader) :
  head_fits header h ->
  NamedStruct.unpack (BlendBlockHeader_struct header)
    (Encode.block_header header h) = Return h.
Proof.
  intros (Hc & Hs & Ha & Hd & Hn).
  unfold NamedStruct.unpack.
  rewrite block_header_length, Z.eqb_refl by assumption.
  f_equal. destruct h as [c sz ad sd ct]. cbn [code size addr sdna count] in *.
  unfold BlendBlockHeader_struct, Encode.block_header.
  cbn [NamedStruct.names code size addr sdna count].
  set (e := endian header). set (P := Arch_value (arch header)).
  set (data := c ++ Encode.int e Struct.i sz ++ Encode.int e P ad
               ++ Encode.int e Struct.i sd ++ Encode.int e Struct.i ct).
  unfold to_int. fold e.
  assert (HP : Struct.calcsize P = 4 \/ Struct.calcsize P = 8)
    by (subst P; destruct (arch header); cbn; auto).
  f_equal.
  + apply (slice_at [] c (Encode.int e Struct.i sz ++ Encode.int e P ad
                          ++ Encode.int e Struct.i sd
                          ++ Encode.int e Struct.i ct));
      [reflexivity|reflexivity|cbn; lia].
  + rewrite (slice_at c (Encode.int e Struct.i sz)
               (Encode.int e P ad ++ Encode.int e Struct.i sd
                ++ Encode.int e Struct.i ct));
      [now apply to_int_int|reflexivity|lia|rewrite int_length; reflexivity].
  + rewrite (slice_at (c ++ Encode.int e Struct.i sz) (Encode.int e P ad)
               (Encode.int e Struct.i sd ++ Encode.int e Struct.i ct));
      [now apply to_int_int
      |subst data; now rewrite <- !app_assoc
      |rewrite len_app, int_length; cbn [Struct.calcsize]; lia
      |rewrite int_length; reflexivity].
  + rewrite (slice_at (c ++ Encode.int e Struct.i sz ++ Encode.int e P ad)
               (Encode.int e Struct.i sd) (Encode.int e Struct.i ct));
      [now apply to_int_int
      |subst data; now rewrite <- !app_assoc
      |rewrite !len_app, !int_length; cbn [Struct.calcsize]; lia
      |rewrite int_length; reflexivity].
  + rewrite (slice_at (c ++ Encode.int e Struct.i sz ++ Encode.int e P ad
                       ++ Encode.int e Struct.i sd)
               (Encode.int e Struct.i ct) []);
      [now apply to_int_int
      |subst data; now rewrite <- !app_assoc, app_nil_r
      |rewrite !len_app, !int_length; cbn [Struct.calcsize]; lia
      |rewrite int_length; reflexivity].
Qed.

Lemma pack_block_header (header : BlendFileInfo) (buf : list byte) :
  Py.len buf = NamedStruct.size (BlendBlockHeader_struct header) ->
  exists h,
    NamedStruct.unpack (BlendBlockHeader_struct header) buf = Return h
    /\ Encode.block_header header h = buf.
Proof.
  intros Hb. eexists. unfold NamedStruct.unpack.
  rewrite Hb, Z.eqb_refl. split; [reflexivity|].
  unfold BlendBlockHeader_struct in *. cbn [NamedStruct.size] in Hb.
  unfold Encode.block_header.
  cbn [NamedStruct.names code size addr sdna count].
  set (e := endian header). set (P := Arch_value (arch header)) in *.
  unfold to_int. fold e.
  assert (HP : Struct.calcsize P = 4 \/ Struct.calcsize P = 8)
    by (subst P; destruct (arch header); cbn; auto).
  cbn [Struct.calcsize] in Hb |- *.
  rewrite !int_of_to_int
    by (rewrite slice_len; cbn [Struct.calcsize]; lia).
  change (4 + 4) with 8.
  replace (8 + Struct.calcsize P + 4) with (12 + Struct.calcsize P) by lia.
  rewrite (slice_join buf (8 + Struct.calcsize P)) by lia.
  rewrite (slice_join buf 8) by lia.
  rewrite (slice_join buf 4) by lia.
  rewrite (slice_join buf 0) by lia.
  replace (12 + Struct.calcsize P + 4) with (Py.len buf) by lia.
  apply slice_whole.
Qed.

(** X8: the layout ['4siPii'] of a block header, in either byte order and
    either pointer width, loses nothing: a header with a four-byte tag and
    integers that fit their fields is what [unpack] returns from its
    encoding, and every buffer of the layout's size is the encoding of the
    header that [unpack] returns from it (two buffers that differ give two
    headers that differ). *)
Theorem block_header_round_trip (header : BlendFileInfo) :
  (forall h : BlendBlockHeader,
      head_fits header h ->
      NamedStruct.unpack (BlendBlockHeader_struct header)
        (Encode.block_header header h) = Return h)
  /\ (forall buf : list byte,
         Py.len buf = NamedStruct.size (BlendBlockHeader_struct header) ->
         exists h,
           NamedStruct.unpack (BlendBlockHeader_struct header) buf = Return h
           /\ Encode.block_header header h = buf).
Proof.
  split; [exact (unpack_block_header header)|exact (pack_block_header header)].
Qed.

Lemma block_header_round_trip_witness :
  NamedStruct.unpack (BlendBlockHeader_struct header_v280)
    (Encode.block_header header_v280 (fst (scenario_block "DATA" 5 36)))
  = Return (fst (scenario_block "DATA" 5 36)).
Proof.
  apply (proj1 (block_header_round_trip header_v280)).
  unfold head_fits, fits. cbn. repeat split; lia.
Defined.

(** ** The file header: decoding and encoding *)

Lemma parse_header_bytes (info : BlendFileInfo) :
  version_fits (version info) ->
  parse_header (header_bytes info) = Return (Some info).
Proof.
  destruct info as [[ma mi re] a e]. unfold version_fits, header_bytes.
  cbn [version arch endian VersionInfo.major VersionInfo.minor VersionInfo.rev].
  intros (H1 & H2 & H3).
  change (b "BLENDER" ++ [arch_byte a; endian_byte e; byte.of_Z (ma + 48);
                          byte.of_Z (mi + 48); byte.of_Z (re + 48)])
    with ["B"; "L"; "E"; "N"; "D"; "E"; "R"; arch_byte a; endian_byte e;
          byte.of_Z (ma + 48); byte.of_Z (mi + 48); byte.of_Z (re + 48)]%byte.
  rewrite parse_header_12, !byte.unsigned_of_Z. unfold byte.wrap.
  rewrite !Z.mod_small by lia.
  replace (ma + 48 - 48) with ma by lia.
  replace (mi + 48 - 48) with mi by lia.
  replace (re + 48 - 48) with re by lia.
  destruct a, e; reflexivity.
Qed.

Lemma header_bytes_12 (c0 c1 c2 c3 c4 c5 c6 a e x y z : byte)
  (info : BlendFileInfo) :
  parse_header [c0; c1; c2; c3; c4; c5; c6; a; e; x; y; z]
  = Return (Some info) ->
  header_bytes info = [c0; c1; c2; c3; c4; c5; c6; a; e; x; y; z]
  /\ version_fits (version info).
Proof.
  rewrite parse_header_12.
  destruct (bytes_eqb_spec [c0; c1; c2; c3; c4; c5; c6] (b "BLENDER"))
    as [Ht|Ht]; cbn [andb]; [|discriminate].
  injection Ht as -> -> -> -> -> -> ->.
  destruct (Decidable.Byte.eqb_spec a "-") as [Ha1|Ha1],
    (Decidable.Byte.eqb_spec a "_") as [Ha2|Ha2],
    (Decidable.Byte.eqb_spec e "v") as [He1|He1],
    (Decidable.Byte.eqb_spec e "V") as [He2|He2];
    cbn [orb andb]; try discriminate; subst;
    intros Hp; apply Return_inj in Hp; injection Hp as <-;
    (split;
     [ unfold header_bytes;
       cbn [version arch endian VersionInfo.major VersionInfo.minor
              VersionInfo.rev];
       rewrite !Z.sub_add, !byte.of_Z_unsigned; reflexivity
     | unfold version_fits;
       cbn [version VersionInfo.major VersionInfo.minor VersionInfo.rev];
       pose proof (byte.unsigned_range x);
       pose proof (byte.unsigned_range y);
       pose proof (byte.unsigned_range z);
       change (2 ^ 8) with 256 in *; lia ]).
Qed.

Lemma header_bytes_parsed (header : list byte) (info : BlendFileInfo) :
  parse_header header = Return (Some info) ->
  header_bytes info = header /\ version_fits (version info).
Proof.
  twelve header.
  - apply header_bytes_12.
  - rewrite parse_header_length by assumption. discriminate.
Qed.

(** X9: the twelve header bytes and the [BlendFileInfo] determine each
    other: [parse_header] returns the facts a header was written from
    (version components between -48 and 207, which one byte each can
    carry), and a header that [parse_header] accepts is the one written
    from the facts it returns, so two accepted headers with the same
    facts are equal. *)
Theorem header_round_trip :
  (forall info : BlendFileInfo,
      version_fits (version info) ->
      parse_header (header_bytes info) = Return (Some info))
  /\ (forall (header : list byte) (info : BlendFileInfo),
         parse_header header = Return (Some info) ->
         header_bytes info = header /\ version_fits (version info)).
Proof.
  split; [exact parse_header_bytes|exact header_bytes_parsed].
Qed.

Lemma header_round_trip_witness :
  parse_header (header_bytes header_v280) = Return (Some header_v280).
Proof.
  apply (proj1 header_round_trip header_v280).
  unfold version_fits. cbn. lia.
Defined.

(** ** A written stream of blocks, listed *)

Section Written.

Variable header : BlendFileInfo.

Local Abbreviation hsize := (NamedStruct.size (BlendBlockHeader_struct header)).

Lemma bytes_at_mid (pre mid post contents : list byte) (p n : Z) :
  contents = pre ++ mid ++ post -> p = Py.len pre -> n = Py.len mid ->
  bytes_at contents p n = mid.
Proof.
  intros -> -> ->. unfold bytes_at.
  pose proof (len_nonneg mid).
  destruct (Z.eqb_spec (Py.len mid) (-1)); [lia|].
  unfold Py.len. rewrite !Nat2Z.id.
  now rewrite List.skipn_app_r, List.firstn_app_l.
Qed.

Lemma names_block_header (h : BlendBlockHeader) :
  head_fits header h ->
  NamedStruct.names (BlendBlockHeader_struct header)
    (Encode.block_header header h) = h.
Proof.
  intros Hh. pose proof (unpack_block_header header h Hh) as H.
  unfold NamedStruct.unpack in H.
  rewrite block_header_length, Z.eqb_refl in H by apply Hh.
  now apply Return_inj in H.
Qed.

Lemma block_bytes_length (blk : BlendBlockHeader * list byte) :
  head_fits header (fst blk) ->
  Py.len (block_bytes header blk) = hsize + Py.len (snd blk).
Proof.
  intros Hh. unfold block_bytes.
  now rewrite len_app, block_header_length by apply Hh.
Qed.

Lemma stream_bytes_cons (blk : BlendBlockHeader * list byte) blocks :
  stream_bytes header (blk :: blocks)
  = Encode.block_header header (fst blk) ++ snd blk
    ++ stream_bytes header blocks.
Proof. unfold stream_bytes, block_bytes. cbn. now rewrite <- app_assoc. Qed.

Lemma stream_bytes_app (a c : list (BlendBlockHeader * list byte)) :
  stream_bytes header (a ++ c)
  = stream_bytes header a ++ stream_bytes header c.
Proof. unfold stream_bytes. now rewrite map_app, concat_app. Qed.

Lemma layout_app (a c : list (BlendBlockHeader * list byte)) :
  Forall (block_fits header) a ->
  forall p,
    layout header p (a ++ c)
    = layout header p a
      ++ layout header (p + Py.len (stream_bytes header a)) c.
Proof.
  induction 1 as [|blk a [Hh _] Ha IH]; intros p; cbn [app layout].
  - unfold stream_bytes. cbn. now rewrite Z.add_0_r.
  - rewrite IH. do 3 f_equal.
    rewrite stream_bytes_cons, !len_app.
    rewrite block_header_length by apply Hh. lia.
Qed.

(** The blocks of a written stream, closed by a terminator block, are
    the blocks listed on disk. *)
Lemma blocks_of_stream (blocks : list (BlendBlockHeader * list byte)) :
  Forall (fun blk => block_fits header blk /\ code (fst blk) <> b "ENDB")
    blocks ->
  forall (term : BlendBlockHeader * list byte),
    block_fits header term -> code (fst term) = b "ENDB" ->
    forall (fuel : nat) (pre post contents : list byte) (p : Z),
      (length blocks < fuel)%nat ->
      contents = pre ++ stream_bytes header (blocks ++ [term]) ++ post ->
      p = Py.len pre ->
      blocks_on_disk header contents fuel p
      = (layout header p (blocks ++ [term]), AtTerminator).
Proof.
  intros Hb term [Hth Hts] Htc.
  pose proof (hsize_bounds header) as Hhs.
  assert (step : forall blk rest pre post contents p,
             block_fits header blk ->
             contents = pre ++ stream_bytes header (blk :: rest) ++ post ->
             p = Py.len pre ->
             (p =? Py.len contents) = false
             /\ bytes_at contents p hsize
                = Encode.block_header header (fst blk)
             /\ bytes_at contents (p + hsize) (size (fst blk)) = snd blk).
  { intros blk rest pre post contents p [Hh Hs] Hc Hp.
    rewrite stream_bytes_cons, <- !app_assoc in Hc.
    split; [|split].
    - apply Z.eqb_neq. subst contents p. rewrite !len_app.
      rewrite block_header_length by apply Hh.
      pose proof (len_nonneg (snd blk)).
      pose proof (len_nonneg (stream_bytes header rest)).
      pose proof (len_nonneg post). lia.
    - eapply bytes_at_mid; [exact Hc|exact Hp|].
      now rewrite block_header_length by apply Hh.
    - apply (bytes_at_mid (pre ++ Encode.block_header header (fst blk))
               (snd blk) (stream_bytes header rest ++ post)).
      + now rewrite <- !app_assoc.
      + rewrite len_app, block_header_length by apply Hh. lia.
      + exact Hs. }
  induction Hb as [|blk blocks [Hf Hc] Hb IH];
    intros fuel pre post contents p Hfuel Hcontents Hp;
    (destruct fuel as [|fuel]; [cbn [length] in Hfuel; lia|]).
  - cbn [app] in *. rewrite blocks_on_disk_S.
    destruct (step term [] pre post contents p (conj Hth Hts) Hcontents Hp)
      as (E1 & E2 & E3).
    rewrite E1, E2, block_header_length, Z.eqb_refl by apply Hth.
    rewrite names_block_header by assumption.
    destruct (Z.ltb_spec (size (fst term)) (-1)) as [L|L];
      [pose proof (len_nonneg (snd term)); lia|].
    rewrite Htc. change (bytes_eqb (b "ENDB") (b "ENDB")) with true.
    reflexivity.
  - cbn [app] in *. rewrite blocks_on_disk_S.
    destruct (step blk (blocks ++ [term]) pre post contents p Hf Hcontents Hp)
      as (E1 & E2 & E3).
    destruct Hf as [Hh Hs].
    rewrite E1, E2, block_header_length, Z.eqb_refl by apply Hh.
    rewrite names_block_header by assumption.
    destruct (Z.ltb_spec (size (fst blk)) (-1)) as [L|L];
      [pose proof (len_nonneg (snd blk)); lia|].
    rewrite (bytes_eqb_neq _ _ Hc), E3.
    rewrite (IH fuel (pre ++ block_bytes header blk) post contents
               (p + hsize + Py.len (snd blk))).
    + reflexivity.
    + cbn [length] in Hfuel. lia.
    + rewrite Hcontents, stream_bytes_cons. unfold block_bytes.
      now rewrite <- !app_assoc.
    + rewrite len_app, block_bytes_length by assumption. lia.
Qed.

Lemma stream_bytes_long (blocks : list (BlendBlockHeader * list byte)) :
  Forall (block_fits header) blocks ->
  Z.of_nat (length blocks) <= Py.len (stream_bytes header blocks).
Proof.
  pose proof (hsize_bounds header) as Hhs.
  induction 1 as [|blk blocks [Hh _] Hb IH]; [cbn; lia|].
  rewrite stream_bytes_cons, !len_app, block_header_length by apply Hh.
  pose proof (len_nonneg (snd blk)). cbn [length]. lia.
Qed.

End Written.

(** ** A written file, loaded *)

Section Loaded.

Variable info : BlendFileInfo.

Local Abbreviation hsize := (NamedStruct.size (BlendBlockHeader_struct info)).

Lemma layout_plain (data : list (BlendBlockHeader * list byte)) :
  Forall (plain_block info) data ->
  forall p,
    Forall (fun x => tagged "DNA1" x = false) (layout info p data)
    /\ filter data_block (layout info p data) = layout info p data.
Proof.
  induction 1 as [|blk data (_ & H1 & H2) Hd IH]; intros p;
    cbn [layout filter]; [split; [constructor|reflexivity]|].
  destruct (IH (p + hsize + Py.len (snd blk))) as [IH1 IH2].
  assert (Ht : tagged "DNA1" (fst blk, p + hsize) = false)
    by (unfold tagged; cbn [fst]; now apply bytes_eqb_neq).
  split; [constructor; assumption|].
  unfold data_block at 1. rewrite Ht. unfold tagged. cbn [fst negb andb].
  rewrite (bytes_eqb_neq _ _ H2). cbn [negb]. now rewrite IH2.
Qed.

Lemma decode_schemas_single (contents : list byte)
  (w1 w2 : list (BlendBlockHeader * Z)) (blk : BlendBlockHeader * Z)
  (index : BlendIndex) (o : Z) :
  Forall (fun x => tagged "DNA1" x = false) w1 ->
  tagged "DNA1" blk = true ->
  parse_index_data info (bytes_at contents (snd blk) (size (fst blk)))
  = Return (index, o) ->
  Forall (fun x => tagged "DNA1" x = false) w2 ->
  forall current,
    decode_schemas info contents (w1 ++ blk :: w2) current
    = Return (Some index).
Proof.
  intros H1 Ht Hp H2.
  induction H1 as [|x w1 Hx H1 IH]; intros current; cbn [app decode_schemas].
  - rewrite Ht, Hp. cbn [bind].
    now rewrite (decode_schemas_none info
                   {| Py.contents := contents; Py.pos := 0 |} w2).
  - rewrite Hx. apply IH.
Qed.

(** [_parse_blocks] on a written file: data blocks, the index block,
    data blocks, the terminator, and anything after it. *)
Lemma parse_blocks_written (fill : byte)
  (data1 data2 : list (BlendBlockHeader * list byte))
  (dna term : BlendBlockHeader * list byte)
  names types structures (trailing : list byte) :
  Forall (plain_block info) data1 -> Forall (plain_block info) data2 ->
  encodable names types structures ->
  block_fits info dna -> code (fst dna) = b "DNA1" ->
  snd dna = Encode.schema (endian info) fill names types structures ->
  block_fits info term -> code (fst term) = b "ENDB" ->
  forall (pre : list byte) (position : Z),
    Py.len pre = 12 ->
    exists final,
      _parse_blocks info
        {| Py.contents :=
             pre ++ stream_bytes info ((data1 ++ dna :: data2) ++ [term])
                 ++ trailing;
           Py.pos := position |}
      = Some (Return
                (layout info 12 data1
                 ++ layout info
                      (12 + Py.len (stream_bytes info (data1 ++ [dna])))
                      data2,
                 {| names := names; types := types;
                    structures := structures |},
                 {| Py.contents :=
                      pre ++ stream_bytes info
                               ((data1 ++ dna :: data2) ++ [term])
                          ++ trailing;
                    Py.pos := final |})).
Proof.
  intros Hd1 Hd2 Henc Hdna Hdc Hpay Hterm Htc pre position Hpre.
  set (blocks := data1 ++ dna :: data2).
  set (contents := pre ++ stream_bytes info (blocks ++ [term]) ++ trailing).
  set (h := {| Py.contents := contents; Py.pos := position |}).
  pose proof (hsize_bounds info) as Hhs.
  assert (Hf1 : Forall (block_fits info) data1)
    by (eapply Forall_impl; [|exact Hd1]; now intros x [H _]).
  assert (Hf2 : Forall (block_fits info) data2)
    by (eapply Forall_impl; [|exact Hd2]; now intros x [H _]).
  assert (Hblocks : Forall (fun blk => block_fits info blk
                                       /\ code (fst blk) <> b "ENDB") blocks).
  { subst blocks. apply Forall_app. split; [|constructor].
    - eapply Forall_impl; [|exact Hd1]. now intros x (H & _ & H').
    - split; [exact Hdna|]. rewrite Hdc. discriminate.
    - eapply Forall_impl; [|exact Hd2]. now intros x (H & _ & H'). }
  assert (Hfits : Forall (block_fits info) blocks)
    by (eapply Forall_impl; [|exact Hblocks]; now intros x [H _]).
  (* the blocks on disk *)
  assert (Hw : blocks_on_disk info (Py.contents h)
                 (S (length (Py.contents h))) 12
               = (layout info 12 (blocks ++ [term]), AtTerminator)).
  { apply (blocks_of_stream info blocks Hblocks term Hterm Htc
             _ pre trailing); [|reflexivity|now symmetry].
    pose proof (stream_bytes_long info blocks Hfits) as Hl.
    cbn [Py.contents h]. subst contents.
    rewrite !length_app. unfold Py.len in Hl.
    rewrite stream_bytes_app, length_app. lia. }
  destruct (parse_blocks_scanned info h _ _ Hw) as [final Hfinal].
  exists final. rewrite Hfinal. clear Hfinal Hw.
  (* the layout, taken apart *)
  set (p1 := 12 + Py.len (stream_bytes info data1)).
  assert (Hl : layout info 12 (blocks ++ [term])
               = layout info 12 data1
                 ++ (fst dna, p1 + hsize)
                 :: layout info
                      (12 + Py.len (stream_bytes info (data1 ++ [dna])))
                      data2
                 ++ [(fst term,
                      12 + Py.len (stream_bytes info (data1 ++ [dna]))
                      + Py.len (stream_bytes info data2) + hsize)]).
  { subst blocks. rewrite <- app_assoc. cbn [app].
    rewrite (layout_app info data1) by assumption. fold p1.
    cbn [layout]. f_equal. f_equal.
    replace (p1 + hsize + Py.len (snd dna))
      with (12 + Py.len (stream_bytes info (data1 ++ [dna]))).
    - rewrite (layout_app info data2) by assumption. reflexivity.
    - rewrite stream_bytes_app, len_app.
      unfold stream_bytes at 2. cbn [map concat]. rewrite app_nil_r.
      rewrite block_bytes_length by apply Hdna. subst p1. lia. }
  rewrite Hl. clear Hl.
  destruct (layout_plain data1 Hd1 12) as [T1 F1].
  destruct (layout_plain data2 Hd2
              (12 + Py.len (stream_bytes info (data1 ++ [dna]))))
    as [T2 F2].
  assert (Td : tagged "DNA1" (fst dna, p1 + hsize) = true)
    by (unfold tagged; cbn [fst]; rewrite Hdc; reflexivity).
  assert (Tt : forall q, tagged "DNA1" (fst term, q) = false)
    by (intros q; unfold tagged; cbn [fst]; rewrite Htc; reflexivity).
  assert (Dt : forall q, data_block (fst term, q) = false)
    by (intros q; unfold data_block, tagged; cbn [fst]; rewrite Htc;
        reflexivity).
  (* the payload of the index block *)
  assert (Hp : parse_index_data info
                 (bytes_at contents (p1 + hsize) (size (fst dna)))
               = Return ({| names := names; types := types;
                            structures := structures |},
                         Py.len (snd dna))).
  { rewrite (bytes_at_mid
               (pre ++ stream_bytes info data1
                    ++ Encode.block_header info (fst dna))
               (snd dna)
               (stream_bytes info (data2 ++ [term]) ++ trailing)).
    - rewrite Hpay.
      pose proof (parse_index_encoded info (b "TLEN") fill names types
                    structures [] Henc eq_refl) as H.
      rewrite app_nil_r in H. exact H.
    - subst contents blocks.
      rewrite <- !app_assoc. cbn [app].
      rewrite !stream_bytes_app, stream_bytes_cons, ?stream_bytes_app,
        <- !app_assoc.
      reflexivity.
    - rewrite !len_app, block_header_length by apply Hdna.
      subst p1. lia.
    - apply Hdna. }
  unfold scanned.
  cbn [handle blend_index Py.contents h file_block_heads end_found].
  rewrite (decode_schemas_single contents _ _ _ _ _ T1 Td Hp).
  2:{ apply Forall_app. split; [exact T2|]. constructor; [apply Tt|constructor]. }
  cbn [blend_index end_found eqb file_block_heads handle app].
  rewrite !filter_app. cbn [filter].
  unfold data_block at 2. rewrite Td. cbn [negb andb].
  rewrite filter_app. cbn [filter]. rewrite Dt, F1, F2, app_nil_r.
  reflexivity.
Qed.

End Loaded.

(** X10: a file written as the format asks is loaded back: the header,
    any data blocks, an index block holding an encoded schema, any data
    blocks, the terminator, and any bytes after it.  [__init__] returns
    the facts of the header, the data blocks in order with the offsets of
    their payloads, and the schema; what follows the terminator is not
    looked at. *)
Theorem written_file_loads (info : BlendFileInfo) (fill : byte)
  (data1 data2 : list (BlendBlockHeader * list byte))
  (dna term : BlendBlockHeader * list byte)
  (names : list (list byte)) (types : list (list byte * Z))
  (structures : list BlendStructRef) (trailing : list byte) :
  version_fits (version info) ->
  Forall (plain_block info) data1 -> Forall (plain_block info) data2 ->
  encodable names types structures ->
  block_fits info dna -> code (fst dna) = b "DNA1" ->
  snd dna = Encode.schema (endian info) fill names types structures ->
  block_fits info term -> code (fst term) = b "ENDB" ->
  exists h',
    __init__ (header_bytes info
              ++ stream_bytes info ((data1 ++ dna :: data2) ++ [term])
              ++ trailing)
    = Some (Return
              {| self_header := info; self_handle := h';
                 self_blocks :=
                   layout info 12 data1
                   ++ layout info
                        (12 + Py.len (stream_bytes info (data1 ++ [dna])))
                        data2;
                 self_index := {| names := names; types := types;
                                  structures := structures |} |}).
Proof.
  intros Hv Hd1 Hd2 Henc Hdna Hdc Hpay Hterm Htc.
  set (file := header_bytes info
               ++ stream_bytes info ((data1 ++ dna :: data2) ++ [term])
               ++ trailing).
  assert (Hr : read_header {| Py.contents := file; Py.pos := 0 |}
               = Return (info, {| Py.contents := file; Py.pos := 12 |})).
  { unfold read_header.
    pose proof (read_at [] (header_bytes info)
                  (stream_bytes info ((data1 ++ dna :: data2) ++ [term])
                   ++ trailing) 12 eq_refl) as R.
    cbn [app] in R. fold file in R.
    change (Py.len []) with 0 in R. rewrite R. cbn [bind].
    rewrite parse_header_bytes by assumption. reflexivity. }
  destruct (parse_blocks_written info fill data1 data2 dna term names types
              structures trailing Hd1 Hd2 Henc Hdna Hdc Hpay Hterm Htc
              (header_bytes info) 12 eq_refl) as [final Hfinal].
  fold file in Hfinal.
  eexists. unfold __init__. rewrite Hr, Hfinal. reflexivity.
Qed.

Lemma written_file_loads_witness :
  exists h',
    __init__ written_file
    = Some (Return
              {| self_header := header_v280; self_handle := h';
                 self_blocks := [(data_head "DATA" 5, 36);
                                 (data_head "REND" 3, 141)];
                 self_index := scenario_index |}).
Proof.
  apply (written_file_loads header_v280 x00
           [(data_head "DATA" 5, b "hello")] [(data_head "REND" 3, b "abc")]
           (data_head "DNA1" 52, scenario_payload) (data_head "ENDB" 0, [])
           [b "ob"] [(b "int", 4)] scenario_structures (b "trailing bytes")).
  - unfold version_fits. cbn. lia.
  - constructor; [|constructor].
    unfold plain_block, block_fits, head_fits, fits. cbn.
    repeat split; try lia; discriminate.
  - constructor; [|constructor].
    unfold plain_block, block_fits, head_fits, fits. cbn.
    repeat split; try lia; discriminate.
  - exact scenario_encodable.
  - unfold block_fits, head_fits, fits. cbn. repeat split; lia.
  - reflexivity.
  - reflexivity.
  - unfold block_fits, head_fits, fits. cbn. repeat split; lia.
  - reflexivity.
Defined.

(** ** More on the schema decoder *)

(** X11: the schema decoder stops at the end of the last structure: the
    bytes that follow an encoded schema in the payload change nothing,
    and the offset it ends at is the length of the encoded schema,
    whatever byte fills the alignment gaps. *)
Theorem schema_tail_ignored (header : BlendFileInfo) (fill : byte)
  (names : list (list byte)) (types : list (list byte * Z))
  (structures : list BlendStructRef) (extra : list byte) :
  encodable names types structures ->
  parse_index_data header
    (Encode.schema (endian header) fill names types structures ++ extra)
  = Return ({| names := names; types := types; structures := structures |},
            Py.len (Encode.schema (endian header) fill names types
                      structures)).
Proof.
  intros Henc.
  exact (parse_index_encoded header (b "TLEN") fill names types structures
           extra Henc eq_refl).
Qed.

Lemma schema_tail_ignored_witness :
  parse_index_data header_v280 (scenario_payload ++ b "anything")
  = Return (scenario_index, 52).
Proof.
  exact (schema_tail_ignored header_v280 x00 [b "ob"] [(b "int", 4)]
           scenario_structures (b "anything") scenario_encodable).
Defined.

Lemma short_payload_malformed (header : BlendFileInfo) (data : list byte) :
  Py.len data < 8 -> parse_index_data header data = Raise MalformedIndex.
Proof.
  intros Hl. unfold parse_index_data.
  rewrite bytes_eqb_neq; [reflexivity|].
  intros H. apply (f_equal (@length byte)) in H.
  unfold Py.slice in H. rewrite length_firstn, length_skipn in H.
  change (length (b "SDNANAME")) with 8%nat in H.
  rewrite !adjust_nonneg in H by lia. unfold Py.len in *. lia.
Qed.

(** X12: a payload of fewer than 8 bytes (the payload of an index block of
    size 0 to 7, or one cut short by the end of the file) is a
    [Malformed index]; a payload that has the tag ["SDNANAME"] but fewer
    than 4 bytes after it raises [struct.error] instead, from the read of
    the name count. *)
Theorem short_payload_errors (header : BlendFileInfo) :
  (forall data : list byte,
      Py.len data < 8 -> parse_index_data header data = Raise MalformedIndex)
  /\ (forall (head : BlendBlockHeader) (data_offset : Z) (h : Py.file),
         0 <= size head < 8 ->
         _parse_index header head data_offset h = Raise MalformedIndex)
  /\ (forall data : list byte,
         Py.slice data 0 8 = b "SDNANAME" -> Py.len data < 12 ->
         parse_index_data header data = Raise struct_error).
Proof.
  split; [exact (short_payload_malformed header)|split].
  - intros head data_offset h Hs. unfold _parse_index.
    rewrite read_bytes_at by lia. cbn [bind].
    rewrite short_payload_malformed; [reflexivity|].
    unfold bytes_at, Py.len.
    destruct (Z.eqb_spec (size head) (-1)); [lia|].
    rewrite length_firstn. lia.
  - intros data Ht Hl. unfold parse_index_data.
    rewrite Ht. change (bytes_eqb (b "SDNANAME") (b "SDNANAME")) with true.
    cbn [negb]. unfold read_names, NamedStruct.unpack_from.
    cbn [NamedStruct.size Int Struct.calcsize].
    change (8 <? 0) with false. cbn [andb].
    destruct (Z.ltb_spec (Py.len data - 8) 4); [reflexivity|lia].
Qed.

Lemma short_payload_errors_witness :
  parse_index_data header_v280 (b "SDNA") = Raise MalformedIndex
  /\ parse_index_data header_v280 (b "SDNANAME..") = Raise struct_error.
Proof.
  split.
  - apply (proj1 (short_payload_errors header_v280)). vm_compute. reflexivity.
  - apply (proj2 (proj2 (short_payload_errors header_v280))).
    + reflexivity.
    + vm_compute. reflexivity.
Defined.

(** X13: [align] takes an offset to the least multiple of 4 that is not
    below it, for negative offsets too (the remainder of Python's [%] has
    the sign of the divisor): it never moves the offset back, moves it by
    3 at most, and leaves a multiple of 4 where it is. *)
Theorem align_least_multiple (o : Z) :
  o <= align o < o + 4
  /\ align o mod 4 = 0
  /\ (forall m : Z, m mod 4 = 0 -> o <= m -> align o <= m)
  /\ align (align o) = align o.
Proof.
  assert (A : o <= align o < o + 4 /\ align o mod 4 = 0).
  { unfold align. pose proof (Z.mod_pos_bound o 4 ltac:(lia)).
    destruct (Z.eqb_spec (o mod 4) 0).
    - rewrite Z.add_0_r. split; [lia|assumption].
    - split; [lia|]. Z.div_mod_to_equations. lia. }
  destruct A as [A1 A2]. repeat split; try lia; try assumption.
  - intros m Hm Ho. Z.div_mod_to_equations. lia.
  - unfold align at 1. rewrite A2. cbn. lia.
Qed.

Lemma align_least_multiple_witness : align 13 <= 16.
Proof.
  apply (proj1 (proj2 (proj2 (align_least_multiple 13))) 16).
  - reflexivity.
  - discriminate.
Defined.

(** *** How many names, types and structures *)

Section Counts.

Variable header : BlendFileInfo.

Lemma split_length (sep : byte) (data : list byte) : forall m : Z,
  0 <= m -> Py.len (Py.split sep m data) <= m + 1.
Proof.
  induction data as [|c data IH]; intros m Hm; cbn [Py.split].
  - unfold Py.len. cbn. lia.
  - destruct (Z.eqb_spec m 0); [unfold Py.len; cbn; lia|].
    destruct (Byte.eqb c sep).
    + destruct (Z.ltb_spec m 0); [lia|].
      specialize (IH (m - 1) ltac:(lia)).
      unfold Py.len in *. cbn [length]. lia.
    + specialize (IH m Hm).
      destruct (Py.split sep m data) as [|piece pieces];
        unfold Py.len in *; cbn [length] in *; lia.
Qed.

Lemma drop_last_length {A} (l : list A) :
  Py.len (Py.drop_last l) = Z.max 0 (Py.len l - 1).
Proof.
  unfold Py.drop_last, Py.len.
  induction l as [|x l IH]; [reflexivity|].
  destruct l as [|y l]; [reflexivity|].
  change (removelast (x :: y :: l)) with (x :: removelast (y :: l)).
  cbn [length] in *. lia.
Qed.

Lemma names_within_count (sep : byte) (m : Z) (data : list byte) :
  0 <= m -> Py.len (Py.drop_last (Py.split sep m data)) <= m.
Proof.
  intros Hm. rewrite drop_last_length.
  pose proof (split_length sep data m Hm). lia.
Qed.

Lemma read_fields_length (n : nat) : forall data offset fs o,
  read_fields header n data offset = Return (fs, o) -> length fs = n.
Proof.
  induction n as [|n IH]; intros data offset fs o; cbn [read_fields].
  - now intros [= <- _].
  - destruct (NamedStruct.unpack_from _ _ _); cbn [bind]; [|discriminate].
    destruct (read_fields header n data (offset + 4)) as [[fs' o']|] eqn:E;
      cbn [bind]; [|discriminate].
    intros [= <- _]. cbn [length]. f_equal. eapply IH, E.
Qed.

Lemma read_structures_length (n : nat) : forall data offset ss o,
  read_structures header n data offset = Return (ss, o) -> length ss = n.
Proof.
  induction n as [|n IH]; intros data offset ss o; cbn [read_structures].
  - now intros [= <- _].
  - destruct (NamedStruct.unpack_from (Short header) data offset);
      cbn [bind]; [|discriminate].
    destruct (NamedStruct.unpack_from (Short header) data (offset + 2));
      cbn [bind]; [|discriminate].
    destruct (read_fields _ _ _ _) as [[fs o1]|]; cbn [bind]; [|discriminate].
    destruct (read_structures header n data o1) as [[ss' o2]|] eqn:E;
      cbn [bind]; [|discriminate].
    intros [= <- _]. cbn [length]. f_equal. eapply IH, E.
Qed.

End Counts.

(** X14: the index that the schema decoder returns holds no more names
    than the name count stored in the payload and no more types than the
    stored type count (when these counts are not negative), and exactly
    as many structures as the stored structure count, none when that
    count is negative. *)
Theorem index_within_counts (header : BlendFileInfo) (data : list byte)
  (index : BlendIndex) (o : Z) :
  parse_index_data header data = Return (index, o) ->
  exists name_count o2 type_names type_count o3 o4 structure_count,
    NamedStruct.unpack_from (Int header) data 8 = Return name_count
    /\ read_names header data 8 = Return (names index, o2)
    /\ (0 <= name_count -> Py.len (names index) <= name_count)
    /\ read_type_names header data o2 = Return (type_names, type_count, o3)
    /\ (0 <= type_count -> Py.len (types index) <= type_count)
    /\ read_types header data type_names type_count o3
       = Return (types index, o4)
    /\ NamedStruct.unpack_from (Int header) data (o4 + 4)
       = Return structure_count
    /\ Py.len (structures index) = Z.max 0 structure_count.
Proof.
  unfold parse_index_data.
  destruct (negb _); [discriminate|].
  destruct (read_names header data 8) as [[names o2]|] eqn:E1; cbn [bind];
    [|discriminate].
  destruct (negb _); [discriminate|].
  destruct (read_type_names header data o2) as [[[tn tc] o3]|] eqn:E2;
    cbn [bind]; [|discriminate].
  destruct (negb _); [discriminate|].
  destruct (read_types header data tn tc o3) as [[tys o4]|] eqn:E3;
    cbn [bind]; [|discriminate].
  destruct (negb _); [discriminate|].
  replace (o4 + 8 - 4) with (o4 + 4) by lia.
  destruct (NamedStruct.unpack_from (Int header) data (o4 + 4)) as [sc|] eqn:E4;
    cbn [bind]; [|discriminate].
  destruct (read_structures _ _ _ _) as [[ss o5]|] eqn:E5; cbn [bind];
    [|discriminate].
  intros H. apply Return_inj in H.
  assert (Hi : index = {| names := names; types := tys; structures := ss |})
    by congruence.
  subst index. cbn [BlenderFile.names types structures]. clear H.
  unfold read_names in E1.
  destruct (NamedStruct.unpack_from (Int header) data 8) as [nc|] eqn:E0;
    cbn [bind] in E1; [|discriminate].
  assert (Hn : names = Py.drop_last
                         (Py.split x00 nc (Py.slice_from data (8 + 4))))
    by congruence.
  assert (E1' : read_names header data 8 = Return (names, o2)).
  { unfold read_names. rewrite E0. cbn [bind]. exact E1. }
  pose proof E2 as E2'. unfold read_type_names in E2.
  destruct (NamedStruct.unpack_from (Int header) data (o2 + 4)) as [tc'|];
    cbn [bind] in E2; [|discriminate].
  assert (Htn : tn = Py.drop_last
                       (Py.split x00 tc' (Py.slice_from data (o2 + 8)))
                /\ tc = tc') by (split; congruence).
  destruct Htn as [Htn <-].
  pose proof E3 as E3'. unfold read_types in E3.
  destruct (NamedStruct.iter_unpack _ _) as [sizes|]; cbn [bind] in E3;
    [|discriminate].
  assert (Hty : tys = combine tn sizes) by congruence.
  exists nc, o2, tn, tc, o3, o4, sc.
  repeat split; try assumption.
  - intros Hc. subst names. now apply names_within_count.
  - intros Hc. subst tys. unfold Py.len. rewrite length_combine.
    pose proof (names_within_count x00 tc (Py.slice_from data (o2 + 8)) Hc)
      as L.
    rewrite <- Htn in L. unfold Py.len in L. lia.
  - apply read_structures_length in E5. unfold Py.len, Py.range in *. lia.
Qed.

Lemma index_within_counts_witness :
  exists name_count o2 type_names type_count o3 o4 structure_count,
    NamedStruct.unpack_from (Int header_v280) scenario_payload 8
    = Return name_count
    /\ read_names header_v280 scenario_payload 8
       = Return (names scenario_index, o2)
    /\ (0 <= name_count -> Py.len (names scenario_index) <= name_count)
    /\ read_type_names header_v280 scenario_payload o2
       = Return (type_names, type_count, o3)
    /\ (0 <= type_count -> Py.len (types scenario_index) <= type_count)
    /\ read_types header_v280 scenario_payload type_names type_count o3
       = Return (types scenario_index, o4)
    /\ NamedStruct.unpack_from (Int header_v280) scenario_payload (o4 + 4)
       = Return structure_count
    /\ Py.len (structures scenario_index) = Z.max 0 structure_count.
Proof.
  apply (index_within_counts header_v280 scenario_payload scenario_index 52).
  vm_compute. reflexivity.
Defined.

(** ** The formats of the loader *)

Section Formats.

Lemma has_char_append (c : Ascii.ascii) (s t : string) :
  has_char c (String.append s t) = has_char c s || has_char c t.
Proof.
  induction s as [|d s IH]; [reflexivity|].
  cbn [String.append has_char]. rewrite IH. apply orb_assoc.
Qed.

Lemma str_replace_gone (old : Ascii.ascii) (new s : string) :
  has_char old new = false -> has_char old (str_replace old new s) = false.
Proof.
  intros Hn. induction s as [|c s IH]; [reflexivity|].
  cbn [str_replace]. destruct (Ascii.eqb c old) eqn:E.
  - now rewrite has_char_append, Hn, IH.
  - cbn [has_char]. now rewrite E, IH.
Qed.

Lemma str_replace_length (old new : Ascii.ascii) (s : string) :
  String.length (str_replace old (String new EmptyString) s)
  = String.length s.
Proof.
  induction s as [|c s IH]; [reflexivity|].
  cbn [str_replace]. destruct (Ascii.eqb c old); cbn; now rewrite IH.
Qed.

Lemma str_replace_get (old new : Ascii.ascii) (s : string) : forall n : nat,
  String.get n (str_replace old (String new EmptyString) s)
  = match String.get n s with
    | Some c => Some (if Ascii.eqb c old then new else c)
    | None => None
    end.
Proof.
  induction s as [|c s IH]; intros n; [reflexivity|].
  cbn [str_replace].
  destruct (Ascii.eqb c old) eqn:E; destruct n as [|n]; cbn;
    rewrite ?E, ?IH; reflexivity.
Qed.

Lemma str_replace_absent (old : Ascii.ascii) (new s : string) :
  has_char old s = false -> str_replace old new s = s.
Proof.
  induction s as [|c s IH]; [reflexivity|].
  cbn [has_char str_replace]. intros H.
  apply orb_false_iff in H. destruct H as [E H].
  now rewrite E, IH.
Qed.

End Formats.

(** X15: the format that [_fmt_strct] builds is the byte-order character
    of the header (['<'] for a little-endian file, ['>'] for a big-endian
    one) followed by the format given, of the same length, in which every
    ['P'] has become the character of the header's pointer width (['I']
    for 32 bits, ['Q'] for 64) and every other character is kept: no ['P']
    is left, and a format without ['P'] is only prefixed. *)
Theorem formats_of_the_loader (header : BlendFileInfo) (fmt : string) :
  exists rest : string,
    _fmt_strct header fmt
    = String (match endian header with
              | Little => "<"%char
              | Big => ">"%char
              end) rest
    /\ String.length rest = String.length fmt
    /\ has_char "P"%char rest = false
    /\ (forall n : nat,
           String.get n rest
           = match String.get n fmt with
             | Some c =>
                 Some (if Ascii.eqb c "P"%char
                       then match arch header with
                            | X32 => "I"%char
                            | X64 => "Q"%char
                            end
                       else c)
             | None => None
             end)
    /\ (has_char "P"%char fmt = false -> rest = fmt).
Proof.
  exists (str_replace "P"%char (Arch_string (arch header)) fmt).
  split; [|split; [|split; [|split]]].
  - unfold _fmt_strct. destruct (endian header); reflexivity.
  - destruct (arch header); apply str_replace_length.
  - apply str_replace_gone. destruct (arch header); reflexivity.
  - intros n. destruct (arch header); apply str_replace_get.
  - apply str_replace_absent.
Qed.

Lemma formats_of_the_loader_witness :
  _fmt_strct header_v280 "hh" = "<hh"%string.
Proof.
  destruct (formats_of_the_loader header_v280 "hh")
    as (rest & E & _ & _ & _ & H).
  rewrite E, (H eq_refl). reflexivity.
Defined.

(** ** Payloads inside the file *)

Section Inside.

Variable header : BlendFileInfo.
Variable contents : list byte.

Local Abbreviation hsize := (NamedStruct.size (BlendBlockHeader_struct header)).

(** When the list of blocks ends with the terminator, every block before
    it has its whole payload in the file, a block header at least before
    the payload of the terminator. *)
Lemma blocks_inside (fuel : nat) : forall (p : Z) w,
  0 <= p ->
  blocks_on_disk header contents fuel p = (w, AtTerminator) ->
  exists w' blk,
    w = w' ++ [blk] /\ tagged "ENDB" blk = true
    /\ p + hsize <= snd blk <= Py.len contents
    /\ Forall (fun x => p + hsize <= snd x /\ 0 <= size (fst x)
                        /\ snd x + size (fst x) + hsize <= snd blk) w'.
Proof.
  pose proof (hsize_bounds header) as Hhs.
  induction fuel as [|fuel IH]; intros p w Hp;
    rewrite ?blocks_on_disk_O, ?blocks_on_disk_S.
  - destruct (p =? Py.len contents); intros H;
      apply pair_equal_spec in H; destruct H as [_ H]; discriminate H.
  - destruct (p =? Py.len contents);
      [intros H; apply pair_equal_spec in H; destruct H as [_ H];
       discriminate H|].
    set (buf := bytes_at contents p hsize).
    set (head := NamedStruct.names (BlendBlockHeader_struct header) buf).
    destruct (Z.eqb_spec (Py.len buf) hsize) as [Hb|Hb];
      [|intros H; apply pair_equal_spec in H; destruct H as [_ H];
        discriminate H].
    assert (Hin : p + hsize <= Py.len contents).
    { subst buf. unfold bytes_at, Py.len in Hb |- *.
      destruct (hsize =? -1); rewrite ?length_firstn, length_skipn in Hb; lia. }
    destruct (Z.ltb_spec (size head) (-1)) as [Hs|Hs];
      [intros H; apply pair_equal_spec in H; destruct H as [_ H];
       discriminate H|].
    destruct (bytes_eqb (code head) (b "ENDB")) eqn:He.
    + intros H. apply pair_equal_spec in H. destruct H as [<- _].
      exists [], (head, p + hsize).
      change (snd (head, p + hsize)) with (p + hsize).
      repeat split; [exact He|lia|lia|constructor].
    + set (payload := bytes_at contents (p + hsize) (size head)).
      destruct (blocks_on_disk header contents fuel
                  (p + hsize + Py.len payload)) as [w1 e1] eqn:Ew.
      intros H. apply pair_equal_spec in H. destruct H as [<- ->].
      pose proof (len_nonneg payload) as Hpl.
      destruct (IH (p + hsize + Py.len payload) w1 ltac:(lia) Ew)
        as (w' & blk & -> & Ht & Hblk & Hw').
      exists ((head, p + hsize) :: w'), blk. repeat split.
      * exact Ht.
      * lia.
      * lia.
      * assert (Hlen : Py.len payload = size head /\ 0 <= size head).
        { subst payload. unfold bytes_at, Py.len in Hblk, Hpl |- *.
          destruct (Z.eqb_spec (size head) (-1)).
          - rewrite length_skipn in Hblk. lia.
          - rewrite length_firstn, length_skipn in Hblk |- *. lia. }
        constructor.
        -- change (fst (head, p + hsize)) with head.
           change (snd (head, p + hsize)) with (p + hsize). lia.
        -- eapply Forall_impl; [|exact Hw']. intros x (H1 & H2 & H3).
           repeat split; lia.
Qed.

Lemma decode_schemas_index (w : list (BlendBlockHeader * Z)) :
  forall current index,
    decode_schemas header contents w current = Return (Some index) ->
    current <> None \/ Exists (fun x => tagged "DNA1" x = true) w.
Proof.
  induction w as [|x w IH]; intros current index; cbn [decode_schemas].
  - intros H. left. apply Return_inj in H. congruence.
  - destruct (tagged "DNA1" x) eqn:Ht.
    + intros _. right. now left.
    + intros H. destruct (IH _ _ H) as [Hc|Hx]; [now left|right; now right].
Qed.

End Inside.

(** X16: in the directory that [_parse_blocks] returns, every block has
    its whole payload inside the file: its size is not negative and its
    payload offset plus its size is at most the length of the file.  (A
    block whose payload is cut short by the end of the file, or whose
    size is -1, ends the scan without a terminator.) *)
Theorem directory_payloads_inside (header : BlendFileInfo) (h : Py.file)
  (dir : list (BlendBlockHeader * Z)) (index : BlendIndex) (h' : Py.file) :
  _parse_blocks header h = Some (Return (dir, index, h')) ->
  Forall (fun blk =>
            0 <= size (fst blk)
            /\ 12 + NamedStruct.size (BlendBlockHeader_struct header)
               <= snd blk
            /\ snd blk + size (fst blk) <= Py.len (Py.contents h)
            /\ Py.len (bytes_at (Py.contents h) (snd blk) (size (fst blk)))
               = size (fst blk)) dir.
Proof.
  intros Hr.
  destruct (blocks_on_disk header (Py.contents h)
              (S (length (Py.contents h))) 12) as [w ending] eqn:Hw.
  destruct (parse_blocks_returned header h w ending dir index h' Hw Hr)
    as (-> & -> & _).
  destruct (blocks_inside header (Py.contents h) _ 12 w ltac:(lia) Hw)
    as (w' & blk & -> & _ & Hblk & Hw').
  pose proof (hsize_bounds header) as Hhs.
  apply Forall_forall. intros x Hx. apply filter_In in Hx as [Hx Hd].
  apply in_app_or in Hx as [Hx|[<-|[]]].
  - rewrite Forall_forall in Hw'. destruct (Hw' x Hx) as (H1 & H2 & H3).
    repeat split; try lia.
    apply bytes_at_full; lia.
  - destruct (blocks_terminator header (Py.contents h) _ _ _ _ Hw)
      as [Ht _].
    destruct (Ht eq_refl) as (w0 & blk0 & E & Hb0 & _).
    apply app_inj_tail in E as [_ <-].
    unfold data_block in Hd. rewrite Hb0 in Hd.
    rewrite andb_false_r in Hd. discriminate Hd.
Qed.

Lemma directory_payloads_inside_witness :
  Forall (fun blk =>
            0 <= size (fst blk)
            /\ 12 + NamedStruct.size (BlendBlockHeader_struct header_v280)
               <= snd blk
            /\ snd blk + size (fst blk)
               <= Py.len (Py.contents (opened scenario_file))
            /\ Py.len (bytes_at (Py.contents (opened scenario_file))
                         (snd blk) (size (fst blk)))
               = size (fst blk)) [scenario_block "DATA" 5 36].
Proof.
  apply (directory_payloads_inside header_v280 (opened scenario_file)
           [scenario_block "DATA" 5 36] scenario_index
           {| Py.contents := scenario_file; Py.pos := 143 |}).
  vm_compute. reflexivity.
Defined.

(** X17: a file that [_parse_blocks] accepts holds the headers of two
    blocks at least, the index and the terminator, after the twelve bytes
    of the file header: no file shorter than 52 bytes is loaded (60 bytes
    with 64-bit pointers). *)
Theorem loaded_file_length (header : BlendFileInfo) (h : Py.file)
  (dir : list (BlendBlockHeader * Z)) (index : BlendIndex) (h' : Py.file) :
  _parse_blocks header h = Some (Return (dir, index, h')) ->
  12 + 2 * NamedStruct.size (BlendBlockHeader_struct header)
  <= Py.len (Py.contents h)
  /\ 52 <= Py.len (Py.contents h).
Proof.
  intros Hr.
  destruct (blocks_on_disk header (Py.contents h)
              (S (length (Py.contents h))) 12) as [w ending] eqn:Hw.
  destruct (parse_blocks_returned header h w ending dir index h' Hw Hr)
    as (-> & _ & Hd).
  destruct (blocks_inside header (Py.contents h) _ 12 w ltac:(lia) Hw)
    as (w' & blk & -> & Ht & Hblk & Hw').
  pose proof (hsize_bounds header) as Hhs.
  destruct (decode_schemas_index header _ _ _ _ Hd) as [Hc|Hx];
    [congruence|].
  apply Exists_app in Hx as [Hx|Hx].
  - apply Exists_exists in Hx as (x & Hin & _).
    rewrite Forall_forall in Hw'. specialize (Hw' x Hin). lia.
  - inversion Hx as [? ? Hb|? ? Hb]; subst; [|inversion Hb].
    unfold tagged in Ht, Hb.
    destruct (bytes_eqb_spec (code (fst blk)) (b "ENDB")) as [E|E];
      [|discriminate].
    rewrite E in Hb. discriminate Hb.
Qed.

Lemma loaded_file_length_witness :
  12 + 2 * NamedStruct.size (BlendBlockHeader_struct header_v280)
  <= Py.len (Py.contents (opened scenario_file))
  /\ 52 <= Py.len (Py.contents (opened scenario_file)).
Proof.
  apply (loaded_file_length header_v280 (opened scenario_file)
           [scenario_block "DATA" 5 36] scenario_index
           {| Py.contents := scenario_file; Py.pos := 143 |}).
  vm_compute. reflexivity.
Defined.

(** ** Section 4.3 and the decoder *)

Section Stored.

Lemma lor_byte (a x : Z) :
  0 <= a < 256 -> Z.lor a (Z.shiftl x 8) = a + 256 * x.
Proof.
  intros Ha.
  assert (L : Z.land a (Z.shiftl x 8) = 0).
  { apply Z.bits_inj'. intros n Hn. rewrite Z.land_spec, Z.bits_0.
    destruct (Z.ltb_spec n 8) as [H|H].
    - rewrite Z.shiftl_spec_low by assumption. apply andb_false_r.
    - rewrite <- (Z.mod_small a (2 ^ 8)) by (change (2 ^ 8) with 256; lia).
      rewrite Z.mod_pow2_bits_high by lia. reflexivity. }
  rewrite <- Z.lxor_lor by assumption.
  rewrite <- Z.add_nocarry_lxor by assumption.
  rewrite Z.shiftl_mul_pow2 by lia. change (2 ^ 8) with 256. lia.
Qed.

Lemma le_combine_base256 (bs : list byte) :
  le_combine bs = Section43.base256 bs.
Proof.
  induction bs as [|c bs IH]; [reflexivity|].
  change (le_combine (c :: bs))
    with (Z.lor (byte.unsigned c) (Z.shiftl (le_combine bs) 8)).
  change (Section43.base256 (c :: bs))
    with (byte.unsigned c + 256 * Section43.base256 bs).
  rewrite lor_byte by apply byte.unsigned_range. now rewrite IH.
Qed.

Lemma slice_inside {A} (l : list A) (o w : Z) :
  0 <= o -> 0 <= w -> o + w <= Py.len l ->
  Py.slice l o (o + w) = firstn (Z.to_nat w) (skipn (Z.to_nat o) l)
  /\ Py.len (Py.slice l o (o + w)) = w.
Proof.
  intros Ho Hw Hl. unfold Py.slice. rewrite !adjust_nonneg by lia.
  rewrite !Z.min_l by lia.
  replace (o + w - o) with w by lia. split; [reflexivity|].
  unfold Py.len in *. rewrite length_firstn, length_skipn. lia.
Qed.

Variable header : BlendFileInfo.

Lemma to_int_stored (c : Struct.code) (data : list byte) (o : Z) :
  Struct.signed c = true ->
  0 <= o -> o + Struct.calcsize c <= Py.len data ->
  Section43.integer_at (endian header) (Struct.calcsize c) data o
  = Some (to_int header c data o).
Proof.
  intros Hs Ho Hl. unfold Section43.integer_at, to_int, Struct.to_int.
  destruct (Z.leb_spec 0 o); [|lia].
  destruct (Z.leb_spec (o + Struct.calcsize c) (Py.len data)); [|lia].
  cbn [andb]. rewrite Hs. cbn [andb].
  destruct (slice_inside data o (Struct.calcsize c)) as [-> _];
    [lia|destruct c; cbn; lia|lia|].
  now rewrite le_combine_base256.
Qed.

Lemma integer_at_inside (e : Endian) (w : Z) (data : list byte) (o v : Z) :
  Section43.integer_at e w data o = Some v ->
  0 <= o /\ o + w <= Py.len data.
Proof.
  unfold Section43.integer_at.
  destruct (Z.leb_spec 0 o); [|discriminate].
  destruct (Z.leb_spec (o + w) (Py.len data)); [|discriminate].
  intros _. lia.
Qed.

Lemma names_of_window {A} (s : NamedStruct.t A) (data : list byte) (o : Z) :
  0 <= o -> 0 <= NamedStruct.size s ->
  NamedStruct.unpack_from s data o
  = if o + NamedStruct.size s <=? Py.len data
    then Return (NamedStruct.names s
                   (Py.slice data o (o + NamedStruct.size s)))
    else Raise struct_error.
Proof.
  intros Ho Hs. unfold NamedStruct.unpack_from.
  destruct (Z.ltb_spec o 0); [lia|]. cbn [andb].
  destruct (Z.ltb_spec (Py.len data - o) (NamedStruct.size s));
    destruct (Z.leb_spec (o + NamedStruct.size s) (Py.len data));
    try lia; reflexivity.
Qed.

Lemma to_int_window (c : Struct.code) (data : list byte) (o k : Z) (w : Z) :
  0 <= o -> 0 <= k -> k + Struct.calcsize c <= w -> o + w <= Py.len data ->
  to_int header c (Py.slice data o (o + w)) k
  = to_int header c data (o + k).
Proof.
  intros Ho Hk Hkw Hl. unfold to_int. f_equal.
  assert (0 < Struct.calcsize c) by (destruct c; cbn; lia).
  destruct (slice_inside data o w) as [E L]; [lia..|].
  destruct (slice_inside (Py.slice data o (o + w)) k (Struct.calcsize c))
    as [-> _]; [lia..|].
  destruct (slice_inside data (o + k) (Struct.calcsize c)) as [-> _];
    [lia..|].
  rewrite E. rewrite skipn_firstn_comm, firstn_firstn, skipn_skipn.
  f_equal; [lia|]. f_equal. lia.
Qed.

Lemma Int_stored (data : list byte) (o : Z) :
  0 <= o ->
  NamedStruct.unpack_from (Int header) data o
  = match Section43.integer_at (endian header) 4 data o with
    | Some v => Return v
    | None => Raise struct_error
    end.
Proof.
  intros Ho. rewrite names_of_window by (cbn; lia).
  cbn [NamedStruct.size NamedStruct.names Int Struct.calcsize].
  destruct (Z.leb_spec (o + 4) (Py.len data)) as [L|L].
  - rewrite (to_int_stored Struct.i) by (cbn; lia || reflexivity).
    f_equal. rewrite (to_int_window Struct.i data o 0 4) by (cbn; lia).
    f_equal. lia.
  - unfold Section43.integer_at.
    destruct (Z.leb_spec (o + 4) (Py.len data)); [lia|].
    now rewrite andb_false_r.
Qed.

Lemma Short_stored (data : list byte) (o : Z) :
  0 <= o ->
  NamedStruct.unpack_from (Short header) data o
  = match Section43.integer_at (endian header) 2 data o with
    | Some v => Return v
    | None => Raise struct_error
    end.
Proof.
  intros Ho. rewrite names_of_window by (cbn; lia).
  cbn [NamedStruct.size NamedStruct.names Short Struct.calcsize].
  destruct (Z.leb_spec (o + 2) (Py.len data)) as [L|L].
  - rewrite (to_int_stored Struct.h) by (cbn; lia || reflexivity).
    f_equal. rewrite (to_int_window Struct.h data o 0 2) by (cbn; lia).
    f_equal. lia.
  - unfold Section43.integer_at.
    destruct (Z.leb_spec (o + 2) (Py.len data)); [lia|].
    now rewrite andb_false_r.
Qed.

Lemma StructField_stored (data : list byte) (o : Z) (f : Z * Z) :
  0 <= o ->
  NamedStruct.unpack_from (StructField header) data o = Return f ->
  Section43.integer_at (endian header) 2 data o = Some (fst f)
  /\ Section43.integer_at (endian header) 2 data (o + 2) = Some (snd f).
Proof.
  intros Ho. rewrite names_of_window by (cbn; lia).
  cbn [NamedStruct.size NamedStruct.names StructField Struct.calcsize].
  change (2 + 2) with 4.
  destruct (Z.leb_spec (o + 4) (Py.len data)) as [L|L]; [|discriminate].
  intros [= <-]. cbn [fst snd].
  rewrite (to_int_window Struct.h data o 0 4) by (cbn; lia).
  rewrite (to_int_window Struct.h data o 2 4) by (cbn; lia).
  rewrite Z.add_0_r.
  split; apply (to_int_stored Struct.h); cbn; lia || reflexivity.
Qed.

End Stored.

Section Sections.

Lemma strings_split (data : list byte) : forall (n : nat) (k : Z),
  Section43.strings_length n data = Some k ->
  length (Py.split x00 (Z.of_nat n) data) = S n
  /\ Py.sum (map Py.len (Py.drop_last (Py.split x00 (Z.of_nat n) data)))
     + Py.len (Py.drop_last (Py.split x00 (Z.of_nat n) data)) = k.
Proof.
  induction data as [|c rest IH]; intros n k.
  - destruct n as [|n]; cbn [Section43.strings_length]; [|discriminate].
    intros [= <-]. split; reflexivity.
  - destruct n as [|n].
    + cbn [Section43.strings_length]. intros [= <-]. split; reflexivity.
    + cbn [Section43.strings_length Py.split].
      destruct (Z.eqb_spec (Z.of_nat (S n)) 0) as [H0|_]; [lia|].
      destruct (Byte.eqb c x00).
      * destruct (Section43.strings_length n rest) as [k'|] eqn:E;
          [|discriminate].
        cbn [option_map]. intros [= <-].
        destruct (Z.ltb_spec (Z.of_nat (S n)) 0); [lia|].
        replace (Z.of_nat (S n) - 1) with (Z.of_nat n) by lia.
        destruct (IH n k' E) as [L HS].
        destruct (Py.split x00 (Z.of_nat n) rest) as [|piece pieces] eqn:P;
          [discriminate L|].
        split; [cbn [length] in *; lia|].
        unfold Py.drop_last in *.
        change (removelast ([] :: piece :: pieces))
          with ([] :: removelast (piece :: pieces)).
        cbn [map Py.sum fold_right].
        fold (Py.sum (map Py.len (removelast (piece :: pieces)))).
        unfold Py.len in *. cbn [length]. lia.
      * destruct (Section43.strings_length (S n) rest) as [k'|] eqn:E;
          [|discriminate].
        cbn [option_map]. intros [= <-].
        destruct (IH (S n) k' E) as [L HS].
        destruct (Py.split x00 (Z.of_nat (S n)) rest) as [|piece pieces] eqn:P;
          [discriminate L|].
        split; [exact L|].
        destruct pieces as [|piece' pieces]; [discriminate L|].
        unfold Py.drop_last in *.
        change (removelast ((c :: piece) :: piece' :: pieces))
          with ((c :: piece) :: removelast (piece' :: pieces)).
        change (removelast (piece :: piece' :: pieces))
          with (piece :: removelast (piece' :: pieces)) in HS.
        cbn [map Py.sum fold_right] in *.
        fold (Py.sum (map Py.len (removelast (piece' :: pieces)))) in *.
        unfold Py.len in *. cbn [length] in *. lia.
Qed.

Lemma strings_length_nonneg (data : list byte) : forall (n : nat) (k : Z),
  Section43.strings_length n data = Some k -> 0 <= k.
Proof.
  induction data as [|c rest IH]; intros n k;
    destruct n as [|n]; cbn [Section43.strings_length];
    try discriminate; try (intros [= <-]; lia).
  destruct (Section43.strings_length _ rest) as [k'|] eqn:E; [|discriminate].
  cbn [option_map]. intros [= <-]. apply IH in E. lia.
Qed.

Lemma align_next (o : Z) : align o = Section43.next_multiple_of_4 o.
Proof.
  unfold align, Section43.next_multiple_of_4.
  destruct (Z.eqb_spec (o mod 4) 0); Z.div_mod_to_equations; lia.
Qed.

Lemma next_multiple_le (o : Z) : o <= Section43.next_multiple_of_4 o.
Proof. unfold Section43.next_multiple_of_4. Z.div_mod_to_equations. lia. Qed.

Variable header : BlendFileInfo.
Local Abbreviation e := (endian header).

Lemma past_strings_split (data : list byte) (p count o : Z) :
  Section43.past_strings e data p = Some (count, o) ->
  0 <= p /\ p + 4 <= Py.len data /\ 0 <= count /\ p + 4 <= o
  /\ Section43.integer_at e 4 data p = Some count
  /\ o = align
           (p + (Py.sum (map Py.len
                           (Py.drop_last
                              (Py.split x00 count
                                 (Py.slice_from data (p + 4)))))
                 + Py.len (Py.drop_last
                             (Py.split x00 count
                                (Py.slice_from data (p + 4)))) + 4)).
Proof.
  unfold Section43.past_strings.
  destruct (Section43.integer_at e 4 data p) as [c|] eqn:Ei; [|discriminate].
  destruct (Z.ltb_spec c 0) as [|Hc]; [discriminate|].
  destruct (Section43.strings_length _ _) as [n|] eqn:Es; [|discriminate].
  intros [= <- <-].
  destruct (integer_at_inside _ _ _ _ _ Ei) as [Hp Hl].
  pose proof (strings_length_nonneg _ _ _ Es) as Hn.
  pose proof (next_multiple_le (p + 4 + n)).
  repeat split; try lia.
  unfold Py.slice_from. rewrite adjust_nonneg, Z.min_l by lia.
  rewrite <- (Z2Nat.id c) at 1 2 by assumption.
  destruct (strings_split _ _ _ Es) as [_ <-].
  rewrite align_next. f_equal. lia.
Qed.

Lemma read_names_sectioned (data : list byte) (p count o : Z) :
  Section43.past_strings e data p = Some (count, o) ->
  exists names, read_names header data p = Return (names, o).
Proof.
  intros H. apply past_strings_split in H.
  destruct H as (Hp & _ & _ & _ & Ei & ->).
  unfold read_names. rewrite Int_stored, Ei by assumption. cbn [bind].
  eexists. reflexivity.
Qed.

Lemma read_type_names_sectioned (data : list byte) (p count o : Z) :
  0 <= p ->
  Section43.past_strings e data (p + 4) = Some (count, o) ->
  exists names, read_type_names header data p = Return (names, count, o).
Proof.
  intros Hp H. apply past_strings_split in H.
  destruct H as (_ & _ & _ & _ & Ei & ->).
  unfold read_type_names. rewrite Int_stored, Ei by lia. cbn [bind].
  replace (p + 4 + 4) with (p + 8) by lia.
  eexists. f_equal. f_equal. f_equal. lia.
Qed.

Lemma read_types_sectioned (data : list byte) (type_names : list (list byte))
  (count o : Z) :
  0 <= o -> 0 <= count -> o + 4 + count * 2 <= Py.len data ->
  exists types,
    read_types header data type_names count o
    = Return (types, Section43.next_multiple_of_4 (o + 4 + count * 2)).
Proof.
  intros Ho Hc Hl. unfold read_types.
  cbn [NamedStruct.size Short Struct.calcsize].
  destruct (slice_inside data (o + 4) (2 * count)) as [_ L]; [lia..|].
  unfold NamedStruct.iter_unpack.
  cbn [NamedStruct.size Short Struct.calcsize]. rewrite L.
  rewrite Z.mul_comm, Z.mod_mul by lia. cbn [Z.eqb orb negb bind].
  eexists. rewrite align_next. repeat f_equal; lia.
Qed.

(** The offsets of section 4.3, where they are defined, are the offsets
    at which the decoder compares the tags. *)
Lemma type_offset_decoder (data : list byte) (o2 : Z) :
  Section43.type_tag_offset e data = Some o2 ->
  12 <= o2 /\ exists names, read_names header data 8 = Return (names, o2).
Proof.
  unfold Section43.type_tag_offset.
  destruct (Section43.past_strings e data 8) as [[c o]|] eqn:E;
    [|discriminate].
  cbn [option_map snd]. intros [= <-].
  split; [apply past_strings_split in E; lia|].
  eapply read_names_sectioned, E.
Qed.

Lemma tlen_offset_decoder (data : list byte) (type_count o3 : Z) :
  Section43.tlen_tag_offset e data = Some (type_count, o3) ->
  exists o2,
    Section43.type_tag_offset e data = Some o2
    /\ 0 <= type_count /\ 20 <= o3
    /\ exists type_names,
        read_type_names header data o2 = Return (type_names, type_count, o3).
Proof.
  unfold Section43.tlen_tag_offset.
  destruct (Section43.type_tag_offset e data) as [o2|] eqn:E2;
    [|discriminate].
  intros E3. exists o2. split; [reflexivity|].
  destruct (type_offset_decoder _ _ E2) as [H2 _].
  split; [apply past_strings_split in E3; lia|].
  split; [apply past_strings_split in E3; lia|].
  apply read_type_names_sectioned; [lia|exact E3].
Qed.

Lemma strc_offset_decoder (data : list byte) (o4 : Z) :
  Section43.strc_tag_offset e data = Some o4 ->
  exists type_count o3,
    Section43.tlen_tag_offset e data = Some (type_count, o3)
    /\ 24 <= o4
    /\ forall type_names, exists types,
        read_types header data type_names type_count o3
        = Return (types, o4).
Proof.
  unfold Section43.strc_tag_offset.
  destruct (Section43.tlen_tag_offset e data) as [[tc o3]|] eqn:E3;
    [|discriminate].
  destruct (Z.leb_spec (o3 + 4 + tc * 2) (Py.len data)) as [L|];
    [|discriminate].
  intros [= <-]. exists tc, o3. split; [reflexivity|].
  destruct (tlen_offset_decoder _ _ _ E3) as (o2 & _ & Hc & H3 & _).
  pose proof (next_multiple_le (o3 + 4 + tc * 2)).
  split; [lia|].
  intros type_names. apply read_types_sectioned; lia.
Qed.

End Sections.

Section Tagged.

Variable header : BlendFileInfo.
Local Abbreviation e := (endian header).



End Tagged.

Section Mismatch.

Variable header : BlendFileInfo.
Local Abbreviation e := (endian header).





End Mismatch.

Section EncodedSections.




Variable header : BlendFileInfo.
Local Abbreviation e := (endian header).



End EncodedSections.

Section StoredStructures.

Variable header : BlendFileInfo.
Local Abbreviation e := (endian header).

Lemma read_fields_offset (n : nat) : forall data p fs o,
  read_fields header n data p = Return (fs, o) ->
  o = p + 4 * Py.len fs /\ length fs = n.
Proof.
  induction n as [|n IH]; intros data p fs o; cbn [read_fields].
  - intros [= <- <-]. split; [unfold Py.len; cbn; lia|reflexivity].
  - destruct (NamedStruct.unpack_from _ _ _) as [f|]; cbn [bind];
      [|discriminate].
    destruct (read_fields header n data (p + 4)) as [[fs' o']|] eqn:E;
      cbn [bind]; [|discriminate].
    intros [= <- <-]. destruct (IH _ _ _ _ E) as [-> <-].
    split; [unfold Py.len; cbn [length]; lia|reflexivity].
Qed.

Lemma read_fields_stored (n : nat) : forall data p fs o,
  0 <= p ->
  read_fields header n data p = Return (fs, o) ->
  Section43.fields_stored e data p fs.
Proof.
  induction n as [|n IH]; intros data p fs o Hp; cbn [read_fields].
  - intros [= <- _]. exact I.
  - destruct (NamedStruct.unpack_from _ _ _) as [f|] eqn:Ef; cbn [bind];
      [|discriminate].
    destruct (read_fields header n data (p + 4)) as [[fs' o']|] eqn:E;
      cbn [bind]; [|discriminate].
    intros [= <- _]. cbn [Section43.fields_stored].
    destruct (StructField_stored header data p f Hp Ef) as [H1 H2].
    repeat split; try assumption.
    apply (IH data (p + 4) fs' o'); [lia|exact E].
Qed.

Lemma structures_size_cons (s : BlendStructRef) (ss : list BlendStructRef) :
  Section43.structures_size (s :: ss)
  = 4 + 4 * Py.len (fields s) + Section43.structures_size ss.
Proof. reflexivity. Qed.

Lemma read_structures_offset (n : nat) : forall data p ss o,
  read_structures header n data p = Return (ss, o) ->
  o = p + Section43.structures_size ss /\ length ss = n.
Proof.
  induction n as [|n IH]; intros data p ss o; cbn [read_structures].
  - intros [= <- <-]. split; [cbn; lia|reflexivity].
  - destruct (NamedStruct.unpack_from (Short header) data p) as [ti|];
      cbn [bind]; [|discriminate].
    destruct (NamedStruct.unpack_from (Short header) data (p + 2)) as [fc|];
      cbn [bind]; [|discriminate].
    destruct (read_fields _ _ _ _) as [[fs o1]|] eqn:E3; cbn [bind];
      [|discriminate].
    destruct (read_structures header n data o1) as [[ss' o2]|] eqn:E4;
      cbn [bind]; [|discriminate].
    intros [= <- <-]. rewrite structures_size_cons. cbn [fields].
    destruct (read_fields_offset _ _ _ _ _ E3) as [-> _].
    destruct (IH _ _ _ _ E4) as [-> <-].
    split; [lia|reflexivity].
Qed.

Lemma read_structures_stored (n : nat) : forall data p ss o,
  0 <= p ->
  read_structures header n data p = Return (ss, o) ->
  Section43.structures_stored e data p ss.
Proof.
  induction n as [|n IH]; intros data p ss o Hp; cbn [read_structures].
  - intros [= <- _]. exact I.
  - rewrite !Short_stored by lia.
    destruct (Section43.integer_at e 2 data p) as [ti|] eqn:E1;
      cbn [bind]; [|discriminate].
    destruct (Section43.integer_at e 2 data (p + 2)) as [fc|] eqn:E2;
      cbn [bind]; [|discriminate].
    destruct (read_fields _ _ _ _) as [[fs o1]|] eqn:E3; cbn [bind];
      [|discriminate].
    destruct (read_structures header n data o1) as [[ss' o2]|] eqn:E4;
      cbn [bind]; [|discriminate].
    intros [= <- _]. cbn [Section43.structures_stored name fields].
    destruct (read_fields_offset _ _ _ _ _ E3) as [Ho1 Hl].
    pose proof (len_nonneg fs).
    split; [exact E1|]. split.
    { exists fc. split; [exact E2|].
      unfold Py.len, Py.range in *. rewrite Hl. lia. }
    split; [apply (read_fields_stored (Py.range fc) data (p + 4) fs o1);
             [lia|exact E3]|].
    replace (p + 4 + 4 * Py.len fs) with o1 by lia.
    apply (IH data o1 ss' o2); [lia|exact E4].
Qed.

(** A returned index, against the bytes of the payload. *)
Lemma parse_index_stored (data : list byte) (index : BlendIndex) (o : Z) :
  parse_index_data header data = Return (index, o) ->
  exists o4 : Z,
    o = o4 + 8 + Section43.structures_size (structures index)
    /\ Py.slice data o4 (o4 + 4) = b "STRC"
    /\ (0 <= o4 ->
        (exists structure_count,
            Section43.integer_at e 4 data (o4 + 4) = Some structure_count
            /\ Py.len (structures index) = Z.max 0 structure_count)
        /\ Section43.structures_stored e data (o4 + 8) (structures index))
    /\ (forall o',
           Section43.strc_tag_offset e data = Some o' -> o' = o4 /\ 24 <= o4).
Proof.
  unfold parse_index_data.
  destruct (negb _); [discriminate|].
  destruct (read_names header data 8) as [[names o2]|] eqn:E1; cbn [bind];
    [|discriminate].
  destruct (negb _); [discriminate|].
  destruct (read_type_names header data o2) as [[[tn tc] o3]|] eqn:E2;
    cbn [bind]; [|discriminate].
  destruct (negb _); [discriminate|].
  destruct (read_types header data tn tc o3) as [[tys o4]|] eqn:E3;
    cbn [bind]; [|discriminate].
  destruct (bytes_eqb_spec (Py.slice data o4 (o4 + 4)) (b "STRC")) as [T3|T3];
    cbn [negb]; [|discriminate].
  destruct (NamedStruct.unpack_from _ _ _) as [sc|] eqn:E4; cbn [bind];
    [|discriminate].
  destruct (read_structures _ _ _ _) as [[ss o5]|] eqn:E5; cbn [bind];
    [|discriminate].
  intros [= <- <-]. cbn [structures]. exists o4.
  destruct (read_structures_offset _ _ _ _ _ E5) as [-> Hl].
  split; [lia|]. split; [exact T3|]. split.
  - intros Ho4. split.
    + exists sc. rewrite Int_stored in E4 by lia.
      replace (o4 + 8 - 4) with (o4 + 4) in E4 by lia.
      destruct (Section43.integer_at e 4 data (o4 + 4)) as [v|];
        [|discriminate E4].
      injection E4 as ->. split; [reflexivity|].
      unfold Py.len, Py.range in *. rewrite Hl. lia.
    + apply (read_structures_stored (Py.range sc) data (o4 + 8) ss
               (o4 + 8 + Section43.structures_size ss)); [lia|exact E5].
  - intros o' E'.
    destruct (strc_offset_decoder header _ _ E') as (tc' & o3' & E3' & L & R3).
    destruct (tlen_offset_decoder header _ _ _ E3')
      as (o2' & E2' & _ & _ & tn' & R2).
    destruct (type_offset_decoder header _ _ E2') as [_ [names' R1]].
    rewrite R1 in E1. injection E1 as <- <-.
    rewrite R2 in E2. injection E2 as <- <- <-.
    destruct (R3 tn') as [tys' R3']. rewrite R3' in E3.
    injection E3 as _ <-. split; [reflexivity|exact L].
Qed.

End StoredStructures.



(** C6, amended: the indices of a returned index are the signed 16-bit
    values stored in the payload, each at its place after the ["STRC"]
    tag: the structures follow the tag and their count one after the
    other, each a type index, a field count and that many pairs of a
    type index and a name index, and the decoder returns these values as
    they are stored, whatever the numbers of types and names; they lie
    between -32768 and 32767.  This holds whenever the tag was found at
    an offset that is not negative, as it is in every payload that has
    the sections of section 4.3: the tag is then where the section
    expects it.  No index dangles when the payload is the encoding of a
    schema in which none does. *)
Theorem indices_as_stored (header : BlendFileInfo) :
  (forall (data : list byte) (index : BlendIndex) (o : Z),
      parse_index_data header data = Return (index, o) ->
      Forall stored_as_shorts (structures index)
      /\ exists o4 : Z,
          o = o4 + 8 + Section43.structures_size (structures index)
          /\ Py.slice data o4 (o4 + 4) = b "STRC"
          /\ (0 <= o4 ->
              (exists structure_count,
                  Section43.integer_at (endian header) 4 data (o4 + 4)
                  = Some structure_count
                  /\ Py.len (structures index) = Z.max 0 structure_count)
              /\ Section43.structures_stored (endian header) data (o4 + 8)
                   (structures index))
          /\ (forall o',
                 Section43.strc_tag_offset (endian header) data = Some o' ->
                 o' = o4 /\ 24 <= o4))
  /\ (forall (fill : byte) names types structures,
         encodable names types structures ->
         no_dangling {| names := names; types := types;
                        structures := structures |} ->
         exists index o,
           parse_index_data header
             (Encode.schema (endian header) fill names types structures)
           = Return (index, o)
           /\ no_dangling index).
Proof.
  split.
  - intros data index o H. split; [|now apply parse_index_stored].
    revert H. unfold parse_index_data.
    destruct (negb _); [discriminate|].
    destruct (read_names header data 8) as [[names o2]|] eqn:E1; cbn [bind];
      [|discriminate].
    destruct (negb _); [discriminate|].
    destruct (read_type_names header data o2) as [[[tn tc] o3]|] eqn:E2;
      cbn [bind]; [|discriminate].
    destruct (negb _); [discriminate|].
    destruct (read_types header data tn tc o3) as [[tys o4]|] eqn:E3;
      cbn [bind]; [|discriminate].
    destruct (negb _); [discriminate|].
    destruct (NamedStruct.unpack_from _ _ _) as [sc|] eqn:E4; cbn [bind];
      [|discriminate].
    destruct (read_structures _ _ _ _) as [[ss o5]|] eqn:E5; cbn [bind];
      [|discriminate].
    intros [= <- _]. cbn [structures].
    eapply read_structures_range, E5.
  - intros fill names types structures Henc Hnd.
    pose proof (parse_index_encoded header (b "TLEN") fill names types
                  structures [] Henc eq_refl) as H.
    rewrite app_nil_r in H. cbn [bytes_eqb] in H.
    eexists _, _. split; [exact H|exact Hnd].
Qed.

Lemma indices_as_stored_witness :
  (Forall stored_as_shorts (structures scenario_index)
   /\ Section43.structures_stored Little scenario_payload 44
        (structures scenario_index))
  /\ exists index o,
      parse_index_data header_v280
        (Encode.schema Little x00 [b "ob"] [(b "int", 4)]
           scenario_structures)
      = Return (index, o)
      /\ no_dangling index.
Proof.
  split; [|apply (proj2 (indices_as_stored header_v280) x00 [b "ob"]
                    [(b "int", 4)] scenario_structures scenario_encodable);
           repeat constructor].
  destruct (proj1 (indices_as_stored header_v280) scenario_payload
              scenario_index 52) as (Hr & o4 & Ho & _ & Hs & _).
  - vm_compute. reflexivity.
  - split; [exact Hr|].
    change (Section43.structures_size (structures scenario_index)) with 8
      in Ho.
    assert (E : o4 = 36) by lia.
    subst o4. apply Hs. lia.
Defined.
